(** * Streaming order-flow metrics: LegacyCalculator and OpenInterestMonitor

    A shallow embedding of [src/server/metrics/LegacyCalculator.ts] and
    [src/server/metrics/OpenInterestMonitor.ts].

    A JavaScript [number] is an IEEE-754 binary64 value, which is what Rocq's
    primitive [float] is, so prices, quantities and every derived score are
    [float]s and the arithmetic of the source is kept operation for operation
    (same order of additions, same literals).  Timestamps are integer
    milliseconds and are kept in [Z]; array lengths are [nat]s that are
    converted with [of_nat] where the source uses them as numbers. *)

From Stdlib Require Import ZArith List Bool Lia Permutation.
From Stdlib Require String.
Import String.StringSyntax.
Delimit Scope string_scope with string.
From Stdlib Require Import Floats.
From Stdlib Require Uint63.
Import ListNotations.

Set Warnings "-inexact-float".
Local Open Scope Z_scope.

(** ** JavaScript numbers and arrays *)

Module JS.

Abbreviation num := float.

(** [a > b], [a < b], [a <= b], [a === b] and [a !== b] on numbers: the
    first four are [false] as soon as one side is NaN. *)
Definition gt (a b : num) : bool := (b <? a)%float.
Definition lt (a b : num) : bool := (a <? b)%float.
Definition le (a b : num) : bool := (a <=? b)%float.
Definition seq_ (a b : num) : bool := (a =? b)%float.
Definition sne (a b : num) : bool := negb (a =? b)%float.

(** An array length, or a loop index, used as a number. *)
Definition of_nat (n : nat) : num := of_uint63 (Uint63.of_Z (Z.of_nat n)).

Definition isNaN (a : num) : bool := is_nan a.

(** [Math.min(a, b)] and [Math.max(a, b)]: NaN if one argument is NaN,
    and [-0] is below [+0]. *)
Definition Math_min (a b : num) : num :=
  if is_nan a || is_nan b then nan
  else if (a <? b)%float then a
  else if (b <? a)%float then b
  else if get_sign a then a else b.

Definition Math_max (a b : num) : num :=
  if is_nan a || is_nan b then nan
  else if (a <? b)%float then b
  else if (b <? a)%float then a
  else if get_sign a then b else a.

(** [Math.max(...xs)] and [Math.min(...xs)]. *)
Definition Math_max_all (xs : list num) : num :=
  fold_left Math_max xs neg_infinity.
Definition Math_min_all (xs : list num) : num :=
  fold_left Math_min xs infinity.

Definition Math_abs (a : num) : num := PrimFloat.abs a.
Definition Math_sqrt (a : num) : num := PrimFloat.sqrt a.

(** [Math.sign]: NaN for NaN, the argument itself for a zero. *)
Definition Math_sign (a : num) : num :=
  if is_nan a then nan
  else if (0 <? a)%float then 1%float
  else if (a <? 0)%float then (-1)%float
  else a.

(** [Math.pow(x, 2)], the only use of [Math.pow] in the source, taken as the
    product [x * x]. *)
Definition sq (a : num) : num := (a * a)%float.

(** [xs.reduce((a, b) => a + b, 0)]. *)
Definition sum (xs : list num) : num :=
  fold_left (fun a b => (a + b)%float) xs 0%float.

(** [xs.slice(-k)] for [k > 0], the only way the source calls it: the last
    [k] elements, everything when [k] exceeds the length. *)
Definition slice_last {A} (k : nat) (xs : list A) : list A :=
  skipn (length xs - k) xs.

(** [xs.slice(-a, -b)]. *)
Definition slice_between {A} (a b : nat) (xs : list A) : list A :=
  firstn ((length xs - b) - (length xs - a)) (skipn (length xs - a) xs).

(** [xs.push(x); if (xs.length > cap) xs.shift();] *)
Definition push_capped {A} (cap : nat) (xs : list A) (x : A) : list A :=
  let ys := xs ++ [x] in
  if (cap <? length ys)%nat then tl ys else ys.

(** [[test1, ..., testn].filter(Boolean).length] *)
Definition count_true (bs : list bool) : nat :=
  length (filter (fun b => b) bs).

End JS.
Import JS.

(** ** The order book, as [computeMetrics] reads it

    [OrderbookManager.ts] is not part of the sources at hand.  A
    [Map<number, number>] is kept as its entries in insertion order, which
    is what [Array.from(levels.entries())] returns. *)

Record OrderbookState := mkOrderbook {
  bids : list (num * num);
  asks : list (num * num)
}.

(** Modelled from the spec: [bestBid] and [bestAsk] of [OrderbookManager.ts]
    are missing; the spec has "best-bid = maximum bid key, best-ask = minimum
    ask key", and the caller's [?? 0] shows that an empty side gives no
    value. *)
Definition bestBid (ob : OrderbookState) : option num :=
  match bids ob with
  | [] => None
  | e :: es => Some (fold_left Math_max (map fst es) (fst e))
  end.

(** Modelled from the spec: [bestAsk], missing like [bestBid]; the minimum
    ask key, no value for an empty side. *)
Definition bestAsk (ob : OrderbookState) : option num :=
  match asks ob with
  | [] => None
  | e :: es => Some (fold_left Math_min (map fst es) (fst e))
  end.

(** [x ?? 0] *)
Definition or_zero (x : option num) : num :=
  match x with Some v => v | None => 0%float end.

(** ** LegacyCalculator: data *)

Inductive Side := buy | sell.

Record LegacyTrade := mkTrade {
  price : num;
  quantity : num;
  side : Side;
  timestamp : Z
}.

Definition EPSILON : num := 1e-12%float.
Definition VOLATILITY_HISTORY_SIZE : nat := 3600.
Definition ATR_WINDOW : nat := 14.
Definition SWEEP_DETECTION_WINDOW : nat := 30.
Definition BREAKOUT_WINDOW : nat := 15.
Definition ABSORPTION_WINDOW : nat := 60.

(** The private fields of the class (the open-interest monitor it may own is
    a separate object, modelled further down). *)
Record LegacyCalculator := mkCalc {
  trades : list LegacyTrade;
  deltaHistory : list num;
  cvdHistory : list num;
  cvdSession : num;
  totalVolume : num;
  totalNotional : num;
  volatilityHistory : list num;
  volumeHistory : list num;
  lastMidPrice : num
}.

(** The state right after [new LegacyCalculator(...)]. *)
Definition initial : LegacyCalculator :=
  {| trades := []; deltaHistory := []; cvdHistory := [];
     cvdSession := 0; totalVolume := 0; totalNotional := 0;
     volatilityHistory := []; volumeHistory := []; lastMidPrice := 0 |}.

(** [t.side === 'buy' ? t.quantity : -t.quantity] *)
Definition signed_quantity (t : LegacyTrade) : num :=
  match side t with buy => quantity t | sell => (- quantity t)%float end.

(** [while (trades.length > 0 && trades[0].timestamp < cutoff) trades.shift()] *)
Fixpoint evict (cutoff : Z) (ts : list LegacyTrade) : list LegacyTrade :=
  match ts with
  | [] => []
  | t :: rest => if timestamp t <? cutoff then evict cutoff rest else ts
  end.

(** The [for (const t of this.trades)] loops that add up the signed
    quantities of the trades not older than [from]. *)
Definition window_delta (from : Z) (ts : list LegacyTrade) : num :=
  fold_left
    (fun acc t => if from <=? timestamp t then (acc + signed_quantity t)%float else acc)
    ts 0%float.

(** ** [addTrade]

    [delta5s] and [count1s], which the source computes here and never reads,
    are left out. *)

Definition addTrade (c : LegacyCalculator) (trade : LegacyTrade) : LegacyCalculator :=
  let now := timestamp trade in
  let pushed := trades c ++ [trade] in
  let totalVolume' := (totalVolume c + quantity trade)%float in
  let totalNotional' := (totalNotional c + quantity trade * price trade)%float in
  let cvdSession' := (cvdSession c + signed_quantity trade)%float in
  let cutoff := now - 10000 in
  let trades' := evict cutoff pushed in
  let oneSecCutoff := now - 1000 in
  let delta1s := window_delta oneSecCutoff trades' in
  {| trades := trades';
     deltaHistory := push_capped 60 (deltaHistory c) delta1s;
     cvdHistory := push_capped 60 (cvdHistory c) cvdSession';
     cvdSession := cvdSession';
     totalVolume := totalVolume';
     totalNotional := totalNotional';
     volatilityHistory := volatilityHistory c;
     volumeHistory := push_capped 100 (volumeHistory c) (quantity trade);
     lastMidPrice := lastMidPrice c |}.

(** ** Helper functions *)

(** The loop [for (i = 1; i < xs.length; i++) out.push(f(xs[i], xs[i - 1]))]. *)
Fixpoint pairwise {A B} (f : A -> A -> B) (xs : list A) : list B :=
  match xs with
  | previous :: ((current :: _) as rest) => f current previous :: pairwise f rest
  | _ => []
  end.

Definition calculateATR (c : LegacyCalculator) : num :=
  if (length (trades c) <? 2)%nat then 0%float
  else
    let trueRanges :=
      pairwise (fun current previous => Math_abs (current - previous))
               (map price (trades c)) in
    if (length trueRanges =? 0)%nat then 0%float
    else
      let windowSize := Nat.min ATR_WINDOW (length trueRanges) in
      (sum (slice_last windowSize trueRanges) / of_nat windowSize)%float.

Definition calculateStdDev (values : list num) : num :=
  if (length values =? 0)%nat then 0%float
  else
    let mean := (sum values / of_nat (length values))%float in
    let variance :=
      (fold_left (fun acc v => acc + sq (v - mean)) values 0 / of_nat (length values))%float in
    Math_sqrt variance.

Definition calculateSlope (values : list num) : num :=
  let n := length values in
  if (n <? 2)%nat then 0%float
  else
    let xs := map of_nat (seq 0 n) in
    let ys := values in
    let sumX := sum xs in
    let sumY := sum ys in
    let sumXX := fold_left (fun a b => a + b * b)%float xs 0%float in
    let sumXY := fold_left (fun acc xy => acc + fst xy * snd xy)%float (combine xs ys) 0%float in
    let denom := (of_nat n * sumXX - sumX * sumX)%float in
    if lt (Math_abs denom) EPSILON then 0%float
    else ((of_nat n * sumXY - sumX * sumY) / denom)%float.

(** [Math.max(-1, Math.min(1, score))] *)
Definition clamp_unit (score : num) : num :=
  Math_max (-1) (Math_min 1 score).

(** ** Advanced metrics *)

Record SweepVolumes := mkSweep {
  sweepBuyVol : num; sweepSellVol : num; fadeBuyVol : num; fadeSellVol : num
}.

Definition sweep_step (spread midPrice : num) (v : SweepVolumes) (trade : LegacyTrade)
  : SweepVolumes :=
  let priceDeviation := Math_abs (price trade - midPrice) in
  if gt priceDeviation (spread * 0.5) then
    match side trade with
    | buy => mkSweep (sweepBuyVol v + quantity trade) (sweepSellVol v) (fadeBuyVol v) (fadeSellVol v)
    | sell => mkSweep (sweepBuyVol v) (sweepSellVol v + quantity trade) (fadeBuyVol v) (fadeSellVol v)
    end
  else
    match side trade with
    | buy => mkSweep (sweepBuyVol v) (sweepSellVol v) (fadeBuyVol v + quantity trade) (fadeSellVol v)
    | sell => mkSweep (sweepBuyVol v) (sweepSellVol v) (fadeBuyVol v) (fadeSellVol v + quantity trade)
    end.

Definition calculateSweepFadeScore (c : LegacyCalculator) (spread midPrice : num) : num :=
  if (length (trades c) <? 10)%nat then 0%float
  else if lt spread EPSILON then 0%float
  else
    let recentTrades := slice_last SWEEP_DETECTION_WINDOW (trades c) in
    let v := fold_left (sweep_step spread midPrice) recentTrades (mkSweep 0 0 0 0) in
    let totalSweep := (sweepBuyVol v + sweepSellVol v)%float in
    let totalFade := (fadeBuyVol v + fadeSellVol v)%float in
    let totalVol := (totalSweep + totalFade)%float in
    if lt totalVol EPSILON then 0%float
    else
      let sweepNet :=
        if gt totalSweep 0 then ((sweepBuyVol v - sweepSellVol v) / totalSweep)%float
        else 0%float in
      let fadeNet :=
        if gt totalFade 0 then ((fadeBuyVol v - fadeSellVol v) / totalFade)%float
        else 0%float in
      let sweepWeight := (totalSweep / totalVol)%float in
      let score := (sweepNet * sweepWeight + fadeNet * (1 - sweepWeight) * 0.3)%float in
      clamp_unit score.

Definition calculateBreakoutScore (c : LegacyCalculator) (delta1s : num) : num :=
  if (length (trades c) <? 5)%nat then 0%float
  else
    let recentPrices := map price (slice_last BREAKOUT_WINDOW (trades c)) in
    let n := length recentPrices in
    if (n <? 2)%nat then 0%float
    else
      let slope := calculateSlope recentPrices in
      let atr := calculateATR c in
      if lt atr EPSILON then 0%float
      else
        let normalizedSlope := (slope / atr)%float in
        let deltaConfirm :=
          if seq_ (Math_sign delta1s) (Math_sign slope) then 1.0%float else 0.5%float in
        let recentVol := sum (map quantity (slice_last 5 (trades c))) in
        let avgVol :=
          if (0 <? length (volumeHistory c))%nat
          then (sum (volumeHistory c) / of_nat (length (volumeHistory c)))%float
          else (recentVol / 5)%float in
        let volumeConfirm := if gt recentVol (avgVol * 0.8) then 1.0%float else 0.7%float in
        let score := (normalizedSlope * deltaConfirm * volumeConfirm)%float in
        clamp_unit score.

(** [calculateRegimeWeight] is the one helper that writes to the state: it
    returns the calculator with its [volatilityHistory] and the weight. *)
Definition calculateRegimeWeight (c : LegacyCalculator) : LegacyCalculator * num :=
  if (length (trades c) <? 5)%nat then (c, 0%float)
  else
    let recentPrices := map price (slice_last 30 (trades c)) in
    if (length recentPrices <? 2)%nat then (c, 0%float)
    else
      let returns :=
        pairwise (fun current previous => (current - previous) / previous)%float recentPrices in
      if (length returns =? 0)%nat then (c, 0%float)
      else
        let currentVol := calculateStdDev returns in
        let history := push_capped VOLATILITY_HISTORY_SIZE (volatilityHistory c) currentVol in
        let c' :=
          {| trades := trades c; deltaHistory := deltaHistory c; cvdHistory := cvdHistory c;
             cvdSession := cvdSession c; totalVolume := totalVolume c;
             totalNotional := totalNotional c;
             volatilityHistory := history;
             volumeHistory := volumeHistory c; lastMidPrice := lastMidPrice c |} in
        let maxVol := Math_max_all (history ++ [(currentVol * 1.1)%float]) in
        if lt maxVol EPSILON then (c', 0%float)
        else (c', Math_min 1.0 (currentVol / maxVol)).

Definition is_buy (t : LegacyTrade) : bool :=
  match side t with buy => true | sell => false end.

Definition calculateAbsorptionScore (c : LegacyCalculator) (delta1s : num) : num :=
  if (length (trades c) <? 5)%nat then 0%float
  else
    let window := slice_last ABSORPTION_WINDOW (trades c) in
    if (length window <? 5)%nat then 0%float
    else
      let prices := map price window in
      let quantities := map quantity window in
      let totalVol := sum quantities in
      let avgVol := (totalVol / of_nat (length window))%float in
      let recentVol :=
        (sum (slice_last 10 quantities) / of_nat (Nat.min 10 (length quantities)))%float in
      let volumeIntensity :=
        if gt avgVol EPSILON then (Math_min 2.0 (recentVol / avgVol) / 2)%float
        else 0%float in
      let minPrice := Math_min_all prices in
      let maxPrice := Math_max_all prices in
      let avgPrice := (sum prices / of_nat (length prices))%float in
      let priceRange :=
        if gt avgPrice EPSILON then ((maxPrice - minPrice) / avgPrice)%float else 0%float in
      let priceStability := Math_max 0 (1 - priceRange * 100) in
      let recentTrades := slice_last 10 window in
      let buyCount := length (filter is_buy recentTrades) in
      let sellCount := (length recentTrades - buyCount)%nat in
      let dominance :=
        (Math_abs (of_nat buyCount - of_nat sellCount) / of_nat (length recentTrades))%float in
      let deltaStability :=
        if (5 <=? length (deltaHistory c))%nat
        then (1 - Math_min 1 (calculateStdDev (slice_last 5 (deltaHistory c))
                                / (Math_abs delta1s + EPSILON)))%float
        else 0.5%float in
      let absorptionScore :=
        (volumeIntensity * priceStability * (0.5 + dominance * 0.5)
         * (0.7 + deltaStability * 0.3))%float in
      let absorptionScore :=
        if gt volumeIntensity 0.5 && gt priceStability 0.8
        then (absorptionScore * 1.3)%float else absorptionScore in
      Math_min 1.0 absorptionScore.

(** [xs[xs.length - k]]; reading past the ends gives [undefined], which every
    use below turns into NaN. *)
Definition from_end (k : nat) (xs : list num) : num :=
  nth (length xs - k) xs nan.

(** The five tests of [calculateExhaustion], in the order of the source. *)
Definition cvdPriceDivergence (cvd priceChange : num) : bool :=
  (gt cvd 0 && lt priceChange (-0.05)) || (lt cvd 0 && gt priceChange 0.05).

Definition deltaReversal (c : LegacyCalculator) : bool :=
  if (2 <=? length (deltaHistory c))%nat then
    let lastSign := Math_sign (from_end 1 (deltaHistory c)) in
    let prevSign := Math_sign (from_end 2 (deltaHistory c)) in
    sne lastSign prevSign && sne lastSign 0 && sne prevSign 0
  else false.

Definition slopeFlatline (cvdSlope : num) : bool :=
  lt (Math_abs cvdSlope) 5.

Definition volumeDeclining (c : LegacyCalculator) : bool :=
  if (20 <=? length (volumeHistory c))%nat then
    let recent10 := sum (slice_last 10 (volumeHistory c)) in
    let prev10 := sum (slice_between 20 10 (volumeHistory c)) in
    lt recent10 (prev10 * 0.8)
  else false.

Definition deltaFading (c : LegacyCalculator) : bool :=
  if (5 <=? length (deltaHistory c))%nat then
    let recentDeltas := slice_last 5 (deltaHistory c) in
    forallb (fun b => b)
      (pairwise (fun d previous => le (Math_abs d) (Math_abs previous * 1.1)) recentDeltas)
  else false.

(** [exhaustionCount] is the counter of the source, incremented test by test. *)
Definition calculateExhaustion (c : LegacyCalculator)
    (cvd deltaZ priceChange cvdSlope : num) : bool :=
  let exhaustionCount := 0%nat in
  let exhaustionCount :=
    if cvdPriceDivergence cvd priceChange then S exhaustionCount else exhaustionCount in
  let exhaustionCount :=
    if deltaReversal c then S exhaustionCount else exhaustionCount in
  let exhaustionCount :=
    if slopeFlatline cvdSlope then S exhaustionCount else exhaustionCount in
  let exhaustionCount :=
    if volumeDeclining c then S exhaustionCount else exhaustionCount in
  let exhaustionCount :=
    if deltaFading c then S exhaustionCount else exhaustionCount in
  (3 <=? exhaustionCount)%nat.

(** ** [computeMetrics] *)

(** The object [computeMetrics] returns. *)
Module Snapshot.
Record t := mk {
  price : num;
  obiWeighted : num;
  obiDeep : num;
  obiDivergence : num;
  delta1s : num;
  delta5s : num;
  deltaZ : num;
  cvdSession : num;
  cvdSlope : num;
  vwap : num;
  totalVolume : num;
  totalNotional : num;
  absorptionScore : num;
  sweepFadeScore : num;
  breakoutScore : num;
  regimeWeight : num;
  tradeCount : nat;
  tradeSignal : Z;
  exhaustion : bool
}.
End Snapshot.

(** [entries.sort((a, b) => isAsk ? a[0] - b[0] : b[0] - a[0])]: the sort is
    stable, an entry goes in front of the first one it compares below. *)
Definition compare_levels (isAsk : bool) (a b : num * num) : num :=
  if isAsk then (fst a - fst b)%float else (fst b - fst a)%float.

Fixpoint insert_level (isAsk : bool) (x : num * num) (sorted : list (num * num))
  : list (num * num) :=
  match sorted with
  | [] => [x]
  | y :: rest =>
      if lt (compare_levels isAsk x y) 0 then x :: sorted
      else y :: insert_level isAsk x rest
  end.

Definition sort_levels (isAsk : bool) (entries : list (num * num)) : list (num * num) :=
  fold_left (fun sorted x => insert_level isAsk x sorted) entries [].

Definition calcVolume (levels : list (num * num)) (depth : nat) (isAsk : bool) : num :=
  let entries := sort_levels isAsk levels in
  sum (map snd (firstn (Nat.min depth (length entries)) entries)).

(** [denom > EPSILON ? raw / denom : 0] *)
Definition imbalance (bidVol askVol : num) : num :=
  let raw := (bidVol - askVol)%float in
  let denom := (bidVol + askVol)%float in
  if gt denom EPSILON then (raw / denom)%float else 0%float.

Definition set_lastMidPrice (c : LegacyCalculator) (midPrice : num) : LegacyCalculator :=
  {| trades := trades c; deltaHistory := deltaHistory c; cvdHistory := cvdHistory c;
     cvdSession := cvdSession c; totalVolume := totalVolume c;
     totalNotional := totalNotional c; volatilityHistory := volatilityHistory c;
     volumeHistory := volumeHistory c; lastMidPrice := midPrice |}.

(** The buy and the sell tests of the signal, counted. *)
Definition buyConditions (obiWeighted deltaZ cvdSlope sweepFadeScore breakoutScore : num) : nat :=
  count_true [gt obiWeighted 0.2; gt deltaZ 0.8; gt cvdSlope 0;
              gt sweepFadeScore 0.3; gt breakoutScore 0.2].

Definition sellConditions (obiWeighted deltaZ cvdSlope sweepFadeScore breakoutScore : num) : nat :=
  count_true [lt obiWeighted (-0.2); lt deltaZ (-0.8); lt cvdSlope 0;
              lt sweepFadeScore (-0.3); lt breakoutScore (-0.2)].

(** [dateNow] is what [Date.now()] returns during the call. *)
Definition computeMetrics (c : LegacyCalculator) (ob : OrderbookState) (dateNow : Z)
  : LegacyCalculator * Snapshot.t :=
  let bidVol10 := calcVolume (bids ob) 10 false in
  let askVol10 := calcVolume (asks ob) 10 true in
  let obiWeighted := imbalance bidVol10 askVol10 in
  let bidVol50 := calcVolume (bids ob) 50 false in
  let askVol50 := calcVolume (asks ob) 50 true in
  let obiDeep := imbalance bidVol50 askVol50 in
  let obiDivergence := (obiWeighted - obiDeep)%float in
  let refTime :=
    match trades c with
    | [] => dateNow
    | _ => timestamp (last (trades c) (mkTrade 0 0 buy 0))
    end in
  let delta1s := window_delta (refTime - 1000) (trades c) in
  let delta5s := window_delta (refTime - 5000) (trades c) in
  let deltaZ :=
    if (5 <=? length (deltaHistory c))%nat then
      let mean := (sum (deltaHistory c) / of_nat (length (deltaHistory c)))%float in
      let variance :=
        (fold_left (fun acc v => acc + sq (v - mean)) (deltaHistory c) 0
         / of_nat (length (deltaHistory c)))%float in
      let std := Math_sqrt variance in
      if gt std EPSILON then ((delta1s - mean) / std)%float else 0%float
    else 0%float in
  let cvdSlope := calculateSlope (cvdHistory c) in
  let vwap :=
    if gt (totalVolume c) EPSILON then (totalNotional c / totalVolume c)%float
    else 0%float in
  let bestBidPrice := or_zero (bestBid ob) in
  let bestAskPrice := or_zero (bestAsk ob) in
  let spread := (bestAskPrice - bestBidPrice)%float in
  let midPrice := ((bestBidPrice + bestAskPrice) / 2)%float in
  let priceChange :=
    if gt (lastMidPrice c) EPSILON
    then ((midPrice - lastMidPrice c) / lastMidPrice c)%float
    else 0%float in
  let c1 := set_lastMidPrice c midPrice in
  let sweepFadeScore := calculateSweepFadeScore c1 spread midPrice in
  let breakoutScore := calculateBreakoutScore c1 delta1s in
  let '(c2, regimeWeight) := calculateRegimeWeight c1 in
  let absorptionScore := calculateAbsorptionScore c2 delta1s in
  let exhaustion := calculateExhaustion c2 (cvdSession c2) deltaZ priceChange cvdSlope in
  let buys := buyConditions obiWeighted deltaZ cvdSlope sweepFadeScore breakoutScore in
  let sells := sellConditions obiWeighted deltaZ cvdSlope sweepFadeScore breakoutScore in
  let tradeSignal :=
    if (3 <=? buys)%nat && negb exhaustion then 1
    else if (3 <=? sells)%nat && negb exhaustion then -1
    else 0 in
  (c2,
   {| Snapshot.price := midPrice;
      Snapshot.obiWeighted := obiWeighted;
      Snapshot.obiDeep := obiDeep;
      Snapshot.obiDivergence := obiDivergence;
      Snapshot.delta1s := delta1s;
      Snapshot.delta5s := delta5s;
      Snapshot.deltaZ := deltaZ;
      Snapshot.cvdSession := cvdSession c2;
      Snapshot.cvdSlope := cvdSlope;
      Snapshot.vwap := vwap;
      Snapshot.totalVolume := totalVolume c2;
      Snapshot.totalNotional := totalNotional c2;
      Snapshot.absorptionScore := absorptionScore;
      Snapshot.sweepFadeScore := sweepFadeScore;
      Snapshot.breakoutScore := breakoutScore;
      Snapshot.regimeWeight := regimeWeight;
      Snapshot.tradeCount := length (trades c2);
      Snapshot.tradeSignal := tradeSignal;
      Snapshot.exhaustion := exhaustion |}).

(** ** Sessions: any interleaving of ingests and passes *)

Inductive Op :=
| Ingest (trade : LegacyTrade)
| Pass (ob : OrderbookState) (dateNow : Z).

Definition step (c : LegacyCalculator) (op : Op) : LegacyCalculator :=
  match op with
  | Ingest trade => addTrade c trade
  | Pass ob dateNow => fst (computeMetrics c ob dateNow)
  end.

Definition run (ops : list Op) : LegacyCalculator := fold_left step ops initial.

(** The trades of a session, in the order they were ingested. *)
Fixpoint ingested (ops : list Op) : list LegacyTrade :=
  match ops with
  | [] => []
  | Ingest trade :: rest => trade :: ingested rest
  | Pass _ _ :: rest => ingested rest
  end.

(** Timestamps never go back along the feed. *)
Fixpoint nondecreasing (stamps : list Z) : Prop :=
  match stamps with
  | [] => True
  | a :: rest => (forall b, In b rest -> a <= b) /\ nondecreasing rest
  end.

(** A timestamp is a time value: a whole number of milliseconds, at most
    8.64e15 away from the epoch (the range of [Date]). *)
Definition MAX_TIME : Z := 8640000000000000.

Definition time_value (t : Z) : Prop := - MAX_TIME <= t <= MAX_TIME.

Definition time_values (stamps : list Z) : Prop := Forall time_value stamps.

(** ** Timestamps as the source holds them

    The source keeps a timestamp in a number and subtracts 10,000, 5,000 or
    1,000 from it.  [stamp t] is the number that holds the integer [t];
    [evict_numbers], [window_delta_numbers] and [addTrade_numbers] are
    [evict], [window_delta] and [addTrade] run on those numbers.  On time
    values the subtraction is exact and they are the functions on integers
    ([StampFacts.addTrade_on_time_values], [StampFacts.run_on_time_values]);
    from 2^53 on the subtraction rounds, and the integers no longer follow
    the numbers ([StampFacts.addTrade_beyond_time_values]). *)

(** Below 2^63 in magnitude, which is all that is ever asked of it:
    [of_uint63] takes 63 bits, and rounds to the nearest number as a
    literal does. *)
Definition stamp (t : Z) : num :=
  match t with
  | Z0 => 0%float
  | Zpos p => of_uint63 (Uint63.of_Z (Zpos p))
  | Zneg p => (- of_uint63 (Uint63.of_Z (Zpos p)))%float
  end.

(** [while (trades.length > 0 && trades[0].timestamp < cutoff) trades.shift()] *)
Fixpoint evict_numbers (cutoff : num) (ts : list LegacyTrade) : list LegacyTrade :=
  match ts with
  | [] => []
  | t :: rest =>
      if lt (stamp (timestamp t)) cutoff then evict_numbers cutoff rest else ts
  end.

(** [if (t.timestamp >= from) delta += ...] over the window. *)
Definition window_delta_numbers (from : num) (ts : list LegacyTrade) : num :=
  fold_left
    (fun acc t =>
       if le from (stamp (timestamp t)) then (acc + signed_quantity t)%float else acc)
    ts 0%float.

Definition addTrade_numbers (c : LegacyCalculator) (trade : LegacyTrade)
  : LegacyCalculator :=
  let now := stamp (timestamp trade) in
  let pushed := trades c ++ [trade] in
  let totalVolume' := (totalVolume c + quantity trade)%float in
  let totalNotional' := (totalNotional c + quantity trade * price trade)%float in
  let cvdSession' := (cvdSession c + signed_quantity trade)%float in
  let cutoff := (now - 10000)%float in
  let trades' := evict_numbers cutoff pushed in
  let oneSecCutoff := (now - 1000)%float in
  let delta1s := window_delta_numbers oneSecCutoff trades' in
  {| trades := trades';
     deltaHistory := push_capped 60 (deltaHistory c) delta1s;
     cvdHistory := push_capped 60 (cvdHistory c) cvdSession';
     cvdSession := cvdSession';
     totalVolume := totalVolume';
     totalNotional := totalNotional';
     volatilityHistory := volatilityHistory c;
     volumeHistory := push_capped 100 (volumeHistory c) (quantity trade);
     lastMidPrice := lastMidPrice c |}.

(** A session whose ingests run on numbers.  A pass leaves the window
    alone: its own two sums over the window only reach the snapshot. *)
Definition step_numbers (c : LegacyCalculator) (op : Op) : LegacyCalculator :=
  match op with
  | Ingest trade => addTrade_numbers c trade
  | Pass ob dateNow => fst (computeMetrics c ob dateNow)
  end.

Definition run_numbers (ops : list Op) : LegacyCalculator :=
  fold_left step_numbers ops initial.

(** A binary64 number that holds the integer [v > 0] with sign [s]: a
    mantissa of 53 bits and the exponent that goes with it. *)
Definition holds (s : bool) (v : Z) (r : spec_float) : Prop :=
  match r with
  | S754_finite s' m e =>
      s' = s /\ e <= 0 /\ Zpos m = v * 2 ^ (- e) /\ Zpos (digits2_pos m) = 53
  | _ => False
  end.

Definition encodes (z : Z) (r : spec_float) : Prop :=
  match z with
  | Z0 => r = S754_zero false
  | Zpos p => holds false (Zpos p) r
  | Zneg p => holds true (Zpos p) r
  end.

(** The bounded-history invariant. *)
Record bounded (c : LegacyCalculator) : Prop := {
  delta_bound : (length (deltaHistory c) <= 60)%nat;
  cvd_bound : (length (cvdHistory c) <= 60)%nat;
  volume_bound : (length (volumeHistory c) <= 100)%nat;
  volatility_bound : (length (volatilityHistory c) <= 3600)%nat
}.

(** ** Quantities the statements below are written with *)

(** The returns the regime score takes its deviation of. *)
Definition current_volatility (c : LegacyCalculator) : num :=
  calculateStdDev
    (pairwise (fun current previous => (current - previous) / previous)%float
              (map price (slice_last 30 (trades c)))).

(** [(bestBid(ob) ?? 0 + bestAsk(ob) ?? 0) / 2] *)
Definition mid_price (ob : OrderbookState) : num :=
  ((or_zero (bestBid ob) + or_zero (bestAsk ob)) / 2)%float.

(** The rule of the signal, worded over a finished snapshot: how many of the
    five buy tests and of the five mirrored sell tests its fields pass. *)
Definition buys_of (m : Snapshot.t) : nat :=
  count_true [gt (Snapshot.obiWeighted m) 0.2; gt (Snapshot.deltaZ m) 0.8;
              gt (Snapshot.cvdSlope m) 0; gt (Snapshot.sweepFadeScore m) 0.3;
              gt (Snapshot.breakoutScore m) 0.2].

Definition sells_of (m : Snapshot.t) : nat :=
  count_true [lt (Snapshot.obiWeighted m) (-0.2); lt (Snapshot.deltaZ m) (-0.8);
              lt (Snapshot.cvdSlope m) 0; lt (Snapshot.sweepFadeScore m) (-0.3);
              lt (Snapshot.breakoutScore m) (-0.2)].

(** ** Exhaustion, condition by condition

    The five conditions as the prose has them, over the calculator as it is
    when the pass starts and the book the pass is given. *)

(** The relative change of the mid price since the previous pass, 0 when that
    pass left no mid price above 1e-12. *)
Definition price_change (c : LegacyCalculator) (ob : OrderbookState) : num :=
  if gt (lastMidPrice c) EPSILON
  then ((mid_price ob - lastMidPrice c) / lastMidPrice c)%float
  else 0%float.

(** (a) The sign of the session CVD opposes a price change beyond the
    threshold, a fraction of the previous mid price. *)
Definition cvd_opposes_price (threshold : num) (c : LegacyCalculator) (ob : OrderbookState)
  : bool :=
  (gt (cvdSession c) 0 && lt (price_change c ob) (- threshold))
  || (lt (cvdSession c) 0 && gt (price_change c ob) threshold).

(** 0.05 %, the threshold of the prose, and 0.05, the one of the source. *)
Definition threshold_in_prose : num := 0.0005%float.
Definition threshold_in_source : num := 0.05%float.

(** (b) The last two entries of [deltaHistory] have opposite non-zero signs.
    A NaN entry has no sign: the source takes it for a reversal next to
    anything that is not a zero. *)
Definition opposite_signs (a b : num) : bool :=
  (gt a 0 && lt b 0) || (lt a 0 && gt b 0).

Definition reversal (a b : num) : bool :=
  if isNaN a || isNaN b then sne a 0 && sne b 0 else opposite_signs a b.

Definition last_two_reversed (c : LegacyCalculator) : bool :=
  match rev (deltaHistory c) with
  | newest :: before :: _ => reversal newest before
  | _ => false
  end.

(** (c) The CVD slope is flat. *)
Definition slope_is_flat (cvdSlope : num) : bool := lt (Math_abs cvdSlope) 5.

(** (d) At least 20 volumes, and the last 10 add up to less than 0.8 times
    the 10 before them. *)
Definition volume_declines (c : LegacyCalculator) : bool :=
  (20 <=? length (volumeHistory c))%nat
  && lt (sum (slice_last 10 (volumeHistory c)))
        (0.8 * sum (firstn 10 (slice_last 20 (volumeHistory c)))).

(** (e) At least 5 deltas, and over the last five no magnitude exceeds 1.1
    times the one before it. *)
Definition within_tolerance (d previous : num) : bool :=
  le (Math_abs d) (1.1 * Math_abs previous).

Definition deltas_fade (c : LegacyCalculator) : bool :=
  (5 <=? length (deltaHistory c))%nat
  && match slice_last 5 (deltaHistory c) with
     | [d0; d1; d2; d3; d4] =>
         within_tolerance d1 d0 && within_tolerance d2 d1
         && within_tolerance d3 d2 && within_tolerance d4 d3
     | _ => false
     end.

(** How many of the five hold at a pass. *)
Definition conditions_met (threshold : num) (c : LegacyCalculator) (ob : OrderbookState)
    (m : Snapshot.t) : nat :=
  count_true [cvd_opposes_price threshold c ob; last_two_reversed c;
              slope_is_flat (Snapshot.cvdSlope m); volume_declines c; deltas_fade c].

(** ** Sessions and books used as examples *)

Definition nan_price_trade : LegacyTrade := mkTrade nan 2 buy 1000.
Definition nan_quantity_trade : LegacyTrade := mkTrade 100 nan sell 1000.

(** A session for the exhaustion flag: five buys of 1 at 100, two seconds
    apart, a pass on a book centred on 100, then a pass on a book centred on
    99, one percent lower. *)
Definition five_buys : list Op :=
  [Ingest (mkTrade 100 1 buy 0); Ingest (mkTrade 100 1 buy 2000);
   Ingest (mkTrade 100 1 buy 4000); Ingest (mkTrade 100 1 buy 6000);
   Ingest (mkTrade 100 1 buy 8000)].

Definition book_around_100 : OrderbookState :=
  mkOrderbook [(99%float, 1%float)] [(101%float, 1%float)].
Definition book_around_99 : OrderbookState :=
  mkOrderbook [(98%float, 1%float)] [(100%float, 1%float)].

Definition after_first_pass : LegacyCalculator :=
  run (five_buys ++ [Pass book_around_100 9000]).

(** Five trades at price 0, one millisecond apart. *)
Definition zero_price_trades : list Op :=
  [Ingest (mkTrade 0 1 buy 0); Ingest (mkTrade 0 1 buy 1); Ingest (mkTrade 0 1 buy 2);
   Ingest (mkTrade 0 1 buy 3); Ingest (mkTrade 0 1 buy 4)].

Definition in_range (low high x : num) : bool := le low x && le x high.

(** ** OpenInterestMonitor *)

Module OI.

Record OpenInterestMonitor := mk {
  symbol : String.string;
  currentOI : num;
  previousOI : num;
  oiHistory : list (num * Z);   (* value, timestamp *)
  lastFetchTime : Z
}.

Definition FETCH_INTERVAL_MS : Z := 60000.

(** [new OpenInterestMonitor(symbol)] *)
Definition create (symbol : String.string) : OpenInterestMonitor :=
  {| symbol := symbol; currentOI := 0; previousOI := 0; oiHistory := [];
     lastFetchTime := 0 |}.

(** What the awaited calls of the [try] block can come back with. *)
Inductive FetchResult :=
| FetchThrows                 (* [fetch] rejects: network error *)
| NotOk (status : Z)          (* a response with [ok] false *)
| BodyThrows                  (* [response.json()] rejects, or [data] has no fields to read *)
| Body (newVal : num).        (* [parseFloat(data.openInterest)], NaN when it is no number *)

Inductive LogLine :=
| FailedToFetch (status : Z)
| FetchError.

Inductive trend_t := up | down | flat.
Inductive signal_t := bullish | bearish | neutral.
Inductive source_t := real | mock.

Record OpenInterestMetrics := mkMetrics {
  openInterest : num;
  delta : num;
  deltaPercent : num;
  trend : trend_t;
  signal : signal_t;
  volatility : num;
  strength : num;
  lastUpdate : Z;
  source : source_t
}.

(** [updateOpenInterest] either returns before it fetches, or awaits the
    fetch for a symbol and goes on with its outcome, on the monitor as it is
    when the call resumes. *)
Inductive Run :=
| Return (m : OpenInterestMonitor)
| Fetch (forSymbol : String.string)
        (resume : FetchResult -> OpenInterestMonitor -> OpenInterestMonitor * list LogLine).

Definition set_lastFetchTime (m : OpenInterestMonitor) (now : Z) : OpenInterestMonitor :=
  {| symbol := symbol m; currentOI := currentOI m; previousOI := previousOI m;
     oiHistory := oiHistory m; lastFetchTime := now |}.

(** The [if (!isNaN(newVal)) { ... }] block. *)
Definition store (m : OpenInterestMonitor) (newVal : num) (now : Z) : OpenInterestMonitor :=
  let previousOI' := if gt (currentOI m) 0 then currentOI m else newVal in
  {| symbol := symbol m; currentOI := newVal; previousOI := previousOI';
     oiHistory := push_capped 60 (oiHistory m) (newVal, now);
     lastFetchTime := lastFetchTime m |}.

(** The [try { ... } catch] block, from the point where the fetch settles. *)
Definition after_fetch (now : Z) (r : FetchResult) (m : OpenInterestMonitor)
  : OpenInterestMonitor * list LogLine :=
  match r with
  | FetchThrows => (m, [FetchError])
  | NotOk status => (m, [FailedToFetch status])
  | BodyThrows => (m, [FetchError])
  | Body newVal =>
      let m1 := if negb (isNaN newVal) then store m newVal now else m in
      (set_lastFetchTime m1 now, [])
  end.

(** [now] is [Date.now()] at the start of the call. *)
Definition updateOpenInterest (m : OpenInterestMonitor) (now : Z) : Run :=
  if (now - lastFetchTime m <? FETCH_INTERVAL_MS) && gt (currentOI m) 0
  then Return m
  else Fetch (symbol m) (after_fetch now).

(** A whole call, when nothing else touches the monitor while it waits:
    the monitor afterwards, what was logged, and whether it fetched. *)
Definition refresh (m : OpenInterestMonitor) (now : Z) (r : FetchResult)
  : OpenInterestMonitor * list LogLine * bool :=
  match updateOpenInterest m now with
  | Return m' => (m', [], false)
  | Fetch _ resume => (resume r m, true)
  end.

Definition calculateOIVolatility (m : OpenInterestMonitor) : num :=
  if (length (oiHistory m) <? 2)%nat then 0%float
  else
    let recent := slice_last 10 (oiHistory m) in
    let mean :=
      (fold_left (fun acc item => acc + fst item) recent 0 / of_nat (length recent))%float in
    let variance :=
      (fold_left (fun acc item => acc + sq (fst item - mean)) recent 0
       / of_nat (length recent))%float in
    let stdDev := Math_sqrt variance in
    let maxOI := Math_max_all (map fst recent ++ [1%float]) in
    Math_min 1 (stdDev / maxOI * 1000).

Definition getMetrics (m : OpenInterestMonitor) (dateNow : Z) : OpenInterestMetrics :=
  let delta := (currentOI m - previousOI m)%float in
  let deltaPercent :=
    if gt (previousOI m) 0 then (delta / previousOI m * 100)%float else 0%float in
  let trend :=
    if gt (Math_abs delta) (currentOI m * 0.0005)
    then (if gt delta 0 then up else down)
    else flat in
  let volatility := calculateOIVolatility m in
  let signal :=
    match trend with
    | up => if gt deltaPercent 0.1 then bullish else neutral
    | down => if lt deltaPercent (-0.1) then bearish else neutral
    | flat => neutral
    end in
  let strength := Math_max (-1) (Math_min 1 (deltaPercent * 10)) in
  {| openInterest := currentOI m; delta := delta; deltaPercent := deltaPercent;
     trend := trend; signal := signal; volatility := volatility;
     strength := strength; lastUpdate := dateNow; source := real |}.

(** The fetch gave no number. *)
Definition failed (r : FetchResult) : bool :=
  match r with
  | Body newVal => isNaN newVal
  | _ => true
  end.

(** Two readings of "the fetched values are non-negative": the bare
    comparison, which +Infinity passes, and the same for finite values. *)
Definition non_negative (newVal : num) : bool := le 0 newVal.
Definition finite_non_negative (newVal : num) : bool := is_finite newVal && le 0 newVal.

(** A fetch fails, or delivers a value that passes the test. *)
Definition delivers (ok : num -> bool) (r : FetchResult) : Prop :=
  match r with
  | Body newVal => isNaN newVal || ok newVal = true
  | _ => True
  end.

(** The monitors that calls of [refresh] lead to from a new one. *)
Inductive reachable (ok : num -> bool) : OpenInterestMonitor -> Prop :=
| reach_create (symbol : String.string) : reachable ok (create symbol)
| reach_refresh (m : OpenInterestMonitor) (now : Z) (r : FetchResult) :
    reachable ok m -> delivers ok r -> reachable ok (fst (fst (refresh m now r))).

(** What holds of every monitor reached with finite values that are not
    negative: [currentOI] is such a value, and [previousOI] is either equal
    to it or finite and positive. *)
Definition settled (m : OpenInterestMonitor) : Prop :=
  finite_non_negative (currentOI m) = true /\
  (previousOI m = currentOI m \/
   (gt (previousOI m) 0 = true /\ is_finite (previousOI m) = true)).

(** Monitors used as examples: one that fetched 5 at time 1000; one that
    fetched 100 and then 101; one that fetched 1, +Infinity and 1. *)
Definition fetched_5 : OpenInterestMonitor :=
  fst (fst (refresh (create "BTCUSDT"%string) 1000 (Body 5))).

Definition rose_by_one : OpenInterestMonitor :=
  fst (fst (refresh (fst (fst (refresh (create "BTCUSDT"%string) 100000 (Body 100))))
                    200000 (Body 101))).

Definition through_infinity : OpenInterestMonitor :=
  fst (fst (refresh
    (fst (fst (refresh (fst (fst (refresh (create "BTCUSDT"%string) 100000 (Body 1))))
                       200000 (Body infinity))))
    300000 (Body 1))).

End OI.

(** ** Magnitudes of binary64 numbers

    The exponent range of the format, and what a bound that a proof keeps
    on a rounded result says: the result is an infinity or a finite number
    of sign [sx], of magnitude (digits of the mantissa plus exponent) at
    least [mag]. *)

Module Binary64.

Abbreviation emin := (-1074).

Definition at_least (sx : bool) (mag : Z) (r : spec_float) : Prop :=
  match r with
  | S754_infinity s => s = sx
  | S754_finite s m e => s = sx /\ mag <= Zpos (digits2_pos m) + e
  | _ => False
  end.

(** The sign of a number that is no zero and no NaN. *)
Definition has_sign (s : bool) (r : spec_float) : Prop :=
  match r with
  | S754_infinity s' | S754_finite s' _ _ => s' = s
  | _ => False
  end.

(** [Prim2SF 100] and [Prim2SF 0.0005]. *)
Definition hundred : spec_float := S754_finite false 7036874417766400 (-46).
Definition half_per_mille : spec_float := S754_finite false 4611686018427388 (-63).

End Binary64.

(** ** The calculator together with the monitor it may own

    [LegacyCalculator] keeps an [OpenInterestMonitor] when it is built with a
    symbol; [updateOpenInterest] and [getOpenInterestMetrics] hand over to
    it.  The fields of the metrics are the record above. *)

Module Instance.

Record t := mk {
  metrics : LegacyCalculator;
  oiMonitor : option OI.OpenInterestMonitor
}.

(** [if (symbol)]: [undefined] and the empty string are falsy. *)
Definition truthy (symbol : option String.string) : bool :=
  match symbol with
  | None => false
  | Some String.EmptyString => false
  | Some _ => true
  end.

(** [constructor(symbol?: string)] *)
Definition constructor (symbol : option String.string) : t :=
  {| metrics := initial;
     oiMonitor :=
       match symbol with
       | Some s => if truthy symbol then Some (OI.create s) else None
       | None => None
       end |}.

(** [updateOpenInterest()], as a whole call on the fetch outcome [r]; the
    last component tells whether it fetched. *)
Definition updateOpenInterest (k : t) (now : Z) (r : OI.FetchResult) : t * bool :=
  match oiMonitor k with
  | Some m =>
      let '(m', _, fetched) := OI.refresh m now r in
      ({| metrics := metrics k; oiMonitor := Some m' |}, fetched)
  | None => (k, false)
  end.

(** [getOpenInterestMetrics()]; [None] is [null]. *)
Definition getOpenInterestMetrics (k : t) (dateNow : Z) : option OI.OpenInterestMetrics :=
  match oiMonitor k with
  | Some m => Some (OI.getMetrics m dateNow)
  | None => None
  end.

(** What can be called on an instance. *)
Inductive Call :=
| AddTrade (trade : LegacyTrade)
| ComputeMetrics (ob : OrderbookState) (dateNow : Z)
| UpdateOpenInterest (now : Z) (r : OI.FetchResult).

Definition call (k : t) (c : Call) : t :=
  match c with
  | AddTrade trade => {| metrics := addTrade (metrics k) trade; oiMonitor := oiMonitor k |}
  | ComputeMetrics ob dateNow =>
      {| metrics := fst (computeMetrics (metrics k) ob dateNow); oiMonitor := oiMonitor k |}
  | UpdateOpenInterest now r => fst (updateOpenInterest k now r)
  end.

Definition life (symbol : option String.string) (calls : list Call) : t :=
  fold_left call calls (constructor symbol).

(** The calls that reach the metrics, as operations of a session. *)
Fixpoint session_of (calls : list Call) : list Op :=
  match calls with
  | [] => []
  | AddTrade trade :: rest => Ingest trade :: session_of rest
  | ComputeMetrics ob dateNow :: rest => Pass ob dateNow :: session_of rest
  | UpdateOpenInterest _ _ :: rest => session_of rest
  end.

End Instance.

(** ** What the histories hold *)

(** The session CVD after each trade of a feed, starting from [start]. *)
Fixpoint running_cvd (start : num) (ts : list LegacyTrade) : list num :=
  match ts with
  | [] => []
  | t :: rest =>
      let cvd := (start + signed_quantity t)%float in
      cvd :: running_cvd cvd rest
  end.

(** A trade is within ten seconds of the trade [latest]. *)
Definition recent (latest : LegacyTrade) (t : LegacyTrade) : bool :=
  timestamp latest - 10000 <=? timestamp t.

(** ** Ranges, NaN apart *)

Definition nan_or_within (low high x : num) : bool :=
  isNaN x || in_range low high x.

Definition nan_or_at_most (high x : num) : bool :=
  isNaN x || le x high.

(** A number that is not below zero: a zero of either sign, a positive
    number, +Infinity, or NaN. *)
Definition not_negative (s : spec_float) : Prop :=
  match s with
  | S754_infinity true | S754_finite true _ _ => False
  | _ => True
  end.

(** A number above zero, or NaN. *)
Definition positive_or_nan (s : spec_float) : Prop :=
  match s with
  | S754_infinity false | S754_finite false _ _ | S754_nan => True
  | _ => False
  end.

(** ** What every monitor keeps, whatever it fetched

    No NaN among the values it holds, at most 60 entries in the history,
    both values still 0 while the history is empty, and otherwise
    [currentOI] equal to the value of the newest entry. *)

Definition any_value (newVal : num) : bool := true.

Definition coherent (m : OI.OpenInterestMonitor) : Prop :=
  isNaN (OI.currentOI m) = false /\
  isNaN (OI.previousOI m) = false /\
  Forall (fun entry => isNaN (fst entry) = false) (OI.oiHistory m) /\
  (length (OI.oiHistory m) <= 60)%nat /\
  (OI.oiHistory m = [] -> OI.currentOI m = 0%float /\ OI.previousOI m = 0%float) /\
  (forall older value time,
     OI.oiHistory m = older ++ [(value, time)] -> OI.currentOI m = value).

(** ** The presentation layer

    [MetricCard] draws a bar whose width is a percentage of the range
    [min .. max]; [OpenInterestSection] words the open-interest snapshot;
    the dashboard keeps the list of selected pairs. *)

Module UI.

(** [Math.min(100, Math.max(0, ((value - min) / range) * 100))] with
    [range = max - min]. *)
Definition percentage (value min max : num) : num :=
  let range := (max - min)%float in
  Math_min 100 (Math_max 0 ((value - min) / range * 100)).

(** The three wordings of the interpretation box. *)
Inductive Interpretation := Increasing | Decreasing | Stable.

Definition is_up (t : OI.trend_t) : bool :=
  match t with OI.up => true | _ => false end.
Definition is_down (t : OI.trend_t) : bool :=
  match t with OI.down => true | _ => false end.

Definition interpretation (metrics : OI.OpenInterestMetrics) : Interpretation :=
  if is_up (OI.trend metrics) && gt (OI.delta metrics) 0 then Increasing
  else if is_down (OI.trend metrics) && lt (OI.delta metrics) 0 then Decreasing
  else Stable.

(** [selectedPairs.includes(pair)] *)
Definition includes (selectedPairs : list String.string) (pair : String.string) : bool :=
  existsb (String.eqb pair) selectedPairs.

(** [togglePair]: the new value of [selectedPairs]. *)
Definition togglePair (selectedPairs : list String.string) (pair : String.string)
  : list String.string :=
  if includes selectedPairs pair
  then filter (fun p => negb (String.eqb p pair)) selectedPairs
  else selectedPairs ++ [pair].

End UI.


(** ** Dispersion measures *)

(** A number whose sign bit is clear, or NaN. *)
Definition sign_clear (s : spec_float) : Prop :=
  match s with
  | S754_zero true | S754_infinity true | S754_finite true _ _ => False
  | _ => True
  end.

Definition nan_or_at_least (low x : num) : bool :=
  isNaN x || le low x.

(** ** More sessions to evaluate *)

(** One trade, then a pass. *)
Definition one_buy : list Op :=
  [Ingest (mkTrade 100 1 buy 0); Pass book_around_100 1].

(** Five buys two seconds apart, a pass, and a sixth buy at fifteen
    seconds. *)
Definition six_buys : list Op :=
  five_buys ++ [Pass book_around_100 9000; Ingest (mkTrade 100 1 buy 15000)].

(** Two buys beyond 2^53, 10,016 ms apart. *)
Definition far_buys : list Op :=
  [Ingest (mkTrade 100 1 buy (2 ^ 57 + 64)); Ingest (mkTrade 100 1 buy (2 ^ 57 + 10080))].

(** * Facts about binary64 arithmetic

    Everything below is read off the specification of the primitive
    operations ([FloatAxioms]) by cases on the [spec_float] of the operands. *)

Module FloatFacts.

Lemma is_nan_spec (x : float) : is_nan x = true <-> Prim2SF x = S754_nan.
Proof.
  unfold is_nan. rewrite eqb_spec. unfold SFeqb.
  destruct (Prim2SF x) as [[|]|[|]| |[|] m e] eqn:E; simpl;
    try rewrite Z.compare_refl, Pos.compare_cont_refl; simpl;
    split; congruence.
Qed.

Lemma Prim2SF_nan : Prim2SF nan = S754_nan.
Proof. reflexivity. Qed.

Lemma nan_intro (x : float) : Prim2SF x = S754_nan -> x = nan.
Proof. intros H. apply Prim2SF_inj. rewrite H. reflexivity. Qed.

Lemma is_nan_eq (x : float) : is_nan x = true -> x = nan.
Proof. intros H. apply nan_intro, is_nan_spec, H. Qed.

Lemma add_nan_r (x : float) : (x + nan)%float = nan.
Proof.
  apply nan_intro. rewrite add_spec, Prim2SF_nan.
  destruct (Prim2SF x) as [[|]|[|]| |[|] m e]; reflexivity.
Qed.

Lemma mul_nan_r (x : float) : (x * nan)%float = nan.
Proof.
  apply nan_intro. rewrite mul_spec, Prim2SF_nan.
  destruct (Prim2SF x) as [[|]|[|]| |[|] m e]; reflexivity.
Qed.

Lemma mul_nan_l (x : float) : (nan * x)%float = nan.
Proof. apply nan_intro. rewrite mul_spec, Prim2SF_nan. reflexivity. Qed.

Lemma opp_nan : (- nan)%float = nan.
Proof. reflexivity. Qed.

Lemma SFmul_comm (x y : spec_float) : SF64mul x y = SF64mul y x.
Proof.
  unfold SF64mul.
  destruct x as [sx|sx| |sx mx ex], y as [sy|sy| |sy my ey]; simpl;
    try rewrite (xorb_comm sx sy); try reflexivity.
  rewrite (Pos.mul_comm mx my), (Z.add_comm ex ey). reflexivity.
Qed.

Lemma mul_comm (x y : float) : (x * y)%float = (y * x)%float.
Proof. apply Prim2SF_inj. rewrite !mul_spec. apply SFmul_comm. Qed.


(** How a number compares with zero, read off its [spec_float]. *)
Lemma is_nan_class (x : float) :
  is_nan x = match Prim2SF x with S754_nan => true | _ => false end.
Proof.
  unfold is_nan. rewrite eqb_spec. unfold SFeqb.
  destruct (Prim2SF x) as [[|]|[|]| |[|] m e]; simpl;
    try rewrite Z.compare_refl, Pos.compare_cont_refl; reflexivity.
Qed.

Lemma gt0_class (x : float) :
  (0 <? x)%float =
  match Prim2SF x with
  | S754_infinity false | S754_finite false _ _ => true
  | _ => false
  end.
Proof.
  rewrite ltb_spec. change (Prim2SF 0) with (S754_zero false).
  destruct (Prim2SF x) as [[|]|[|]| |[|] m e]; reflexivity.
Qed.

Lemma lt0_class (x : float) :
  (x <? 0)%float =
  match Prim2SF x with
  | S754_infinity true | S754_finite true _ _ => true
  | _ => false
  end.
Proof.
  rewrite ltb_spec. change (Prim2SF 0) with (S754_zero false).
  destruct (Prim2SF x) as [[|]|[|]| |[|] m e]; reflexivity.
Qed.

Lemma eq0_class (x : float) :
  (x =? 0)%float = match Prim2SF x with S754_zero _ => true | _ => false end.
Proof.
  rewrite eqb_spec. change (Prim2SF 0) with (S754_zero false).
  destruct (Prim2SF x) as [[|]|[|]| |[|] m e]; reflexivity.
Qed.

Lemma le0_class (x : float) :
  (0 <=? x)%float =
  match Prim2SF x with
  | S754_zero _ | S754_infinity false | S754_finite false _ _ => true
  | _ => false
  end.
Proof.
  rewrite leb_spec. change (Prim2SF 0) with (S754_zero false).
  destruct (Prim2SF x) as [[|]|[|]| |[|] m e]; reflexivity.
Qed.

End FloatFacts.

(** * Rounding keeps magnitudes

    The operations of [SpecFloat] round with [binary_round_aux].  As long as
    the magnitude of what is rounded stays above [emin], the result is no
    zero; that is what keeps the sign of a quotient or a product readable. *)

Module Binary64Facts.
Import Binary64.


Lemma digits_log2 (p : positive) : Zpos (digits2_pos p) = Z.log2 (Zpos p) + 1.
Proof.
  induction p as [p IH|p IH|]; simpl; try reflexivity.
  - rewrite Pos2Z.inj_succ, IH. destruct p; simpl; lia.
  - rewrite Pos2Z.inj_succ, IH. destruct p; simpl; lia.
Qed.

Lemma Zdigits2_log2 (m : Z) : 0 < m -> Zdigits2 m = Z.log2 m + 1.
Proof. destruct m; try lia. intros _. apply digits_log2. Qed.

Lemma shr_1_m (r : shr_record) : 0 <= shr_m r -> shr_m (shr_1 r) = shr_m r / 2.
Proof.
  destruct r as [m rb sb]. simpl. intros Hm.
  destruct m as [|[p|p|]|p]; simpl; try lia; try reflexivity.
  - rewrite Pos2Z.inj_xI. apply Z.div_unique with (r := 1); lia.
  - rewrite Pos2Z.inj_xO. apply Z.div_unique with (r := 0); lia.
Qed.

Lemma iter_shr_m (p : positive) (r : shr_record) :
  0 <= shr_m r -> shr_m (iter_pos shr_1 p r) = shr_m r / 2 ^ Zpos p.
Proof.
  revert r. induction p as [p IH|p IH|]; intros r Hr; simpl iter_pos.
  - assert (H1 : 0 <= shr_m (shr_1 r)) by (rewrite shr_1_m by assumption; apply Z.div_pos; lia).
    assert (H2 : 0 <= shr_m (iter_pos shr_1 p (shr_1 r)))
      by (rewrite IH by assumption; apply Z.div_pos; lia).
    rewrite IH, IH, shr_1_m by assumption.
    rewrite !Z.div_div by lia. f_equal.
    replace (Zpos p~1) with (Zpos p + Zpos p + 1) by lia.
    rewrite !Z.pow_add_r by lia. ring.
  - assert (H2 : 0 <= shr_m (iter_pos shr_1 p r))
      by (rewrite IH by assumption; apply Z.div_pos; lia).
    rewrite IH, IH by assumption.
    rewrite !Z.div_div by lia. f_equal.
    replace (Zpos p~0) with (Zpos p + Zpos p) by lia.
    rewrite !Z.pow_add_r by lia. ring.
  - rewrite shr_1_m by assumption. reflexivity.
Qed.

Lemma fexp_unfold (e : Z) : fexp prec emax e = Z.max (e - 53) emin.
Proof. reflexivity. Qed.

Lemma shr_m_of_loc (m : Z) (l : location) : shr_m (shr_record_of_loc m l) = m.
Proof. destruct l as [|[| |]]; reflexivity. Qed.

(** Shifting to the format's exponent keeps a mantissa positive and keeps
    the magnitude [digits + exponent], as long as that is above [emin]. *)
Lemma shr_fexp_pos (mx ex : Z) (lx : location) :
  0 < mx -> emin < Zdigits2 mx + ex ->
  0 < shr_m (fst (shr_fexp prec emax mx ex lx)) /\
  Zdigits2 (shr_m (fst (shr_fexp prec emax mx ex lx))) + snd (shr_fexp prec emax mx ex lx)
  = Zdigits2 mx + ex.
Proof.
  intros Hm Hmag. unfold shr_fexp, shr. rewrite fexp_unfold.
  pose proof (Zdigits2_log2 mx Hm) as Hd.
  pose proof (Z.log2_nonneg mx) as Hlog.
  destruct (Z.max (Zdigits2 mx + ex - 53) emin - ex) as [|p|p] eqn:En;
    cbn [fst snd]; rewrite ?shr_m_of_loc; try (split; [assumption|reflexivity]).
  assert (Hp : Zpos p <= Z.log2 mx) by lia.
  rewrite iter_shr_m by (rewrite shr_m_of_loc; lia). rewrite shr_m_of_loc.
  assert (Hpow : 2 ^ Zpos p <= mx).
  { apply Z.le_trans with (2 ^ Z.log2 mx).
    - apply Z.pow_le_mono_r; lia.
    - apply Z.log2_spec. assumption. }
  assert (Hq : 0 < mx / 2 ^ Zpos p) by (apply Z.div_str_pos; lia).
  split; [assumption|].
  rewrite (Zdigits2_log2 _ Hq), <- Z.shiftr_div_pow2 by lia.
  rewrite Z.log2_shiftr by assumption. lia.
Qed.

Lemma round_nearest_even_bounds (m : Z) (l : location) :
  m <= round_nearest_even m l <= m + 1.
Proof.
  destruct l as [|[| |]]; simpl; try lia. destruct (Z.even m); lia.
Qed.

Lemma binary_round_aux_pos (sx : bool) (mx ex : Z) (lx : location) :
  0 < mx -> emin < Zdigits2 mx + ex ->
  at_least sx (Zdigits2 mx + ex) (binary_round_aux prec emax sx mx ex lx).
Proof.
  intros Hm Hmag. unfold binary_round_aux.
  destruct (shr_fexp_pos mx ex lx Hm Hmag) as [H1 H1mag].
  destruct (shr_fexp prec emax mx ex lx) as [mrs1 e1]. cbn [fst snd] in *.
  pose proof (round_nearest_even_bounds (shr_m mrs1) (loc_of_shr_record mrs1)) as Hr.
  set (m2 := round_nearest_even (shr_m mrs1) (loc_of_shr_record mrs1)) in *.
  assert (Hm2 : 0 < m2) by lia.
  assert (Hd2 : Zdigits2 (shr_m mrs1) <= Zdigits2 m2).
  { rewrite !Zdigits2_log2 by assumption.
    pose proof (Z.log2_le_mono (shr_m mrs1) m2). lia. }
  assert (Hmag2 : emin < Zdigits2 m2 + e1) by lia.
  destruct (shr_fexp_pos m2 e1 loc_Exact Hm2 Hmag2) as [H3 H3mag].
  destruct (shr_fexp prec emax m2 e1 loc_Exact) as [mrs3 e3]. cbn [fst snd] in *.
  destruct (shr_m mrs3) as [|m3|m3]; try lia.
  destruct (e3 <=? emax - prec); simpl; [|reflexivity].
  split; [reflexivity|]. simpl in H3mag. lia.
Qed.

(** What [valid_binary] says of a finite number. *)
Lemma valid_finite (s : bool) (m : positive) (e : Z) :
  SpecFloat.valid_binary prec emax (S754_finite s m e) = true ->
  emin <= e /\ Zpos (digits2_pos m) <= 53 /\ (emin < e -> Zpos (digits2_pos m) = 53).
Proof.
  simpl. unfold SpecFloat.bounded, canonical_mantissa. rewrite fexp_unfold.
  intros H. apply andb_prop in H. destruct H as [H _]. apply Z.eqb_eq in H. lia.
Qed.

Lemma digits_bounds (m : positive) :
  2 ^ (Zpos (digits2_pos m) - 1) <= Zpos m < 2 ^ Zpos (digits2_pos m).
Proof.
  rewrite digits_log2. replace (Z.log2 (Zpos m) + 1 - 1) with (Z.log2 (Zpos m)) by lia.
  replace (Z.log2 (Zpos m) + 1) with (Z.succ (Z.log2 (Zpos m))) by lia.
  apply Z.log2_spec. lia.
Qed.

Lemma Zdigits2_lower (m k : Z) : 0 <= k -> 2 ^ k <= m -> k + 1 <= Zdigits2 m.
Proof.
  intros Hk Hm. assert (0 < m) by (pose proof (Z.pow_pos_nonneg 2 k); lia).
  rewrite Zdigits2_log2 by assumption.
  apply Z.log2_le_pow2 in Hm; lia.
Qed.

Lemma SFmul_hundred (s : bool) (m : positive) (e : Z) :
  emin - 6 < Zpos (digits2_pos m) + e ->
  at_least s emin (SF64mul (S754_finite s m e) hundred).
Proof.
  intros Hmag. unfold SF64mul, SFmul, hundred. rewrite xorb_false_r.
  pose proof (digits_bounds m) as Hm.
  set (d := Zpos (digits2_pos m)) in *.
  assert (Hd : 1 <= d) by (unfold d; lia).
  assert (Hprod : 2 ^ (d - 1 + 52) <= Zpos (m * 7036874417766400)).
  { rewrite Pos2Z.inj_mul, Z.pow_add_r by lia.
    change (2 ^ 52) with 4503599627370496.
    apply Z.mul_le_mono_nonneg.
    - apply Z.pow_nonneg. lia.
    - apply Hm.
    - lia.
    - lia. }
  assert (Hk : 0 <= d - 1 + 52) by lia.
  pose proof (Zdigits2_lower _ _ Hk Hprod) as Hdig.
  pose proof (binary_round_aux_pos s (Zpos (m * 7036874417766400)) (e + -46) loc_Exact) as H.
  specialize (H ltac:(lia) ltac:(lia)).
  destruct (binary_round_aux _ _ _ _ _ _); cbn [at_least] in *; try assumption.
  destruct H as [-> H]. split; [reflexivity|]. lia.
Qed.

(** A quotient of finite numbers whose magnitudes are less than 1073
    apart is no zero and no NaN. *)
Lemma SFdiv_finite (sx sy : bool) (mx my : positive) (ex ey : Z) :
  emin < Zpos (digits2_pos mx) + ex - (Zpos (digits2_pos my) + ey) ->
  at_least (xorb sx sy)
           (Zpos (digits2_pos mx) + ex - (Zpos (digits2_pos my) + ey))
           (SF64div (S754_finite sx mx ex) (S754_finite sy my ey)).
Proof.
  intros HX. unfold SF64div, SFdiv, SFdiv_core_binary.
  cbn [Zdigits2]. rewrite fexp_unfold.
  pose proof (digits_bounds mx) as Hmx. pose proof (digits_bounds my) as Hmy.
  set (d1 := Zpos (digits2_pos mx)) in *. set (d2 := Zpos (digits2_pos my)) in *.
  assert (Hd1 : 1 <= d1) by (unfold d1; lia).
  assert (Hd2 : 1 <= d2) by (unfold d2; lia).
  set (X := d1 + ex - (d2 + ey)) in *.
  set (e' := Z.min (Z.max (X - 53) emin) (ex - ey)).
  assert (He' : e' <= X - 1 /\ e' <= ex - ey) by (unfold e', X; lia).
  set (s := ex - ey - e').
  assert (Hs : 0 <= s) by (unfold s; lia).
  set (m' := match s with Zpos _ => Z.shiftl (Zpos mx) s | Z0 => Zpos mx | Zneg _ => 0 end).
  assert (Hm' : m' = Zpos mx * 2 ^ s).
  { unfold m'. destruct s as [|p|p] eqn:Es; try lia.
    rewrite Z.shiftl_mul_pow2 by lia. reflexivity. }
  pose proof (Z.div_eucl_eq m' (Zpos my) ltac:(lia)) as Heucl.
  pose proof (Z.mod_pos_bound m' (Zpos my) ltac:(lia)) as Hmod.
  unfold Z.modulo in Hmod.
  destruct (Z.div_eucl m' (Zpos my)) as [q r].
  set (k := X - 1 - e').
  assert (Hk : 0 <= k) by (unfold k; lia).
  assert (Hlow : 2 ^ k * Zpos my < m' + 1).
  { rewrite Hm'.
    assert (2 ^ k * Zpos my < 2 ^ (k + d2)).
    { rewrite Z.pow_add_r by lia. apply Z.mul_lt_mono_pos_l; [|lia].
      apply Z.pow_pos_nonneg; lia. }
    assert (2 ^ (d1 - 1 + s) <= Zpos mx * 2 ^ s).
    { rewrite Z.pow_add_r by lia. apply Z.mul_le_mono_nonneg_r; [|lia].
      apply Z.pow_nonneg; lia. }
    replace (k + d2) with (d1 - 1 + s) in * by (unfold k, s, X; lia). lia. }
  assert (Hq : 2 ^ k <= q).
  { assert (0 < 2 ^ k) by (apply Z.pow_pos_nonneg; lia).
    destruct (Z_le_gt_dec (2 ^ k) q) as [|Hgt]; [assumption|exfalso].
    assert (Zpos my * q <= Zpos my * (2 ^ k - 1)) by (apply Z.mul_le_mono_nonneg_l; lia).
    nia. }
  assert (Hqpos : 0 < q) by (pose proof (Z.pow_pos_nonneg 2 k); lia).
  pose proof (Zdigits2_lower q k Hk Hq) as Hdq.
  pose proof (binary_round_aux_pos (xorb sx sy) q e' (new_location (Zpos my) r)) as H.
  specialize (H Hqpos ltac:(unfold k in *; lia)).
  destruct (binary_round_aux _ _ _ _ _ _); cbn [at_least] in *; try assumption.
  destruct H as [-> H]. split; [reflexivity|]. unfold k in *. lia.
Qed.

Lemma digits_lower (p : positive) (k : Z) :
  0 <= k -> 2 ^ k <= Zpos p -> k + 1 <= Zpos (digits2_pos p).
Proof. intros Hk Hp. apply (Zdigits2_lower (Zpos p) k Hk Hp). Qed.

Lemma iter_xO (m d : positive) : Zpos (Pos.iter xO m d) = Zpos m * 2 ^ Zpos d.
Proof.
  change (Pos.iter xO m d) with (shift_pos d m).
  rewrite shift_pos_correct. change (Z.pow_pos 2 d) with (2 ^ Zpos d). ring.
Qed.

Lemma shl_align_mantissa (m : positive) (e ez : Z) :
  ez <= e -> Zpos (fst (shl_align m e ez)) = Zpos m * 2 ^ (e - ez).
Proof.
  intros H. unfold shl_align. destruct (ez - e) as [|d|d] eqn:E; cbn [fst]; try lia.
  - replace (e - ez) with 0 by lia. lia.
  - rewrite iter_xO. replace (e - ez) with (Zpos d) by lia. reflexivity.
Qed.

Lemma shl_align_magnitude (m : positive) (e e' : Z) :
  Zpos (digits2_pos (fst (shl_align m e e'))) + snd (shl_align m e e')
  = Zpos (digits2_pos m) + e.
Proof.
  unfold shl_align. destruct (e' - e) as [|d|d] eqn:E; cbn [fst snd]; try reflexivity.
  rewrite !digits_log2, iter_xO, Z.log2_mul_pow2 by lia. lia.
Qed.

Lemma binary_round_pos (s : bool) (m : positive) (e : Z) :
  emin <= e ->
  at_least s (Zpos (digits2_pos m) + e) (binary_round prec emax s m e).
Proof.
  intros He. unfold binary_round.
  pose proof (shl_align_magnitude m e (fexp prec emax (Zpos (digits2_pos m) + e))) as Hmag.
  destruct (shl_align m e _) as [mz ez]. cbn [fst snd] in Hmag.
  rewrite <- Hmag. apply binary_round_aux_pos; [lia|].
  cbn [Zdigits2]. pose proof (Pos2Z.is_pos (digits2_pos m)). lia.
Qed.

(** The difference of two distinct finite positive numbers: its magnitude
    is at most 53 below the magnitude of the one subtracted. *)
Lemma difference_magnitude (mc mp : positive) (ec ep : Z) :
  SpecFloat.valid_binary prec emax (S754_finite false mc ec) = true ->
  SpecFloat.valid_binary prec emax (S754_finite false mp ep) = true ->
  (mc, ec) <> (mp, ep) ->
  let ez := Z.min ec ep in
  let M := Zpos mc * 2 ^ (ec - ez) - Zpos mp * 2 ^ (ep - ez) in
  M <> 0 /\ Zpos (digits2_pos mp) + ep - 53 <= Zdigits2 M + ez.
Proof.
  intros Hc Hp Hne. cbv zeta.
  apply valid_finite in Hc. apply valid_finite in Hp.
  destruct Hc as (Hec & Hdc & Hnc). destruct Hp as (Hep & Hdp & Hnp).
  pose proof (digits_bounds mc) as Hmc. pose proof (digits_bounds mp) as Hmp.
  assert (Hc53 : Zpos mc < 2 ^ 53).
  { apply Z.lt_le_trans with (2 ^ Zpos (digits2_pos mc)); [lia|].
    apply Z.pow_le_mono_r; lia. }
  assert (Hp53 : Zpos mp < 2 ^ 53).
  { apply Z.lt_le_trans with (2 ^ Zpos (digits2_pos mp)); [lia|].
    apply Z.pow_le_mono_r; lia. }
  change (2 ^ 53) with 9007199254740992 in *.
  destruct (Z.lt_total ec ep) as [Hlt|[Heq|Hgt]].
  - (* the subtracted number has the larger exponent *)
    rewrite Z.min_l by lia. rewrite Z.sub_diag, Z.mul_1_r.
    rewrite Hnp in Hmp by lia. change (2 ^ (53 - 1)) with 4503599627370496 in Hmp.
    set (g := ep - ec) in *.
    assert (Hg : 1 <= g) by (unfold g; lia).
    assert (Hpow : 2 ^ g = 2 * 2 ^ (g - 1)).
    { replace g with (1 + (g - 1)) at 1 by lia. rewrite Z.pow_add_r by lia. reflexivity. }
    assert (HP : 1 <= 2 ^ (g - 1)) by (pose proof (Z.pow_pos_nonneg 2 (g - 1)); lia).
    set (P := 2 ^ (g - 1)) in *.
    assert (HM : P <= Zpos mp * 2 ^ g - Zpos mc) by (rewrite Hpow; nia).
    split; [lia|].
    destruct (Zpos mc - Zpos mp * 2 ^ g) as [|m|m] eqn:EM; try lia.
    cbn [Zdigits2].
    assert (Hm : 2 ^ (g - 1) <= Zpos m) by (fold P; lia).
    apply digits_lower in Hm; lia.
  - (* the same exponent *)
    subst ep. rewrite Z.min_id, Z.sub_diag, !Z.mul_1_r.
    assert (Zpos mc <> Zpos mp) by (intros H; apply Hne; f_equal; lia).
    split; [lia|].
    destruct (Zpos mc - Zpos mp) as [|m|m] eqn:EM; try lia; cbn [Zdigits2];
      pose proof (Pos2Z.is_pos (digits2_pos m)); lia.
  - (* the subtracted number has the smaller exponent *)
    rewrite Z.min_r by lia. rewrite Z.sub_diag, Z.mul_1_r.
    rewrite Hnc in Hmc by lia. change (2 ^ (53 - 1)) with 4503599627370496 in Hmc.
    set (g := ec - ep) in *.
    assert (Hg : 1 <= g) by (unfold g; lia).
    assert (Hpow : 2 ^ g = 2 * 2 ^ (g - 1)).
    { replace g with (1 + (g - 1)) at 1 by lia. rewrite Z.pow_add_r by lia. reflexivity. }
    assert (HP : 1 <= 2 ^ (g - 1)) by (pose proof (Z.pow_pos_nonneg 2 (g - 1)); lia).
    set (P := 2 ^ (g - 1)) in *.
    assert (HM : 1 <= Zpos mc * 2 ^ g - Zpos mp) by (rewrite Hpow; nia).
    split; [lia|].
    destruct (Zpos mc * 2 ^ g - Zpos mp) as [|m|m] eqn:EM; try lia.
    cbn [Zdigits2]. pose proof (Pos2Z.is_pos (digits2_pos m)). lia.
Qed.

Lemma at_least_weaken (s : bool) (mag mag' : Z) (r : spec_float) :
  mag' <= mag -> at_least s mag r -> at_least s mag' r.
Proof. destruct r; simpl; try tauto. intros H [-> H']. split; [reflexivity|lia]. Qed.

Lemma SFsub_finite (mc mp : positive) (ec ep : Z) :
  SpecFloat.valid_binary prec emax (S754_finite false mc ec) = true ->
  SpecFloat.valid_binary prec emax (S754_finite false mp ep) = true ->
  (mc, ec) <> (mp, ep) ->
  exists s, at_least s (Zpos (digits2_pos mp) + ep - 53)
              (SF64sub (S754_finite false mc ec) (S754_finite false mp ep)).
Proof.
  intros Hc Hp Hne.
  destruct (difference_magnitude mc mp ec ep Hc Hp Hne) as [HM Hmag].
  apply valid_finite in Hc. apply valid_finite in Hp.
  unfold SF64sub, SFsub. cbn [cond_Zopp].
  rewrite !shl_align_mantissa by lia.
  set (ez := Z.min ec ep) in *.
  destruct (Zpos mc * 2 ^ (ec - ez) - Zpos mp * 2 ^ (ep - ez)) as [|m|m] eqn:EM;
    [congruence| |]; cbn [binary_normalize Zdigits2] in *.
  - exists false. apply at_least_weaken with (Zpos (digits2_pos m) + ez); [lia|].
    apply binary_round_pos. lia.
  - exists true. apply at_least_weaken with (Zpos (digits2_pos m) + ez); [lia|].
    apply binary_round_pos. lia.
Qed.

Lemma at_least_sign (s : bool) (mag : Z) (r : spec_float) :
  at_least s mag r -> has_sign s r.
Proof. destruct r; simpl; tauto. Qed.

(** [(c - p) / p * 100] for finite [c >= 0] and [p > 0] that differ: the
    difference is no zero and no NaN, and the percentage has its sign. *)
Lemma percent_has_sign (c p : spec_float) :
  SpecFloat.valid_binary prec emax c = true ->
  SpecFloat.valid_binary prec emax p = true ->
  match c with S754_zero _ | S754_finite false _ _ => True | _ => False end ->
  match p with S754_finite false _ _ => True | _ => False end ->
  c <> p ->
  exists s,
    has_sign s (SF64sub c p) /\
    has_sign s (SF64mul (SF64div (SF64sub c p) p) hundred).
Proof.
  intros Hvc Hvp Hc Hp Hne.
  destruct p as [| | |[|] mp ep]; try contradiction.
  assert (Hdiff : exists s, at_least s (Zpos (digits2_pos mp) + ep - 53)
                              (SF64sub c (S754_finite false mp ep))).
  { destruct c as [sc| | |[|] mc ec]; try contradiction.
    - exists true. unfold SF64sub. simpl. split; [reflexivity|lia].
    - apply SFsub_finite; try assumption. intros H. apply Hne. congruence. }
  destruct Hdiff as [s Hd]. exists s. split; [eapply at_least_sign, Hd|].
  destruct (SF64sub c (S754_finite false mp ep)) as [| sd | |sd md ed];
    cbn [at_least] in Hd; try contradiction.
  - subst sd. destruct s; reflexivity.
  - destruct Hd as [-> Hmag].
    pose proof (SFdiv_finite s false md mp ed ep ltac:(lia)) as Hq.
    rewrite xorb_false_r in Hq.
    destruct (SF64div (S754_finite s md ed) (S754_finite false mp ep)) as [| sq | |sq mq eq];
      cbn [at_least] in Hq; try contradiction.
    + subst sq. destruct s; reflexivity.
    + destruct Hq as [-> Hq]. eapply at_least_sign, SFmul_hundred. lia.
Qed.


End Binary64Facts.

(** * LegacyCalculator: what a pass leaves alone *)

Section ListFacts.
Context {A : Type}.

Lemma slice_last_length (k : nat) (xs : list A) :
  length (slice_last k xs) = Nat.min k (length xs).
Proof. unfold slice_last. rewrite length_skipn. lia. Qed.

Lemma push_capped_length (cap : nat) (xs : list A) (x : A) :
  (length xs <= cap)%nat -> (length (push_capped cap xs x) <= cap)%nat.
Proof.
  intros H. unfold push_capped.
  destruct (Nat.ltb_spec cap (length (xs ++ [x]))) as [Hlt|Hge]; [|exact Hge].
  rewrite length_app in Hlt. simpl in Hlt.
  destruct xs as [|y ys]; simpl in *; [lia|].
  rewrite length_app. simpl. lia.
Qed.

Lemma push_capped_last (cap : nat) (xs : list A) (x d : A) :
  (0 < cap)%nat -> last (push_capped cap xs x) d = x.
Proof.
  intros Hcap. unfold push_capped.
  destruct (Nat.ltb_spec cap (length (xs ++ [x]))) as [Hlt|Hge].
  - rewrite length_app in Hlt. simpl in Hlt.
    destruct xs as [|y ys]; simpl in Hlt; [lia|].
    simpl. apply last_last.
  - apply last_last.
Qed.

Lemma pairwise_length {B} (f : A -> A -> B) (xs : list A) :
  length (pairwise f xs) = (length xs - 1)%nat.
Proof.
  induction xs as [|a [|b rest] IH]; simpl in *; try reflexivity.
  rewrite IH. lia.
Qed.
End ListFacts.

Lemma evict_keeps_newest (cutoff : Z) (ts : list LegacyTrade) (t : LegacyTrade) :
  cutoff <= timestamp t ->
  exists kept, evict cutoff (ts ++ [t]) = kept ++ [t].
Proof.
  intros Hnew. induction ts as [|u rest IH]; simpl.
  - destruct (Z.ltb_spec (timestamp t) cutoff); [lia|]. exists []. reflexivity.
  - destruct (Z.ltb_spec (timestamp u) cutoff).
    + exact IH.
    + exists (u :: rest). reflexivity.
Qed.

Lemma calculateRegimeWeight_state (c : LegacyCalculator) :
  fst (calculateRegimeWeight c) =
  if (length (trades c) <? 5)%nat then c
  else
    {| trades := trades c; deltaHistory := deltaHistory c; cvdHistory := cvdHistory c;
       cvdSession := cvdSession c; totalVolume := totalVolume c;
       totalNotional := totalNotional c;
       volatilityHistory :=
         push_capped VOLATILITY_HISTORY_SIZE (volatilityHistory c) (current_volatility c);
       volumeHistory := volumeHistory c; lastMidPrice := lastMidPrice c |}.
Proof.
  unfold calculateRegimeWeight, current_volatility.
  destruct (Nat.ltb_spec (length (trades c)) 5) as [Hlt|Hge]; [reflexivity|].
  rewrite pairwise_length, length_map, slice_last_length.
  destruct (Nat.ltb_spec (Nat.min 30 (length (trades c))) 2) as [H2|H2]; [lia|].
  destruct (Nat.eqb_spec (Nat.min 30 (length (trades c)) - 1) 0) as [H0|H0]; [lia|].
  match goal with |- fst (if ?b then _ else _) = _ => destruct b end; reflexivity.
Qed.

Lemma computeMetrics_state (c : LegacyCalculator) (ob : OrderbookState) (dateNow : Z) :
  fst (computeMetrics c ob dateNow) =
  fst (calculateRegimeWeight (set_lastMidPrice c (mid_price ob))).
Proof.
  unfold computeMetrics, mid_price.
  destruct (calculateRegimeWeight _) as [c2 w]. reflexivity.
Qed.

(** The state a pass leaves behind, field by field. *)
Lemma computeMetrics_effect (c : LegacyCalculator) (ob : OrderbookState) (dateNow : Z) :
  fst (computeMetrics c ob dateNow) =
  {| trades := trades c; deltaHistory := deltaHistory c; cvdHistory := cvdHistory c;
     cvdSession := cvdSession c; totalVolume := totalVolume c;
     totalNotional := totalNotional c;
     volatilityHistory :=
       if (5 <=? length (trades c))%nat
       then push_capped VOLATILITY_HISTORY_SIZE (volatilityHistory c) (current_volatility c)
       else volatilityHistory c;
     volumeHistory := volumeHistory c; lastMidPrice := mid_price ob |}.
Proof.
  rewrite computeMetrics_state, calculateRegimeWeight_state.
  change (trades (set_lastMidPrice c (mid_price ob))) with (trades c).
  change (current_volatility (set_lastMidPrice c (mid_price ob))) with (current_volatility c).
  destruct (Nat.ltb_spec (length (trades c)) 5) as [Hlt|Hge];
    destruct (Nat.leb_spec 5 (length (trades c))) as [Hle|Hnle]; try lia; reflexivity.
Qed.

Lemma mid_price_empty (ob : OrderbookState) :
  bids ob = [] -> asks ob = [] -> mid_price ob = 0%float.
Proof.
  intros Hb Ha. unfold mid_price, bestBid, bestAsk. rewrite Hb, Ha. reflexivity.
Qed.

(** C10. A pass of [computeMetrics] writes two fields only: [lastMidPrice]
    becomes the mid price of the book it was given (0 when both sides are
    empty), and [volatilityHistory] gets one entry, the deviation of the
    latest returns, pushed (the oldest entry giving way past 3600) exactly
    when the window holds five trades or more.  The window, the delta, CVD
    and volume histories and the three session accumulators stay as they
    were. *)
Theorem C10_computeMetrics_frame (c : LegacyCalculator) (ob : OrderbookState) (dateNow : Z) :
  let c' := fst (computeMetrics c ob dateNow) in
  trades c' = trades c /\
  deltaHistory c' = deltaHistory c /\
  cvdHistory c' = cvdHistory c /\
  volumeHistory c' = volumeHistory c /\
  cvdSession c' = cvdSession c /\
  totalVolume c' = totalVolume c /\
  totalNotional c' = totalNotional c /\
  lastMidPrice c' = mid_price ob /\
  (bids ob = [] -> asks ob = [] -> lastMidPrice c' = 0%float) /\
  volatilityHistory c' =
    (if (5 <=? length (trades c))%nat
     then push_capped VOLATILITY_HISTORY_SIZE (volatilityHistory c) (current_volatility c)
     else volatilityHistory c) /\
  ((5 <= length (trades c))%nat ->
   last (volatilityHistory c') 0%float = current_volatility c /\
   (length (volatilityHistory c) < VOLATILITY_HISTORY_SIZE ->
    volatilityHistory c' = volatilityHistory c ++ [current_volatility c])%nat).
Proof.
  cbv zeta. rewrite computeMetrics_effect.
  cbn [trades deltaHistory cvdHistory volumeHistory cvdSession totalVolume
       totalNotional lastMidPrice volatilityHistory].
  repeat (split; [reflexivity|]).
  split; [apply mid_price_empty|]. split; [reflexivity|].
  intros Hge. destruct (Nat.leb_spec 5 (length (trades c))) as [_|Hlt]; [|lia].
  split.
  - apply push_capped_last. unfold VOLATILITY_HISTORY_SIZE. lia.
  - intros Hroom. unfold push_capped.
    destruct (Nat.ltb_spec VOLATILITY_HISTORY_SIZE
                (length (volatilityHistory c ++ [current_volatility c]))) as [Hover|_];
      [|reflexivity].
    rewrite length_app in Hover. simpl in Hover. lia.
Qed.

(** * Sessions *)

Lemma bounded_initial : bounded initial.
Proof. split; simpl; lia. Qed.

Lemma bounded_step (c : LegacyCalculator) (op : Op) : bounded c -> bounded (step c op).
Proof.
  intros [Hd Hc Hv Hvol]. destruct op as [trade|ob dateNow]; simpl.
  - split; simpl; try apply push_capped_length; assumption.
  - rewrite computeMetrics_effect.
    split; cbn [deltaHistory cvdHistory volumeHistory volatilityHistory]; try assumption.
    destruct (5 <=? length (trades c))%nat; [|assumption].
    apply push_capped_length. assumption.
Qed.

Lemma run_snoc (ops : list Op) (op : Op) : run (ops ++ [op]) = step (run ops) op.
Proof. unfold run. rewrite fold_left_app. reflexivity. Qed.

Lemma bounded_run (ops : list Op) : bounded (run ops).
Proof.
  induction ops as [|op ops IH] using rev_ind.
  - apply bounded_initial.
  - rewrite run_snoc. apply bounded_step, IH.
Qed.

(** ** The ten-second window *)

Lemma nondecreasing_app_r (pre l : list Z) : nondecreasing (pre ++ l) -> nondecreasing l.
Proof.
  induction pre as [|a pre IH]; simpl; [trivial|]. intros [_ H]. apply IH, H.
Qed.

Lemma evict_suffix (cutoff : Z) (ts : list LegacyTrade) :
  exists gone, ts = gone ++ evict cutoff ts.
Proof.
  induction ts as [|t rest [gone IH]]; simpl.
  - exists []. reflexivity.
  - destruct (timestamp t <? cutoff).
    + exists (t :: gone). simpl. f_equal. exact IH.
    + exists []. reflexivity.
Qed.

Lemma evict_fresh (cutoff : Z) (ts : list LegacyTrade) :
  nondecreasing (map timestamp ts) ->
  forall t, In t (evict cutoff ts) -> cutoff <= timestamp t.
Proof.
  induction ts as [|u rest IH]; simpl; [contradiction|].
  intros [Hu Hrest] t. destruct (Z.ltb_spec (timestamp u) cutoff) as [Hold|Hnew].
  - apply IH, Hrest.
  - intros [<-|Hin]; [exact Hnew|].
    specialize (Hu (timestamp t) (in_map timestamp _ _ Hin)). lia.
Qed.

Lemma ingested_snoc (ops : list Op) (op : Op) :
  ingested (ops ++ [op]) =
  ingested ops ++ match op with Ingest trade => [trade] | Pass _ _ => [] end.
Proof.
  induction ops as [|[trade|ob dateNow] ops IH]; simpl.
  - destruct op; reflexivity.
  - rewrite IH. reflexivity.
  - exact IH.
Qed.

(** The window is always the tail end of what was ingested. *)
Lemma window_is_suffix (ops : list Op) :
  exists gone, ingested ops = gone ++ trades (run ops).
Proof.
  induction ops as [|op ops [gone IH]] using rev_ind.
  - exists []. reflexivity.
  - rewrite run_snoc, ingested_snoc. destruct op as [trade|ob dateNow].
    + cbn [step addTrade trades].
      destruct (evict_suffix (timestamp trade - 10000) (trades (run ops) ++ [trade]))
        as [gone' Hgone].
      exists (gone ++ gone'). rewrite IH, <- !app_assoc. f_equal. exact Hgone.
    + cbn [step]. rewrite computeMetrics_effect, app_nil_r. exists gone. exact IH.
Qed.

Lemma window_fresh (ops : list Op) :
  nondecreasing (map timestamp (ingested ops)) ->
  forall earlier latest, ingested ops = earlier ++ [latest] ->
  forall t, In t (trades (run ops)) -> timestamp latest - 10000 <= timestamp t.
Proof.
  induction ops as [|op ops IH] using rev_ind.
  - intros _ earlier latest H. destruct earlier; discriminate.
  - rewrite run_snoc, ingested_snoc. destruct op as [trade|ob dateNow].
    + intros Hsorted earlier latest Heq t.
      apply app_inj_tail in Heq. destruct Heq as [_ <-].
      cbn [step addTrade trades]. apply evict_fresh.
      destruct (window_is_suffix ops) as [gone Hgone].
      rewrite Hgone, <- app_assoc, map_app in Hsorted.
      apply nondecreasing_app_r in Hsorted. exact Hsorted.
    + rewrite app_nil_r. cbn [step]. rewrite computeMetrics_effect. exact IH.
Qed.

(** * Timestamps: the integers of the model and the numbers of the source *)

Module StampFacts.
Import Binary64.

Lemma shr_1_exact (k : Z) :
  0 <= k ->
  shr_1 (Build_shr_record (k * 2) false false) = Build_shr_record k false false.
Proof.
  intros Hk. destruct k as [|p|p]; [reflexivity| |lia].
  replace (Zpos p * 2) with (Zpos p~0) by lia. reflexivity.
Qed.

(** Shifting out bits that are all zero loses nothing. *)
Lemma iter_shr_exact (q : positive) (k : Z) :
  0 <= k ->
  iter_pos shr_1 q (Build_shr_record (k * 2 ^ Zpos q) false false)
  = Build_shr_record k false false.
Proof.
  revert k. induction q as [q IH|q IH|]; intros k Hk; cbn [iter_pos].
  - replace (k * 2 ^ Zpos q~1) with (k * 2 ^ Zpos q * 2 ^ Zpos q * 2)
      by (replace (Zpos q~1) with (Zpos q + Zpos q + 1) by lia;
          rewrite !Z.pow_add_r by lia; ring).
    assert (0 <= k * 2 ^ Zpos q) by (apply Z.mul_nonneg_nonneg; lia).
    rewrite shr_1_exact by (apply Z.mul_nonneg_nonneg; lia).
    rewrite IH by assumption. apply IH. assumption.
  - replace (k * 2 ^ Zpos q~0) with (k * 2 ^ Zpos q * 2 ^ Zpos q)
      by (replace (Zpos q~0) with (Zpos q + Zpos q) by lia;
          rewrite !Z.pow_add_r by lia; ring).
    assert (0 <= k * 2 ^ Zpos q) by (apply Z.mul_nonneg_nonneg; lia).
    rewrite IH by assumption. apply IH. assumption.
  - change (2 ^ 1) with 2. apply shr_1_exact. assumption.
Qed.

(** A mantissa of 53 bits is already at the exponent of the format. *)
Lemma shr_fexp_full (m : positive) (e : Z) :
  Zpos (digits2_pos m) = 53 -> emin <= e ->
  shr_fexp prec emax (Zpos m) e loc_Exact = (Build_shr_record (Zpos m) false false, e).
Proof.
  intros Hd He. unfold shr_fexp. cbn [Zdigits2]. rewrite Hd, Binary64Facts.fexp_unfold.
  replace (Z.max (53 + e - 53) emin - e) with 0 by lia. reflexivity.
Qed.

Lemma binary_round_aux_exact (s : bool) (mx ex : Z) (lx : location) (k : positive) (e : Z) :
  shr_fexp prec emax mx ex lx = (Build_shr_record (Zpos k) false false, e) ->
  Zpos (digits2_pos k) = 53 -> emin <= e <= 971 ->
  binary_round_aux prec emax s mx ex lx = S754_finite s k e.
Proof.
  intros Hshr Hd He. unfold binary_round_aux. rewrite Hshr.
  cbn [shr_m loc_of_shr_record round_nearest_even].
  rewrite (shr_fexp_full k e Hd) by lia. cbn [shr_m].
  replace (e <=? emax - prec) with true by (symmetry; apply Z.leb_le; unfold emax, prec; lia).
  reflexivity.
Qed.

Lemma digits_of_shifted (v : Z) (m : positive) (k : Z) :
  0 < v -> 0 <= k -> Zpos m = v * 2 ^ k ->
  Zpos (digits2_pos m) = Z.log2 v + 1 + k.
Proof.
  intros Hv Hk Hm. rewrite Binary64Facts.digits_log2, Hm, Z.log2_mul_pow2 by lia. lia.
Qed.

(** Rounding an integer below 2^53, given with trailing zero bits, is exact. *)
Lemma binary_round_exact (s : bool) (v : Z) (m : positive) (e : Z) :
  0 < v < 2 ^ 53 -> -1000 <= e <= 0 -> Zpos m = v * 2 ^ (- e) ->
  holds s v (binary_round prec emax s m e).
Proof.
  intros Hv He Hm.
  pose proof (digits_of_shifted v m (- e) ltac:(lia) ltac:(lia) Hm) as Hdm.
  assert (Hlog : 0 <= Z.log2 v < 53).
  { split; [apply Z.log2_nonneg|]. apply Z.log2_lt_pow2; lia. }
  unfold binary_round. rewrite Hdm, Binary64Facts.fexp_unfold.
  replace (Z.max (Z.log2 v + 1 + - e + e - 53) emin) with (Z.log2 v - 52) by lia.
  unfold shl_align. destruct (Z.log2 v - 52 - e) as [|q|q] eqn:Eq.
  - rewrite (binary_round_aux_exact s (Zpos m) e loc_Exact m e); try lia.
    + cbn [holds]. repeat split; lia.
    + apply shr_fexp_full; lia.
  - assert (Hk : exists k : positive, Zpos k = v * 2 ^ (52 - Z.log2 v)).
    { assert (0 < v * 2 ^ (52 - Z.log2 v)) by (apply Z.mul_pos_pos; [lia|apply Z.pow_pos_nonneg; lia]).
      destruct (v * 2 ^ (52 - Z.log2 v)) as [|k|k]; try lia. exists k. reflexivity. }
    destruct Hk as [k Hk].
    pose proof (digits_of_shifted v k (52 - Z.log2 v) ltac:(lia) ltac:(lia) Hk) as Hdk.
    rewrite (binary_round_aux_exact s (Zpos m) e loc_Exact k (Z.log2 v - 52)); try lia.
    + cbn [holds]. replace (- (Z.log2 v - 52)) with (52 - Z.log2 v) by lia.
      repeat split; lia.
    + unfold shr_fexp. cbn [Zdigits2 shr_record_of_loc]. rewrite Hdm, Binary64Facts.fexp_unfold.
      replace (Z.max (Z.log2 v + 1 + - e + e - 53) emin - e) with (Zpos q) by lia.
      cbn [shr]. f_equal; [|lia].
      replace (Zpos m) with (Zpos k * 2 ^ Zpos q).
      * apply iter_shr_exact. lia.
      * rewrite Hm, Hk, <- Z.mul_assoc, <- Z.pow_add_r by lia. f_equal. f_equal. lia.
  - assert (Hiter : Zpos (Pos.iter xO m q) = v * 2 ^ (52 - Z.log2 v)).
    { rewrite Binary64Facts.iter_xO, Hm, <- Z.mul_assoc, <- Z.pow_add_r by lia.
      f_equal. f_equal. lia. }
    pose proof (digits_of_shifted v _ (52 - Z.log2 v) ltac:(lia) ltac:(lia) Hiter) as Hdk.
    rewrite (binary_round_aux_exact s _ _ loc_Exact (Pos.iter xO m q) (Z.log2 v - 52));
      try lia.
    + cbn [holds]. replace (- (Z.log2 v - 52)) with (52 - Z.log2 v) by lia.
      repeat split; lia.
    + apply shr_fexp_full; lia.
Qed.

Lemma holds_bounds (s : bool) (v : Z) (r : spec_float) :
  0 < v -> holds s v r ->
  exists m e, r = S754_finite s m e /\ -52 <= e <= 0 /\ Zpos m = v * 2 ^ (- e) /\
              2 ^ 52 <= Zpos m < 2 ^ 53.
Proof.
  intros Hv H. destruct r as [| | |s' m e]; try contradiction.
  destruct H as (-> & He & Hm & Hd). exists m, e.
  pose proof (Binary64Facts.digits_bounds m) as Hb. rewrite Hd in Hb.
  change (53 - 1) with 52 in Hb.
  repeat split; try lia.
  pose proof (digits_of_shifted v m (- e) Hv ltac:(lia) Hm) as Hdm.
  pose proof (Z.log2_nonneg v). lia.
Qed.

(** [stamp] holds the integer. *)
Lemma stamp_encodes (z : Z) : Z.abs z < 2 ^ 53 -> encodes z (Prim2SF (stamp z)).
Proof.
  intros Hz.
  assert (Hpos : forall p, Zpos p < 2 ^ 53 ->
            holds false (Zpos p) (Prim2SF (of_uint63 (Uint63.of_Z (Zpos p))))).
  { intros p Hp. rewrite of_uint63_spec, Uint63.of_Z_spec.
    rewrite Z.mod_small by (change Uint63.wB with (2 ^ 63); split; [lia|];
      apply Z.lt_trans with (2 ^ 53); [exact Hp|reflexivity]).
    cbn [binary_normalize]. apply binary_round_exact; lia. }
  destruct z as [|p|p]; cbn [stamp encodes].
  - reflexivity.
  - apply Hpos. lia.
  - rewrite opp_spec. specialize (Hpos p ltac:(lia)).
    destruct (Prim2SF _) as [| | |s m e]; try contradiction.
    destruct Hpos as (-> & H). cbn [SFopp holds negb]. split; [reflexivity|exact H].
Qed.

Lemma signed_value (s : bool) (z : Z) (r : spec_float) (m : positive) (e : Z) :
  z <> 0 -> encodes z r -> r = S754_finite s m e ->
  cond_Zopp s (Zpos m) = z * 2 ^ (- e) /\ -52 <= e <= 0 /\ 2 ^ 52 <= Zpos m < 2 ^ 53.
Proof.
  intros Hz Henc ->. destruct z as [|p|p]; [congruence| |]; cbn [encodes] in Henc.
  - destruct (holds_bounds _ _ _ (Pos2Z.is_pos p) Henc) as (m' & e' & Heq & He & Hm & Hb).
    inversion Heq; subst. cbn [cond_Zopp]. repeat split; lia.
  - destruct (holds_bounds _ _ _ (Pos2Z.is_pos p) Henc) as (m' & e' & Heq & He & Hm & Hb).
    inversion Heq; subst. cbn [cond_Zopp]. repeat split; lia.
Qed.

Lemma encodes_finite (z : Z) (r : spec_float) :
  z <> 0 -> encodes z r -> exists s m e, r = S754_finite s m e.
Proof.
  intros Hz H. destruct z as [|p|p]; [congruence| |]; cbn [encodes] in H;
    destruct r as [| | |s m e]; try contradiction; eauto.
Qed.

Lemma encodes_of_value (z : Z) (m : positive) (e : Z) (s : bool) :
  0 < Z.abs z < 2 ^ 53 -> -1000 <= e <= 0 ->
  cond_Zopp s (Zpos m) = z * 2 ^ (- e) ->
  encodes z (binary_round prec emax s m e).
Proof.
  intros Hz He Hm.
  assert (Hpow : 0 < 2 ^ (- e)) by (apply Z.pow_pos_nonneg; lia).
  destruct z as [|p|p]; [lia| |]; cbn [encodes]; destruct s; cbn [cond_Zopp] in Hm.
  - assert (0 < Zpos p * 2 ^ (- e)) by (apply Z.mul_pos_pos; lia). lia.
  - apply binary_round_exact; lia.
  - apply binary_round_exact; lia.
  - assert (Zneg p * 2 ^ (- e) < 0) by (apply Z.mul_neg_pos; lia). lia.
Qed.

(** The difference of two integers held exactly is held exactly, as long
    as it stays below 2^53. *)
Lemma sub_encodes (a b : Z) (ra rb : spec_float) :
  encodes a ra -> encodes b rb -> Z.abs (a - b) < 2 ^ 53 ->
  encodes (a - b) (SF64sub ra rb).
Proof.
  intros Ha Hb Hd. unfold SF64sub.
  destruct (Z.eq_dec a 0) as [->|Hna]; [|destruct (Z.eq_dec b 0) as [->|Hnb]].
  - cbn [encodes] in Ha. subst ra. destruct (Z.eq_dec b 0) as [->|Hnb].
    + cbn [encodes] in Hb. subst rb. reflexivity.
    + destruct (encodes_finite b rb Hnb Hb) as (s & m & e & ->).
      cbn [SFsub]. destruct b as [|p|p]; [congruence| |]; cbn [encodes holds] in *;
        destruct Hb as (-> & H); (split; [reflexivity|exact H]).
  - cbn [encodes] in Hb. subst rb.
    destruct (encodes_finite a ra Hna Ha) as (s & m & e & ->).
    cbn [SFsub]. rewrite Z.sub_0_r. exact Ha.
  - destruct (encodes_finite a ra Hna Ha) as (sa & ma & ea & Hra).
    destruct (encodes_finite b rb Hnb Hb) as (sb & mb & eb & Hrb).
    destruct (signed_value sa a ra ma ea Hna Ha Hra) as (Hva & Hea & _).
    destruct (signed_value sb b rb mb eb Hnb Hb Hrb) as (Hvb & Heb & _).
    subst ra rb. cbn [SFsub]. cbv zeta.
    set (ez := Z.min ea eb).
    assert (Hez : -52 <= ez <= 0 /\ ez <= ea /\ ez <= eb) by (unfold ez; lia).
    assert (Hma : cond_Zopp sa (Zpos (fst (shl_align ma ea ez))) = a * 2 ^ (- ez)).
    { rewrite Binary64Facts.shl_align_mantissa by lia.
      replace (- ez) with (- ea + (ea - ez)) by lia.
      rewrite Z.pow_add_r, Z.mul_assoc, <- Hva by lia.
      destruct sa; cbn [cond_Zopp]; lia. }
    assert (Hmb : cond_Zopp sb (Zpos (fst (shl_align mb eb ez))) = b * 2 ^ (- ez)).
    { rewrite Binary64Facts.shl_align_mantissa by lia.
      replace (- ez) with (- eb + (eb - ez)) by lia.
      rewrite Z.pow_add_r, Z.mul_assoc, <- Hvb by lia.
      destruct sb; cbn [cond_Zopp]; lia. }
    rewrite Hma, Hmb, <- Z.mul_sub_distr_r.
    assert (Hpow : 0 < 2 ^ (- ez)) by (apply Z.pow_pos_nonneg; lia).
    destruct (Z.eq_dec (a - b) 0) as [Hz|Hz].
    + rewrite Hz. reflexivity.
    + unfold binary_normalize.
      destruct ((a - b) * 2 ^ (- ez)) as [|d|d] eqn:Ed.
      * apply Z.mul_eq_0 in Ed. lia.
      * apply encodes_of_value; try lia. cbn [cond_Zopp]. lia.
      * apply encodes_of_value; try lia. cbn [cond_Zopp]. lia.
Qed.

Lemma mul_compare (n m p : Z) : 0 < p -> (n * p ?= m * p) = (n ?= m).
Proof.
  intros Hp. destruct (Z.compare_spec n m) as [->|H|H].
  - apply Z.compare_refl.
  - apply Z.compare_lt_iff. nia.
  - apply Z.compare_gt_iff. nia.
Qed.

(** Numbers that hold integers compare as the integers do. *)
Lemma compare_encodes (a b : Z) (ra rb : spec_float) :
  encodes a ra -> encodes b rb -> SFcompare ra rb = Some (a ?= b).
Proof.
  intros Ha Hb.
  destruct (Z.eq_dec a 0) as [->|Hna]; [|destruct (Z.eq_dec b 0) as [->|Hnb]].
  - cbn [encodes] in Ha. subst ra. destruct (Z.eq_dec b 0) as [->|Hnb].
    + cbn [encodes] in Hb. subst rb. reflexivity.
    + destruct b as [|p|p]; [congruence| |]; cbn [encodes] in Hb;
        destruct rb as [| | |s m e]; try contradiction; destruct Hb as (-> & _); reflexivity.
  - cbn [encodes] in Hb. subst rb.
    destruct a as [|p|p]; [congruence| |]; cbn [encodes] in Ha;
      destruct ra as [| | |s m e]; try contradiction; destruct Ha as (-> & _); reflexivity.
  - destruct (encodes_finite a ra Hna Ha) as (sa & ma & ea & Hra).
    destruct (encodes_finite b rb Hnb Hb) as (sb & mb & eb & Hrb).
    destruct (signed_value sa a ra ma ea Hna Ha Hra) as (Hva & Hea & Hba).
    destruct (signed_value sb b rb mb eb Hnb Hb Hrb) as (Hvb & Heb & Hbb).
    subst ra rb. cbn [SFcompare]. f_equal.
    assert (Hpa : 0 < 2 ^ (- ea)) by (apply Z.pow_pos_nonneg; lia).
    assert (Hpb : 0 < 2 ^ (- eb)) by (apply Z.pow_pos_nonneg; lia).
    assert (Hstep : forall x y, x < y -> y <= 0 -> 2 * 2 ^ (- y) <= 2 ^ (- x)).
    { intros x y Hxy Hy.
      replace (- x) with (1 + (- y) + (y - x - 1)) by lia.
      rewrite !Z.pow_add_r by lia. change (2 ^ 1) with 2.
      assert (0 < 2 ^ (y - x - 1)) by (apply Z.pow_pos_nonneg; lia).
      assert (0 < 2 ^ (- y)) by (apply Z.pow_pos_nonneg; lia). nia. }
    destruct sa, sb; cbn [cond_Zopp] in Hva, Hvb.
    + (* both negative *)
      assert (a < 0) by nia. assert (b < 0) by nia.
      destruct (ea ?= eb) eqn:Ec.
      * apply Z.compare_eq in Ec. subst eb.
        rewrite Pos.compare_cont_spec. cbn [Pos.switch_Eq].
        change (ma ?= mb)%positive with (Zpos ma ?= Zpos mb).
        assert (Hcmp : (Zpos ma ?= Zpos mb) = (b ?= a)).
        { replace (Zpos ma) with ((- a) * 2 ^ (- ea)) by lia.
          replace (Zpos mb) with ((- b) * 2 ^ (- ea)) by lia.
          rewrite mul_compare by assumption. apply Z.compare_opp. }
        rewrite Hcmp, (Z.compare_antisym a b). destruct (a ?= b); reflexivity.
      * apply Z.compare_lt_iff in Ec. symmetry. apply Z.compare_gt_iff.
        pose proof (Hstep ea eb Ec ltac:(lia)). nia.
      * apply Z.compare_gt_iff in Ec. symmetry. apply Z.compare_lt_iff.
        pose proof (Hstep eb ea Ec ltac:(lia)). nia.
    + assert (a < 0) by nia. assert (0 < b) by nia. symmetry. apply Z.compare_lt_iff. lia.
    + assert (0 < a) by nia. assert (b < 0) by nia. symmetry. apply Z.compare_gt_iff. lia.
    + assert (0 < a) by nia. assert (0 < b) by nia.
      destruct (ea ?= eb) eqn:Ec.
      * apply Z.compare_eq in Ec. subst eb.
        rewrite Pos.compare_cont_spec. cbn [Pos.switch_Eq].
        change (ma ?= mb)%positive with (Zpos ma ?= Zpos mb).
        rewrite Hva, Hvb, mul_compare by assumption. destruct (a ?= b); reflexivity.
      * apply Z.compare_lt_iff in Ec. symmetry. apply Z.compare_lt_iff.
        pose proof (Hstep ea eb Ec ltac:(lia)). nia.
      * apply Z.compare_gt_iff in Ec. symmetry. apply Z.compare_gt_iff.
        pose proof (Hstep eb ea Ec ltac:(lia)). nia.
Qed.

Lemma time_value_small (t : Z) : time_value t -> Z.abs t < 2 ^ 53.
Proof. unfold time_value, MAX_TIME. change (2 ^ 53) with 9007199254740992. lia. Qed.

(** On time values the subtraction of the source is exact. *)
Lemma cutoff_encodes (span now : Z) :
  time_value now -> 0 <= span <= 10000 ->
  encodes (now - span) (Prim2SF (stamp now - stamp span)).
Proof.
  intros Hnow Hspan. rewrite sub_spec.
  assert (Hbig : 10000 < 2 ^ 53) by reflexivity.
  unfold time_value, MAX_TIME in Hnow.
  assert (H53 : 2 ^ 53 = 9007199254740992) by reflexivity.
  apply sub_encodes; try (apply stamp_encodes); lia.
Qed.

(** The two tests of the source on timestamps, evaluated on numbers, are
    the tests on integers. *)
Lemma timestamp_tests_exact (span now t : Z) :
  time_value now -> time_value t -> 0 <= span <= 10000 ->
  lt (stamp t) (stamp now - stamp span) = (t <? now - span) /\
  le (stamp now - stamp span) (stamp t) = (now - span <=? t).
Proof.
  intros Hnow Ht Hspan.
  pose proof (cutoff_encodes span now Hnow Hspan) as Hcut.
  pose proof (stamp_encodes t (time_value_small t Ht)) as Hst.
  unfold lt, le. rewrite ltb_spec, leb_spec. unfold SFltb, SFleb.
  rewrite (compare_encodes _ _ _ _ Hst Hcut), (compare_encodes _ _ _ _ Hcut Hst).
  unfold Z.ltb, Z.leb. split.
  - destruct (t ?= now - span); reflexivity.
  - destruct (now - span ?= t); reflexivity.
Qed.

(** The eviction loop of [addTrade], run on numbers, is the one on
    integers. *)
Lemma evict_on_time_values (now : Z) (ts : list LegacyTrade) :
  time_value now -> time_values (map timestamp ts) ->
  evict_numbers (stamp now - 10000) ts = evict (now - 10000) ts.
Proof.
  intros Hnow. change 10000%float with (stamp 10000).
  induction ts as [|t rest IH]; intros Hts; [reflexivity|].
  inversion Hts as [|? ? Ht Hrest]; subst. cbn [evict_numbers evict].
  destruct (timestamp_tests_exact 10000 now (timestamp t) Hnow Ht ltac:(lia)) as [-> _].
  rewrite IH by exact Hrest. reflexivity.
Qed.

(** So are the loops that add up [delta1s] and [delta5s]. *)
Lemma window_delta_on_time_values (span now : Z) (ts : list LegacyTrade) :
  time_value now -> time_values (map timestamp ts) -> 0 <= span <= 10000 ->
  window_delta_numbers (stamp now - stamp span) ts = window_delta (now - span) ts.
Proof.
  intros Hnow Hts Hspan. unfold window_delta_numbers, window_delta.
  generalize 0%float as start. induction ts as [|t rest IH]; intros start; [reflexivity|].
  inversion Hts as [|? ? Ht Hrest]; subst. cbn [fold_left].
  destruct (timestamp_tests_exact span now (timestamp t) Hnow Ht Hspan) as [_ ->].
  apply IH. exact Hrest.
Qed.

Lemma evict_sublist (cutoff : Z) (ts : list LegacyTrade) (P : LegacyTrade -> Prop) :
  Forall P ts -> Forall P (evict cutoff ts).
Proof.
  induction ts as [|t rest IH]; intros H; [exact H|]. cbn [evict].
  destruct (timestamp t <? cutoff); [|exact H]. inversion H; subst. apply IH. assumption.
Qed.

(** [addTrade] on numbers is [addTrade] on integers, when the trade and the
    trades in the window carry time values. *)
Lemma addTrade_on_time_values (c : LegacyCalculator) (trade : LegacyTrade) :
  time_value (timestamp trade) -> time_values (map timestamp (trades c)) ->
  addTrade_numbers c trade = addTrade c trade.
Proof.
  intros Hnow Hts. unfold addTrade_numbers, addTrade. cbv zeta.
  assert (Hpushed : time_values (map timestamp (trades c ++ [trade]))).
  { unfold time_values in *. rewrite map_app. apply Forall_app. split; [exact Hts|].
    constructor; [exact Hnow|constructor]. }
  rewrite (evict_on_time_values _ _ Hnow Hpushed).
  change 1000%float with (stamp 1000).
  rewrite window_delta_on_time_values; [reflexivity|exact Hnow| |lia].
  unfold time_values in *. rewrite Forall_map in *. apply evict_sublist. exact Hpushed.
Qed.

(** A session of time values runs on numbers as it does on integers. *)
Lemma run_on_time_values (ops : list Op) :
  time_values (map timestamp (ingested ops)) -> run_numbers ops = run ops.
Proof.
  induction ops as [|op ops IH] using rev_ind; [reflexivity|].
  rewrite ingested_snoc, map_app. unfold time_values. rewrite Forall_app.
  intros [Hops Hop]. unfold run_numbers, run in *. rewrite !fold_left_app.
  cbn [fold_left]. rewrite IH by exact Hops.
  destruct op as [trade|ob dateNow]; [|reflexivity].
  cbn [step_numbers step]. apply addTrade_on_time_values.
  - inversion Hop; assumption.
  - destruct (window_is_suffix ops) as [gone Hgone]. unfold run in Hgone.
    unfold time_values. rewrite Hgone, map_app, Forall_app in Hops. apply Hops.
Qed.

(** From 2^53 on the subtraction rounds: with trades at 2^57 + 64 and
    2^57 + 10080 ms the cutoff of the source is the number 2^57 + 64, and
    the older trade stays in the window; on integers it is evicted. *)
Lemma addTrade_beyond_time_values :
  let older := mkTrade 100 1 buy (2 ^ 57 + 64) in
  let newer := mkTrade 100 1 buy (2 ^ 57 + 10080) in
  trades (addTrade_numbers (addTrade_numbers initial older) newer) = [older; newer] /\
  trades (addTrade (addTrade initial older) newer) = [newer].
Proof. split; vm_compute; reflexivity. Qed.

End StampFacts.

(** C5, as stated, fails in its last part from 2^53 on.  Both timestamps of
    [far_buys] are whole numbers that a number holds exactly, and they do
    not go back.  At the second ingest the source computes the cutoff
    [2^57 + 10080 - 10000] on numbers; it rounds to [2^57 + 64], the
    timestamp of the first trade, which is therefore not below the cutoff
    and stays in the window, 10,016 ms older than the trade ingested
    last. *)
Lemma C5_older_trade_stays_beyond_2_53 :
  nondecreasing (map timestamp (ingested far_buys)) /\
  ingested far_buys =
    [mkTrade 100 1 buy (2 ^ 57 + 64)] ++ [mkTrade 100 1 buy (2 ^ 57 + 10080)] /\
  (stamp (2 ^ 57 + 10080) - 10000)%float = stamp (2 ^ 57 + 64) /\
  In (mkTrade 100 1 buy (2 ^ 57 + 64)) (trades (run_numbers far_buys)) /\
  timestamp (mkTrade 100 1 buy (2 ^ 57 + 64)) <
  timestamp (mkTrade 100 1 buy (2 ^ 57 + 10080)) - 10000.
Proof.
  split; [|split; [|split; [|split]]].
  - simpl. repeat split; intros b Hb; simpl in Hb;
      repeat (destruct Hb as [<-|Hb]; [lia|]); destruct Hb.
  - reflexivity.
  - vm_compute. reflexivity.
  - left. vm_compute. reflexivity.
  - cbn [timestamp]. lia.
Qed.

(** C5, amended.  Whatever ingests and passes a session is made of, afterwards
    [deltaHistory] and [cvdHistory] hold at most 60 entries, [volumeHistory]
    at most 100 and [volatilityHistory] at most 3600; and when the
    timestamps of the feed are time values that never go back, the window
    is the one that the ingests leave when they run on numbers, as in the
    source, and no trade in it is more than 10,000 ms older than the trade
    ingested last. *)
Theorem C5_bounded_histories (ops : list Op) :
  let c := run ops in
  (length (deltaHistory c) <= 60)%nat /\
  (length (cvdHistory c) <= 60)%nat /\
  (length (volumeHistory c) <= 100)%nat /\
  (length (volatilityHistory c) <= 3600)%nat /\
  (time_values (map timestamp (ingested ops)) ->
   nondecreasing (map timestamp (ingested ops)) ->
   trades (run_numbers ops) = trades c /\
   forall earlier latest, ingested ops = earlier ++ [latest] ->
   forall t, In t (trades c) -> timestamp latest - 10000 <= timestamp t).
Proof.
  cbv zeta. destruct (bounded_run ops) as [Hd Hc Hv Hvol].
  repeat (split; [assumption|]). intros Htimes Hsorted. split.
  - rewrite (StampFacts.run_on_time_values ops Htimes). reflexivity.
  - apply window_fresh. exact Hsorted.
Qed.

(** C5 at six buys, the last one at fifteen seconds: the window on numbers
    is the window on integers, and it holds no trade from before five
    seconds. *)
Lemma C5_bounded_histories_witness :
  time_values (map timestamp (ingested six_buys)) /\
  nondecreasing (map timestamp (ingested six_buys)) /\
  trades (run_numbers six_buys) = trades (run six_buys) /\
  forall t, In t (trades (run six_buys)) -> 15000 - 10000 <= timestamp t.
Proof.
  assert (Htimes : time_values (map timestamp (ingested six_buys))).
  { simpl. repeat constructor; unfold MAX_TIME; lia. }
  assert (Hsorted : nondecreasing (map timestamp (ingested six_buys))).
  { simpl. repeat split; intros b Hb; simpl in Hb;
      repeat (destruct Hb as [<-|Hb]; [lia|]); destruct Hb. }
  destruct (C5_bounded_histories six_buys) as (_ & _ & _ & _ & Hwindow).
  destruct (Hwindow Htimes Hsorted) as [Hsame Hfresh].
  repeat (split; [assumption|]).
  exact (Hfresh [mkTrade 100 1 buy 0; mkTrade 100 1 buy 2000; mkTrade 100 1 buy 4000;
                 mkTrade 100 1 buy 6000; mkTrade 100 1 buy 8000]
                (mkTrade 100 1 buy 15000) eq_refl).
Defined.

(** ** Session accumulators and the VWAP *)

Lemma sum_from_map {A} (f : A -> num) (xs : list A) (start : num) :
  fold_left (fun a b => (a + b)%float) (map f xs) start =
  fold_left (fun acc x => (acc + f x)%float) xs start.
Proof.
  revert start. induction xs as [|x xs IH]; simpl; intros start; [reflexivity|]. apply IH.
Qed.

Lemma totalVolume_run (ops : list Op) :
  totalVolume (run ops) = sum (map quantity (ingested ops)).
Proof.
  unfold sum. induction ops as [|op ops IH] using rev_ind; [reflexivity|].
  rewrite run_snoc, ingested_snoc. destruct op as [trade|ob dateNow].
  - rewrite map_app, fold_left_app, <- IH. reflexivity.
  - rewrite app_nil_r. cbn [step]. rewrite computeMetrics_effect. exact IH.
Qed.

Lemma totalNotional_run (ops : list Op) :
  totalNotional (run ops) = sum (map (fun t => price t * quantity t)%float (ingested ops)).
Proof.
  unfold sum. induction ops as [|op ops IH] using rev_ind; [reflexivity|].
  rewrite run_snoc, ingested_snoc. destruct op as [trade|ob dateNow].
  - rewrite map_app, fold_left_app, <- IH. simpl.
    rewrite (FloatFacts.mul_comm (price trade)). reflexivity.
  - rewrite app_nil_r. cbn [step]. rewrite computeMetrics_effect. exact IH.
Qed.

Lemma cvdSession_run (ops : list Op) :
  cvdSession (run ops) = sum (map signed_quantity (ingested ops)).
Proof.
  unfold sum. induction ops as [|op ops IH] using rev_ind; [reflexivity|].
  rewrite run_snoc, ingested_snoc. destruct op as [trade|ob dateNow].
  - rewrite map_app, fold_left_app, <- IH. reflexivity.
  - rewrite app_nil_r. cbn [step]. rewrite computeMetrics_effect. exact IH.
Qed.

Lemma computeMetrics_vwap (c : LegacyCalculator) (ob : OrderbookState) (dateNow : Z) :
  Snapshot.vwap (snd (computeMetrics c ob dateNow)) =
  if gt (totalVolume c) EPSILON then (totalNotional c / totalVolume c)%float else 0%float.
Proof.
  unfold computeMetrics. destruct (calculateRegimeWeight _) as [c2 w]. reflexivity.
Qed.

(** C4. After any session, the [vwap] of the next snapshot is the sum of
    price times quantity over the sum of the quantities, both taken over
    every trade ingested so far in the order of arrival (evicted or not),
    when that sum of quantities is above 1e-12, and 0 otherwise. *)
Theorem C4_vwap_over_all_trades (ops : list Op) (ob : OrderbookState) (dateNow : Z) :
  let every_trade := ingested ops in
  let notional := sum (map (fun t => price t * quantity t)%float every_trade) in
  let volume := sum (map quantity every_trade) in
  Snapshot.vwap (snd (computeMetrics (run ops) ob dateNow)) =
  if gt volume EPSILON then (notional / volume)%float else 0%float.
Proof.
  cbv zeta. rewrite computeMetrics_vwap, totalVolume_run, totalNotional_run. reflexivity.
Qed.

(** ** Ingesting a trade that carries NaN *)

(** C6, as stated, fails: [addTrade] has no test on its argument.  From the
    fresh calculator, a trade with a NaN price stays in the window and in
    the histories, moves [totalVolume] and [cvdSession] and makes
    [totalNotional] NaN; one with a NaN quantity makes the three
    accumulators NaN. *)
Lemma C6_nan_trade_not_dropped :
  isNaN (price nan_price_trade) = true /\
  trades (addTrade initial nan_price_trade) = [nan_price_trade] /\
  totalVolume (addTrade initial nan_price_trade) = 2%float /\
  isNaN (totalNotional (addTrade initial nan_price_trade)) = true /\
  volumeHistory (addTrade initial nan_price_trade) = [2%float] /\
  isNaN (quantity nan_quantity_trade) = true /\
  isNaN (totalVolume (addTrade initial nan_quantity_trade)) = true /\
  isNaN (cvdSession (addTrade initial nan_quantity_trade)) = true /\
  addTrade initial nan_price_trade <> initial.
Proof.
  repeat (split; [reflexivity|]). discriminate.
Qed.

(** C6, amended.  A trade whose price or quantity is NaN is ingested like any
    other: it ends up as the newest entry of the window, its quantity as the
    newest entry of [volumeHistory], and it is added to the accumulators; so
    a NaN quantity makes [totalVolume], [totalNotional] and [cvdSession] NaN
    (and the [cvdHistory] entry pushed with them), and a NaN price makes
    [totalNotional] NaN. *)
Theorem C6_nan_trade_is_ingested (c : LegacyCalculator) (trade : LegacyTrade) :
  let c' := addTrade c trade in
  (exists kept, trades c' = kept ++ [trade]) /\
  last (volumeHistory c') 0%float = quantity trade /\
  last (cvdHistory c') 0%float = cvdSession c' /\
  totalVolume c' = (totalVolume c + quantity trade)%float /\
  totalNotional c' = (totalNotional c + quantity trade * price trade)%float /\
  cvdSession c' = (cvdSession c + signed_quantity trade)%float /\
  (isNaN (quantity trade) = true ->
   isNaN (totalVolume c') = true /\ isNaN (totalNotional c') = true /\
   isNaN (cvdSession c') = true) /\
  (isNaN (price trade) = true -> isNaN (totalNotional c') = true).
Proof.
  cbv zeta. cbn [addTrade trades volumeHistory cvdHistory totalVolume totalNotional cvdSession].
  split; [apply evict_keeps_newest; lia|].
  split; [apply push_capped_last; lia|].
  split; [apply push_capped_last; lia|].
  repeat (split; [reflexivity|]).
  unfold isNaN. split.
  - intros Hq. apply FloatFacts.is_nan_eq in Hq. unfold signed_quantity.
    rewrite Hq, FloatFacts.mul_nan_l, !FloatFacts.add_nan_r.
    destruct (side trade); rewrite ?FloatFacts.opp_nan, ?FloatFacts.add_nan_r; auto.
  - intros Hp. apply FloatFacts.is_nan_eq in Hp.
    rewrite Hp, FloatFacts.mul_nan_r, FloatFacts.add_nan_r. reflexivity.
Qed.

(** * The signal and the exhaustion flag *)

Lemma computeMetrics_signal (c : LegacyCalculator) (ob : OrderbookState) (dateNow : Z) :
  let m := snd (computeMetrics c ob dateNow) in
  Snapshot.tradeSignal m =
  if (3 <=? buys_of m)%nat && negb (Snapshot.exhaustion m) then 1
  else if (3 <=? sells_of m)%nat && negb (Snapshot.exhaustion m) then -1
  else 0.
Proof.
  unfold computeMetrics. destruct (calculateRegimeWeight _) as [c2 w]. reflexivity.
Qed.

(** C3. In every snapshot, [tradeSignal] is +1 exactly when at least three of
    the five buy tests hold and [exhaustion] is false; failing that it is -1
    exactly when at least three of the mirrored sell tests hold and
    [exhaustion] is false; failing both it is 0.  With [exhaustion] on, it is
    0 whatever the counts. *)
Theorem C3_tradeSignal_rule (c : LegacyCalculator) (ob : OrderbookState) (dateNow : Z) :
  let m := snd (computeMetrics c ob dateNow) in
  let buy := (3 <= buys_of m)%nat /\ Snapshot.exhaustion m = false in
  let sell := (3 <= sells_of m)%nat /\ Snapshot.exhaustion m = false in
  (Snapshot.tradeSignal m = 1 <-> buy) /\
  (Snapshot.tradeSignal m = -1 <-> ~ buy /\ sell) /\
  (Snapshot.tradeSignal m = 0 <-> ~ buy /\ ~ sell) /\
  (Snapshot.exhaustion m = true -> Snapshot.tradeSignal m = 0).
Proof.
  cbv zeta. rewrite computeMetrics_signal.
  destruct (Nat.leb_spec 3 (buys_of (snd (computeMetrics c ob dateNow)))) as [Hb|Hb];
    destruct (Nat.leb_spec 3 (sells_of (snd (computeMetrics c ob dateNow)))) as [Hs|Hs];
    destruct (Snapshot.exhaustion (snd (computeMetrics c ob dateNow)));
    cbn [andb negb];
    repeat split; intros; try discriminate; try lia; try reflexivity;
    try tauto;
      repeat match goal with
             | H : _ /\ _ |- _ => destruct H
             | H : ~ (_ /\ _) |- _ => try (exfalso; apply H; split; (lia || reflexivity))
             end; try discriminate; try lia.
Qed.

(** ** Exhaustion, condition by condition *)

Lemma sign_test_is_reversal (a b : num) :
  sne (Math_sign a) (Math_sign b) && sne (Math_sign a) 0 && sne (Math_sign b) 0
  = reversal a b.
Proof.
  unfold reversal, opposite_signs, Math_sign, isNaN, sne, gt, lt.
  rewrite (FloatFacts.is_nan_class a), (FloatFacts.is_nan_class b),
    (FloatFacts.gt0_class a), (FloatFacts.gt0_class b),
    (FloatFacts.lt0_class a), (FloatFacts.lt0_class b).
  rewrite (FloatFacts.eq0_class a), (FloatFacts.eq0_class b).
  destruct (Prim2SF a) as [[|]|[|]| |[|] ma ea] eqn:Ea;
    destruct (Prim2SF b) as [[|]|[|]| |[|] mb eb] eqn:Eb;
    cbn [orb andb negb];
    rewrite ?FloatFacts.eq0_class, ?Ea, ?Eb; cbn [orb andb negb];
    try reflexivity.
  all: rewrite ?eqb_spec, ?Ea, ?Eb; try reflexivity.
Qed.

Lemma last_two (xs : list num) :
  (2 <= length xs)%nat -> exists front before newest, xs = front ++ [before; newest].
Proof.
  intros H. destruct (rev xs) as [|newest [|before back]] eqn:E.
  - apply (f_equal (@length _)) in E. rewrite length_rev in E. simpl in E. lia.
  - apply (f_equal (@length _)) in E. rewrite length_rev in E. simpl in E. lia.
  - exists (rev back), before, newest.
    rewrite <- (rev_involutive xs), E. simpl. rewrite <- app_assoc. reflexivity.
Qed.

Lemma deltaReversal_reads (c : LegacyCalculator) : deltaReversal c = last_two_reversed c.
Proof.
  unfold deltaReversal, last_two_reversed, from_end.
  destruct (Nat.leb_spec 2 (length (deltaHistory c))) as [Hge|Hlt].
  - destruct (last_two _ Hge) as (front & before & newest & ->).
    rewrite rev_app_distr, length_app. simpl.
    replace (length front + 2 - 1)%nat with (length front + 1)%nat by lia.
    replace (length front + 2 - 2)%nat with (length front + 0)%nat by lia.
    rewrite !app_nth2_plus. simpl. apply sign_test_is_reversal.
  - destruct (rev (deltaHistory c)) as [|newest [|before back]] eqn:E; try reflexivity.
    apply (f_equal (@length _)) in E. rewrite length_rev in E. simpl in E. lia.
Qed.

Lemma slice_between_prior {A} (xs : list A) :
  (20 <= length xs)%nat -> slice_between 20 10 xs = firstn 10 (slice_last 20 xs).
Proof.
  intros H. unfold slice_between, slice_last. f_equal. lia.
Qed.

Lemma volumeDeclining_reads (c : LegacyCalculator) : volumeDeclining c = volume_declines c.
Proof.
  unfold volumeDeclining, volume_declines.
  destruct (Nat.leb_spec 20 (length (volumeHistory c))) as [Hge|Hlt]; [|reflexivity].
  rewrite slice_between_prior by assumption. rewrite FloatFacts.mul_comm. reflexivity.
Qed.

Lemma deltaFading_reads (c : LegacyCalculator) : deltaFading c = deltas_fade c.
Proof.
  unfold deltaFading, deltas_fade.
  destruct (Nat.leb_spec 5 (length (deltaHistory c))) as [Hge|Hlt]; [|reflexivity].
  pose proof (slice_last_length 5 (deltaHistory c)) as Hlen.
  rewrite Nat.min_l in Hlen by assumption.
  destruct (slice_last 5 (deltaHistory c)) as [|d0 [|d1 [|d2 [|d3 [|d4 [|d5 rest]]]]]];
    cbn [length] in Hlen; try lia.
  unfold within_tolerance. simpl.
  rewrite !(FloatFacts.mul_comm 1.1). rewrite andb_true_r, !andb_assoc. reflexivity.
Qed.

Lemma calculateExhaustion_counts (c : LegacyCalculator) (cvd deltaZ priceChange cvdSlope : num) :
  calculateExhaustion c cvd deltaZ priceChange cvdSlope =
  (3 <=? count_true [cvdPriceDivergence cvd priceChange; deltaReversal c;
                     slopeFlatline cvdSlope; volumeDeclining c; deltaFading c])%nat.
Proof.
  unfold calculateExhaustion, count_true.
  destruct (cvdPriceDivergence cvd priceChange), (deltaReversal c),
    (slopeFlatline cvdSlope), (volumeDeclining c), (deltaFading c); reflexivity.
Qed.

Lemma computeMetrics_exhaustion (c : LegacyCalculator) (ob : OrderbookState) (dateNow : Z) :
  let m := snd (computeMetrics c ob dateNow) in
  Snapshot.exhaustion m = (3 <=? conditions_met threshold_in_source c ob m)%nat.
Proof.
  cbv zeta. unfold conditions_met.
  rewrite <- deltaReversal_reads, <- volumeDeclining_reads, <- deltaFading_reads.
  pose proof (calculateRegimeWeight_state (set_lastMidPrice c (mid_price ob))) as Hst.
  unfold computeMetrics. fold (mid_price ob).
  destruct (calculateRegimeWeight (set_lastMidPrice c (mid_price ob))) as [c2 w].
  cbn [fst snd Snapshot.exhaustion Snapshot.cvdSlope] in *.
  rewrite calculateExhaustion_counts.
  assert (Hd : deltaHistory c2 = deltaHistory c)
    by (rewrite Hst; destruct (length (trades _) <? 5)%nat; reflexivity).
  assert (Hv : volumeHistory c2 = volumeHistory c)
    by (rewrite Hst; destruct (length (trades _) <? 5)%nat; reflexivity).
  assert (Hs : cvdSession c2 = cvdSession c)
    by (rewrite Hst; destruct (length (trades _) <? 5)%nat; reflexivity).
  unfold deltaReversal, volumeDeclining, deltaFading. rewrite Hd, Hv, Hs.
  reflexivity.
Qed.

(** C2, as stated, fails.  In the second pass the CVD is 5 and the mid price
    has fallen by 1 %, far beyond 0.05 %: with the flat slope and the fading
    deltas that makes three conditions of the prose, yet [exhaustion] is
    false; the source asks for a fall beyond 5 %. *)
Lemma C2_one_percent_drop_is_not_counted :
  let m := snd (computeMetrics after_first_pass book_around_99 10000) in
  price_change after_first_pass book_around_99 = (-0.01)%float /\
  cvdSession after_first_pass = 5%float /\
  conditions_met threshold_in_prose after_first_pass book_around_99 m = 3%nat /\
  Snapshot.exhaustion m = false.
Proof. vm_compute. repeat split; reflexivity. Qed.

(** C2, amended.  A pass returns [exhaustion = true] if and only if at least
    three of five conditions hold: (a) the session CVD is positive and the
    mid price fell by more than 0.05 of the previous pass's mid price (5 %),
    or it is negative and the price rose by more than that; (b) the last two
    [deltaHistory] entries have opposite non-zero signs, a NaN entry counting
    as a reversal next to any non-zero entry; (c) |cvdSlope| < 5; (d)
    [volumeHistory] has at least 20 entries and its last 10 add up to less
    than 0.8 times the 10 before; (e) [deltaHistory] has at least 5 entries
    and over the last five no magnitude exceeds 1.1 times the previous one.
    Exactly two conditions give false, exactly three give true. *)
Theorem C2_exhaustion_three_of_five (c : LegacyCalculator) (ob : OrderbookState) (dateNow : Z) :
  let m := snd (computeMetrics c ob dateNow) in
  let met := conditions_met threshold_in_source c ob m in
  (Snapshot.exhaustion m = true <-> (3 <= met)%nat) /\
  (met = 2%nat -> Snapshot.exhaustion m = false) /\
  (met = 3%nat -> Snapshot.exhaustion m = true).
Proof.
  cbv zeta. rewrite computeMetrics_exhaustion.
  destruct (Nat.leb_spec 3
    (conditions_met threshold_in_source c ob (snd (computeMetrics c ob dateNow))))
    as [H|H]; repeat split; intros; try lia; try reflexivity; try discriminate.
Qed.

(** * Scores and their ranges *)

(** C1 at a failing input.  Every price is 0 and every quantity 1, finite and
    not negative; the returns [(0 - 0) / 0] are NaN, so is their deviation,
    and the pass returns NaN for [regimeWeight], which is not within [0, 1],
    and leaves NaN in [volatilityHistory]. *)
Lemma C1_regimeWeight_of_zero_prices :
  let c := run zero_price_trades in
  let result := computeMetrics c book_around_100 5 in
  forallb (fun t => is_finite (price t) && le 0 (price t)
                   && is_finite (quantity t) && le 0 (quantity t))
          (ingested zero_price_trades) = true /\
  isNaN (Snapshot.regimeWeight (snd result)) = true /\
  in_range 0 1 (Snapshot.regimeWeight (snd result)) = false /\
  volatilityHistory (fst result) = [nan].
Proof. vm_compute. repeat split; reflexivity. Qed.

(** * OpenInterestMonitor *)

Module OIFacts.
Import OI.
Import Binary64.

(** ** The rate limit *)

(** C7, as stated, fails in its last sentence.  The monitor holds 5, read
    at time 1000.  A call at 100000 fetches and gets a 500; that leaves
    [lastFetchTime] at 1000, so the call one millisecond later fetches
    again and stores 7: two calls 1 ms apart, [currentOI > 0] at both, and
    the second one changes the monitor. *)
Lemma C7_second_call_after_failed_fetch :
  let first := refresh fetched_5 100000 (NotOk 500) in
  let second := refresh (fst (fst first)) 100001 (Body 7) in
  gt (currentOI fetched_5) 0 = true /\
  gt (currentOI (fst (fst first))) 0 = true /\
  100001 - 100000 < FETCH_INTERVAL_MS /\
  snd second = true /\
  currentOI (fst (fst second)) = 7%float /\
  lastFetchTime (fst (fst second)) = 100001 /\
  fst (fst second) <> fst (fst first).
Proof.
  vm_compute. repeat (split; [reflexivity|]). discriminate.
Qed.

(** C7, amended.  A call made while [currentOI > 0] and less than 60,000 ms
    after [lastFetchTime] returns before it fetches and leaves the monitor
    as it is.  In particular a call made less than 60,000 ms after a call
    that fetched and read a body (which is what sets [lastFetchTime] to
    that call's time) changes nothing when [currentOI > 0]. *)
Theorem C7_rate_limited_call_is_noop (m : OpenInterestMonitor) (now : Z)
    (Hheld : gt (currentOI m) 0 = true) :
  (now - lastFetchTime m < FETCH_INTERVAL_MS ->
   updateOpenInterest m now = Return m /\
   (forall r, refresh m now r = (m, [], false))) /\
  (forall earlier before newVal,
     m = fst (after_fetch earlier (Body newVal) before) ->
     now - earlier < FETCH_INTERVAL_MS ->
     updateOpenInterest m now = Return m /\
     (forall r, refresh m now r = (m, [], false))).
Proof.
  assert (Hnoop : now - lastFetchTime m < FETCH_INTERVAL_MS ->
                  updateOpenInterest m now = Return m /\
                  (forall r, refresh m now r = (m, [], false))).
  { intros Hrecent.
    assert (Hreturn : updateOpenInterest m now = Return m).
    { unfold updateOpenInterest. rewrite Hheld.
      destruct (Z.ltb_spec (now - lastFetchTime m) FETCH_INTERVAL_MS); [reflexivity|lia]. }
    split; [exact Hreturn|]. intros r. unfold refresh. rewrite Hreturn. reflexivity. }
  split; [exact Hnoop|].
  intros earlier before newVal Hm Hsoon. apply Hnoop.
  rewrite Hm. simpl. exact Hsoon.
Qed.

(** C7 at the monitor that fetched 5 at time 1000, called again at 2000. *)
Lemma C7_rate_limited_call_witness :
  (2000 - lastFetchTime fetched_5 < FETCH_INTERVAL_MS ->
   updateOpenInterest fetched_5 2000 = Return fetched_5 /\
   (forall r, refresh fetched_5 2000 r = (fetched_5, [], false))) /\
  (forall earlier before newVal,
     fetched_5 = fst (after_fetch earlier (Body newVal) before) ->
     2000 - earlier < FETCH_INTERVAL_MS ->
     updateOpenInterest fetched_5 2000 = Return fetched_5 /\
     (forall r, refresh fetched_5 2000 r = (fetched_5, [], false))).
Proof.
  apply (C7_rate_limited_call_is_noop fetched_5 2000). reflexivity.
Defined.

(** ** Failed fetches *)

(** C8, as stated, fails for a body that is no number: the fresh monitor
    gets its [lastFetchTime] set to the time of the call. *)
Lemma C8_unparsable_body_moves_lastFetchTime :
  let m := create "BTCUSDT"%string in
  let after := fst (fst (refresh m 5000 (Body nan))) in
  failed (Body nan) = true /\
  lastFetchTime m = 0 /\
  lastFetchTime after = 5000 /\
  after <> m.
Proof.
  vm_compute. repeat (split; [reflexivity|]). discriminate.
Qed.

(** C8, amended.  Whatever way the fetch fails, the call completes and
    [currentOI], [previousOI] and the history are left as they were.  An
    error response and a thrown error leave the whole monitor unchanged
    and log one line; a body that does not parse to a number logs nothing
    and sets [lastFetchTime] to the time of the call. *)
Theorem C8_failed_fetch (m : OpenInterestMonitor) (now : Z) (r : FetchResult)
    (Hfailed : failed r = true) :
  let m' := fst (after_fetch now r m) in
  currentOI m' = currentOI m /\
  previousOI m' = previousOI m /\
  oiHistory m' = oiHistory m /\
  symbol m' = symbol m /\
  match r with
  | Body _ => m' = set_lastFetchTime m now /\ snd (after_fetch now r m) = []
  | NotOk status => m' = m /\ snd (after_fetch now r m) = [FailedToFetch status]
  | _ => m' = m /\ snd (after_fetch now r m) = [FetchError]
  end /\
  (let whole := fst (fst (refresh m now r)) in
   currentOI whole = currentOI m /\ previousOI whole = previousOI m /\
   oiHistory whole = oiHistory m).
Proof.
  cbv zeta. unfold refresh, updateOpenInterest.
  destruct ((now - lastFetchTime m <? FETCH_INTERVAL_MS) && gt (currentOI m) 0);
    destruct r as [|status| |newVal]; simpl in *;
    rewrite ?Hfailed; simpl; repeat split; reflexivity.
Qed.

(** C8 at the monitor that fetched 5, for a call at 100000 answered with
    a 500. *)
Lemma C8_failed_fetch_witness :
  let m' := fst (after_fetch 100000 (NotOk 500) fetched_5) in
  currentOI m' = currentOI fetched_5 /\
  previousOI m' = previousOI fetched_5 /\
  oiHistory m' = oiHistory fetched_5 /\
  symbol m' = symbol fetched_5 /\
  (m' = fetched_5 /\ snd (after_fetch 100000 (NotOk 500) fetched_5) = [FailedToFetch 500]) /\
  (let whole := fst (fst (refresh fetched_5 100000 (NotOk 500))) in
   currentOI whole = currentOI fetched_5 /\ previousOI whole = previousOI fetched_5 /\
   oiHistory whole = oiHistory fetched_5).
Proof.
  apply (C8_failed_fetch fetched_5 100000 (NotOk 500)). reflexivity.
Defined.

(** ** The sign of [deltaPercent] *)

Lemma is_finite_class (x : float) :
  is_finite x = match Prim2SF x with S754_zero _ | S754_finite _ _ _ => true | _ => false end.
Proof.
  unfold is_finite, is_infinity.
  rewrite FloatFacts.is_nan_class, eqb_spec, abs_spec.
  change (Prim2SF infinity) with (S754_infinity false).
  destruct (Prim2SF x) as [[|]|[|]| |[|] m e]; reflexivity.
Qed.

Lemma finite_non_negative_class (v : float) :
  finite_non_negative v = true ->
  match Prim2SF v with S754_zero _ | S754_finite false _ _ => True | _ => False end.
Proof.
  unfold finite_non_negative, le. rewrite is_finite_class, FloatFacts.le0_class.
  destruct (Prim2SF v) as [[|]|[|]| |[|] m e]; simpl; intros H; try discriminate; exact I.
Qed.

Lemma positive_finite_class (p : float) :
  gt p 0 = true -> is_finite p = true ->
  match Prim2SF p with S754_finite false _ _ => True | _ => False end.
Proof.
  unfold gt. rewrite is_finite_class, FloatFacts.gt0_class.
  destruct (Prim2SF p) as [[|]|[|]| |[|] m e]; simpl; intros H1 H2; try discriminate; exact I.
Qed.

Lemma binary_round_aux_sign (sx : bool) (mx ex : Z) (lx : location) :
  match binary_round_aux prec emax sx mx ex lx with
  | S754_nan => True
  | S754_zero s | S754_infinity s | S754_finite s _ _ => s = sx
  end.
Proof.
  unfold binary_round_aux.
  destruct (shr_fexp prec emax mx ex lx) as [mrs1 e1].
  destruct (shr_fexp prec emax _ e1 loc_Exact) as [mrs2 e2].
  destruct (shr_m mrs2); [reflexivity| |exact I].
  destruct (e2 <=? emax - prec); reflexivity.
Qed.

(** With [previousOI] equal to [currentOI], the trend is flat. *)
Lemma no_change_is_flat (c : float) :
  finite_non_negative c = true ->
  gt (Math_abs (c - c)) (c * 0.0005) = false.
Proof.
  intros Hc. apply finite_non_negative_class in Hc.
  unfold gt, Math_abs. rewrite ltb_spec, abs_spec, sub_spec, mul_spec.
  change (Prim2SF 0.0005) with half_per_mille.
  destruct (Prim2SF c) as [[|]|[|]| |[|] m e]; try contradiction; try reflexivity.
  unfold SF64sub, SFsub. cbn [cond_Zopp]. rewrite Z.sub_diag. cbn [binary_normalize SFabs].
  unfold SF64mul, SFmul, half_per_mille. cbn [xorb].
  pose proof (binary_round_aux_sign false (Zpos (m * 4611686018427388)) (e + -63) loc_Exact) as Hs.
  destruct (binary_round_aux _ _ _ _ _ _) as [s|s| |s m' e']; try subst s; reflexivity.
Qed.

(** With a finite [currentOI >= 0] and a different finite [previousOI > 0],
    the percentage has the sign of the difference. *)
Lemma percent_sign (c p : float) :
  finite_non_negative c = true -> gt p 0 = true -> is_finite p = true -> c <> p ->
  (gt (c - p) 0 = true -> gt ((c - p) / p * 100) 0 = true) /\
  (gt (c - p) 0 = false -> lt ((c - p) / p * 100) 0 = true).
Proof.
  intros Hc Hp Hfin Hne.
  apply finite_non_negative_class in Hc.
  pose proof (positive_finite_class p Hp Hfin) as Hp'.
  assert (Hne' : Prim2SF c <> Prim2SF p) by (intros H; apply Hne, Prim2SF_inj, H).
  destruct (Binary64Facts.percent_has_sign (Prim2SF c) (Prim2SF p)
              (Prim2SF_valid c) (Prim2SF_valid p) Hc Hp' Hne') as [s [Hd Hdp]].
  unfold gt, lt.
  rewrite !FloatFacts.gt0_class, FloatFacts.lt0_class.
  rewrite mul_spec, div_spec, sub_spec.
  change (Prim2SF 100) with hundred.
  destruct (SF64sub (Prim2SF c) (Prim2SF p)) as [| sd | |sd md ed];
    cbn [has_sign] in Hd; try contradiction; subst sd;
    destruct (SF64mul _ hundred) as [| sq | |sq mq eq];
    cbn [has_sign] in Hdp; try contradiction; subst sq;
    destruct s; split; intros H; try discriminate; reflexivity.
Qed.

Lemma settled_after_fetch (m : OpenInterestMonitor) (now : Z) (r : FetchResult) :
  settled m -> delivers finite_non_negative r -> settled (fst (after_fetch now r m)).
Proof.
  intros [Hcur Hprev] Hr. destruct r as [|status| |newVal]; cbn [after_fetch fst];
    try (split; assumption).
  cbn [delivers] in Hr. destruct (isNaN newVal) eqn:Enan; cbn [negb orb] in *.
  - split; assumption.
  - unfold settled. cbn [set_lastFetchTime store currentOI previousOI].
    split; [exact Hr|].
    destruct (gt (currentOI m) 0) eqn:Egt.
    + right. split; [exact Egt|].
      unfold finite_non_negative in Hcur. apply andb_prop in Hcur. apply Hcur.
    + left. reflexivity.
Qed.

Lemma settled_reachable (m : OpenInterestMonitor) :
  reachable finite_non_negative m -> settled m.
Proof.
  induction 1 as [symbol|m now r Hreach IH Hr].
  - split; [reflexivity|left; reflexivity].
  - unfold refresh, updateOpenInterest.
    destruct ((now - lastFetchTime m <? FETCH_INTERVAL_MS) && gt (currentOI m) 0);
      cbn [fst]; [exact IH|].
    apply settled_after_fetch; assumption.
Qed.

(** C9, as stated, fails: +Infinity is a non-negative value
    ([parseFloat] gives it for "Infinity" or "1e999", and it is no NaN).
    After 1, +Infinity and 1 the monitor holds [previousOI = +Infinity];
    the snapshot has [delta = -Infinity], trend [down], and
    [deltaPercent = -Infinity / +Infinity * 100], which is NaN and not
    below 0. *)
Lemma C9_percent_is_nan_after_infinity :
  reachable non_negative through_infinity /\
  trend (getMetrics through_infinity 400000) = down /\
  lt (deltaPercent (getMetrics through_infinity 400000)) 0 = false /\
  isNaN (deltaPercent (getMetrics through_infinity 400000)) = true.
Proof.
  split.
  - unfold through_infinity. repeat (apply reach_refresh; [|reflexivity]).
    apply reach_create.
  - vm_compute. repeat split; reflexivity.
Qed.

(** C9, amended.  For every monitor reached through [refresh] calls whose
    fetched values are finite and not negative, whenever the snapshot
    reports a trend other than [flat], [deltaPercent] has the sign of the
    trend: above 0 for [up], below 0 for [down]. *)
Theorem C9_percent_follows_trend (m : OpenInterestMonitor) (dateNow : Z)
    (Hreach : reachable finite_non_negative m) :
  (trend (getMetrics m dateNow) = up -> gt (deltaPercent (getMetrics m dateNow)) 0 = true) /\
  (trend (getMetrics m dateNow) = down -> lt (deltaPercent (getMetrics m dateNow)) 0 = true).
Proof.
  destruct (settled_reachable m Hreach) as [Hcur Hprev].
  unfold getMetrics. cbn [trend deltaPercent].
  destruct (gt (Math_abs (currentOI m - previousOI m)) (currentOI m * 0.0005)) eqn:Emoved;
    [|split; discriminate].
  assert (Hne : currentOI m <> previousOI m).
  { intros Heq. rewrite <- Heq in Emoved.
    rewrite (no_change_is_flat _ Hcur) in Emoved. discriminate. }
  destruct Hprev as [Heq|[Hpos Hfin]]; [congruence|].
  rewrite Hpos.
  destruct (percent_sign (currentOI m) (previousOI m) Hcur Hpos Hfin Hne) as [Hup Hdown].
  destruct (gt (currentOI m - previousOI m) 0) eqn:Edir; split; intros H;
    try discriminate; auto.
Qed.

(** C9 at the monitor that fetched 100 and then 101: the trend is [up] and
    [deltaPercent] is 1. *)
Lemma C9_percent_follows_trend_witness :
  trend (getMetrics rose_by_one 300000) = up /\
  gt (deltaPercent (getMetrics rose_by_one 300000)) 0 = true.
Proof.
  split; [reflexivity|].
  apply (C9_percent_follows_trend rose_by_one 300000).
  - unfold rose_by_one. repeat (apply reach_refresh; [|reflexivity]).
    apply reach_create.
  - reflexivity.
Defined.

End OIFacts.

(** * Extensions: order of binary64 numbers, and ranges *)

Module OrderFacts.

Lemma SFcompare_antisym (x y : spec_float) :
  SFcompare y x = match SFcompare x y with Some c => Some (CompOpp c) | None => None end.
Proof.
  destruct x as [sx|sx| |sx mx ex], y as [sy|sy| |sy my ey]; simpl;
    try reflexivity;
    try (destruct sx; reflexivity); try (destruct sy; reflexivity);
    try (destruct sx, sy; reflexivity).
  assert (Hm : Pos.compare_cont Eq my mx = CompOpp (Pos.compare_cont Eq mx my))
    by (rewrite Pos.compare_cont_antisym; reflexivity).
  destruct sx, sy; simpl; try reflexivity;
    rewrite (Z.compare_antisym ex ey), Hm;
    destruct (ex ?= ey); simpl; try reflexivity;
    destruct (Pos.compare_cont Eq mx my); reflexivity.
Qed.

Lemma SFcompare_nan (x y : spec_float) :
  SFcompare x y = None <-> x = S754_nan \/ y = S754_nan.
Proof.
  destruct x as [sx|sx| |sx mx ex], y as [sy|sy| |sy my ey]; simpl;
    split; intros H; try discriminate; auto;
    try (destruct H as [H|H]; discriminate).
Qed.

Lemma ltb_leb (x y : float) : (x <? y)%float = true -> (x <=? y)%float = true.
Proof.
  rewrite ltb_spec, leb_spec. unfold SFltb, SFleb.
  destruct (SFcompare (Prim2SF x) (Prim2SF y)) as [[| |]|]; congruence.
Qed.

Lemma not_ltb_leb (x y : float) :
  is_nan x = false -> is_nan y = false -> (x <? y)%float = false -> (y <=? x)%float = true.
Proof.
  rewrite !FloatFacts.is_nan_class, ltb_spec, leb_spec. unfold SFltb, SFleb.
  intros Hx Hy. rewrite (SFcompare_antisym (Prim2SF x) (Prim2SF y)).
  destruct (SFcompare (Prim2SF x) (Prim2SF y)) as [[| |]|] eqn:E; simpl; try congruence.
  apply SFcompare_nan in E.
  destruct E as [E|E]; rewrite E in *; discriminate.
Qed.

Lemma leb_refl (x : float) : is_nan x = false -> (x <=? x)%float = true.
Proof.
  intros Hx. apply not_ltb_leb; try assumption.
  rewrite ltb_spec. unfold SFltb.
  pose proof (SFcompare_antisym (Prim2SF x) (Prim2SF x)) as H.
  destruct (SFcompare (Prim2SF x) (Prim2SF x)) as [[| |]|]; try reflexivity; discriminate.
Qed.

Lemma is_nan_nan : is_nan nan = true.
Proof. reflexivity. Qed.

(** [Math.min] and [Math.max] return NaN or one of their arguments, which
    is then on the right side of both. *)
Lemma Math_min_bounds (a b : num) :
  isNaN (Math_min a b) = false ->
  (Math_min a b = a \/ Math_min a b = b) /\
  le (Math_min a b) a = true /\ le (Math_min a b) b = true.
Proof.
  unfold Math_min, isNaN, le.
  destruct (is_nan a) eqn:Ha; [simpl; rewrite is_nan_nan; discriminate|].
  destruct (is_nan b) eqn:Hb; [simpl; rewrite is_nan_nan; discriminate|].
  simpl. intros _.
  destruct (a <? b)%float eqn:Hab.
  - split; [left; reflexivity|]. split; [apply leb_refl, Ha|apply ltb_leb, Hab].
  - destruct (b <? a)%float eqn:Hba.
    + split; [right; reflexivity|]. split; [apply ltb_leb, Hba|apply leb_refl, Hb].
    + destruct (get_sign a).
      * split; [left; reflexivity|]. split; [apply leb_refl, Ha|].
        apply not_ltb_leb; assumption.
      * split; [right; reflexivity|]. split; [|apply leb_refl, Hb].
        apply not_ltb_leb; assumption.
Qed.

Lemma Math_max_bounds (a b : num) :
  isNaN (Math_max a b) = false ->
  (Math_max a b = a \/ Math_max a b = b) /\
  le a (Math_max a b) = true /\ le b (Math_max a b) = true.
Proof.
  unfold Math_max, isNaN, le.
  destruct (is_nan a) eqn:Ha; [simpl; rewrite is_nan_nan; discriminate|].
  destruct (is_nan b) eqn:Hb; [simpl; rewrite is_nan_nan; discriminate|].
  simpl. intros _.
  destruct (a <? b)%float eqn:Hab.
  - split; [right; reflexivity|]. split; [apply ltb_leb, Hab|apply leb_refl, Hb].
  - destruct (b <? a)%float eqn:Hba.
    + split; [left; reflexivity|]. split; [apply leb_refl, Ha|apply ltb_leb, Hba].
    + destruct (get_sign a).
      * split; [right; reflexivity|]. split; [|apply leb_refl, Hb].
        apply not_ltb_leb; assumption.
      * split; [left; reflexivity|]. split; [apply leb_refl, Ha|].
        apply not_ltb_leb; assumption.
Qed.

(** [Math.max(low, Math.min(high, x))] with [low <= high] is NaN or within
    the two bounds. *)
Lemma clamp_within (low high x : num) :
  le low high = true ->
  nan_or_within low high (Math_max low (Math_min high x)) = true.
Proof.
  intros Hbounds. unfold nan_or_within, in_range.
  destruct (isNaN (Math_max low (Math_min high x))) eqn:Hnan; [reflexivity|].
  destruct (Math_max_bounds _ _ Hnan) as ([Heq|Heq] & Hlow & Hinner).
  - rewrite Heq in *. apply andb_true_intro. split; [|exact Hbounds].
    apply leb_refl. exact Hnan.
  - apply andb_true_intro. split; [exact Hlow|]. rewrite Heq in *.
    destruct (Math_min_bounds _ _ Hnan) as (_ & Hhigh & _). exact Hhigh.
Qed.

End OrderFacts.

(** * Extensions: what the scores can be *)

Module SignFacts.

Lemma le0_of_not_negative (x : float) :
  is_nan x = false -> not_negative (Prim2SF x) -> le 0 x = true.
Proof.
  unfold le. rewrite FloatFacts.is_nan_class, FloatFacts.le0_class.
  destruct (Prim2SF x) as [[|]|[|]| |[|] m e]; simpl; intros Hn H;
    try reflexivity; try discriminate; contradiction.
Qed.

Lemma round_not_negative (mx ex : Z) (lx : location) :
  not_negative (binary_round_aux prec emax false mx ex lx).
Proof.
  pose proof (OIFacts.binary_round_aux_sign false mx ex lx) as H.
  destruct (binary_round_aux _ _ _ _ _ _) as [s|s| |s m e]; simpl; try exact I;
    subst s; exact I.
Qed.

Lemma sqrt_not_negative (x : float) : not_negative (Prim2SF (Math_sqrt x)).
Proof.
  unfold Math_sqrt. rewrite sqrt_spec. unfold SF64sqrt, SFsqrt.
  destruct (Prim2SF x) as [[|]|[|]| |[|] m e]; simpl; try exact I.
  destruct (SFsqrt_core_binary prec emax (Zpos m) e) as [[mz ez] lz].
  apply round_not_negative.
Qed.

Lemma div_not_negative (x y : spec_float) :
  not_negative x -> positive_or_nan y -> not_negative (SF64div x y).
Proof.
  unfold SF64div, SFdiv.
  destruct x as [[|]|[|]| |[|] mx ex], y as [[|]|[|]| |[|] my ey]; simpl;
    intros Hx Hy; try exact I; try contradiction.
  destruct (SFdiv_core_binary prec emax (Zpos mx) ex (Zpos my) ey) as [[mz ez] lz].
  apply round_not_negative.
Qed.

Lemma mul_not_negative (x y : spec_float) :
  not_negative x -> positive_or_nan y -> not_negative (SF64mul x y).
Proof.
  unfold SF64mul, SFmul.
  destruct x as [[|]|[|]| |[|] mx ex], y as [[|]|[|]| |[|] my ey]; simpl;
    intros Hx Hy; try exact I; try contradiction.
  apply round_not_negative.
Qed.

(** Not below a positive number: positive, or NaN. *)
Lemma not_below_positive (x bound : float) (m : positive) (e : Z) :
  Prim2SF bound = S754_finite false m e ->
  lt x bound = false -> positive_or_nan (Prim2SF x).
Proof.
  unfold lt. rewrite ltb_spec. intros ->. unfold SFltb.
  destruct (Prim2SF x) as [[|]|[|]| |[|] mx ex]; simpl; intros H;
    try exact I; discriminate.
Qed.

Lemma at_least_positive (x bound : float) (m : positive) (e : Z) :
  Prim2SF bound = S754_finite false m e ->
  le bound x = true -> positive_or_nan (Prim2SF x).
Proof.
  unfold le. rewrite leb_spec. intros ->. unfold SFleb.
  destruct (Prim2SF x) as [[|]|[|]| |[|] mx ex]; simpl; intros H;
    try exact I; discriminate.
Qed.

Lemma EPSILON_positive : exists m e, Prim2SF EPSILON = S754_finite false m e.
Proof. eexists. eexists. vm_compute. reflexivity. Qed.

Lemma calculateStdDev_not_negative (values : list num) :
  not_negative (Prim2SF (calculateStdDev values)).
Proof.
  unfold calculateStdDev. destruct (length values =? 0)%nat; [exact I|].
  apply sqrt_not_negative.
Qed.

(** [Math.min(1, q)] for a quotient [q] that is not negative. *)
Lemma min_one_within (q : num) :
  not_negative (Prim2SF q) -> nan_or_within 0 1 (Math_min 1 q) = true.
Proof.
  intros Hq. unfold nan_or_within, in_range.
  destruct (isNaN (Math_min 1 q)) eqn:Hnan; [reflexivity|].
  destruct (OrderFacts.Math_min_bounds _ _ Hnan) as ([Heq|Heq] & Hone & _).
  - rewrite Heq. reflexivity.
  - apply andb_true_intro. split; [|exact Hone].
    rewrite Heq in *. apply le0_of_not_negative; assumption.
Qed.

End SignFacts.

Module ScoreFacts.

Lemma snapshot_sweepFadeScore (c : LegacyCalculator) (ob : OrderbookState) (dateNow : Z) :
  Snapshot.sweepFadeScore (snd (computeMetrics c ob dateNow)) =
  calculateSweepFadeScore (set_lastMidPrice c (mid_price ob))
    (or_zero (bestAsk ob) - or_zero (bestBid ob)) (mid_price ob).
Proof.
  unfold computeMetrics, mid_price. destruct (calculateRegimeWeight _) as [c2 w]. reflexivity.
Qed.

Lemma snapshot_delta1s (c : LegacyCalculator) (ob : OrderbookState) (dateNow : Z) :
  Snapshot.delta1s (snd (computeMetrics c ob dateNow)) =
  window_delta
    (match trades c with
     | [] => dateNow
     | _ => timestamp (last (trades c) (mkTrade 0 0 buy 0))
     end - 1000) (trades c).
Proof.
  unfold computeMetrics. destruct (calculateRegimeWeight _) as [c2 w]. reflexivity.
Qed.

Lemma snapshot_breakoutScore (c : LegacyCalculator) (ob : OrderbookState) (dateNow : Z) :
  Snapshot.breakoutScore (snd (computeMetrics c ob dateNow)) =
  calculateBreakoutScore (set_lastMidPrice c (mid_price ob))
    (Snapshot.delta1s (snd (computeMetrics c ob dateNow))).
Proof.
  unfold computeMetrics, mid_price. destruct (calculateRegimeWeight _) as [c2 w]. reflexivity.
Qed.

Lemma snapshot_regimeWeight (c : LegacyCalculator) (ob : OrderbookState) (dateNow : Z) :
  Snapshot.regimeWeight (snd (computeMetrics c ob dateNow)) =
  snd (calculateRegimeWeight (set_lastMidPrice c (mid_price ob))).
Proof.
  unfold computeMetrics, mid_price. destruct (calculateRegimeWeight _) as [c2 w]. reflexivity.
Qed.

Lemma snapshot_absorptionScore (c : LegacyCalculator) (ob : OrderbookState) (dateNow : Z) :
  Snapshot.absorptionScore (snd (computeMetrics c ob dateNow)) =
  calculateAbsorptionScore (fst (computeMetrics c ob dateNow))
    (Snapshot.delta1s (snd (computeMetrics c ob dateNow))).
Proof.
  unfold computeMetrics, mid_price. destruct (calculateRegimeWeight _) as [c2 w]. reflexivity.
Qed.

Lemma sweepFade_within (c : LegacyCalculator) (spread midPrice : num) :
  nan_or_within (-1) 1 (calculateSweepFadeScore c spread midPrice) = true.
Proof.
  unfold calculateSweepFadeScore.
  destruct (length (trades c) <? 10)%nat; [reflexivity|].
  destruct (lt spread EPSILON); [reflexivity|].
  cbv zeta.
  match goal with |- context [lt ?total EPSILON] => destruct (lt total EPSILON) end;
    [reflexivity|].
  apply OrderFacts.clamp_within. reflexivity.
Qed.

Lemma breakout_within (c : LegacyCalculator) (delta1s : num) :
  nan_or_within (-1) 1 (calculateBreakoutScore c delta1s) = true.
Proof.
  unfold calculateBreakoutScore.
  destruct (length (trades c) <? 5)%nat; [reflexivity|].
  destruct (length (map price (slice_last BREAKOUT_WINDOW (trades c))) <? 2)%nat;
    [reflexivity|].
  destruct (lt (calculateATR c) EPSILON); [reflexivity|].
  apply OrderFacts.clamp_within. reflexivity.
Qed.

(** X1. In every snapshot, [sweepFadeScore] and [breakoutScore] are NaN or
    lie within [-1, 1], whatever the trades and the book. *)
Theorem X1_clamped_scores (c : LegacyCalculator) (ob : OrderbookState) (dateNow : Z) :
  let m := snd (computeMetrics c ob dateNow) in
  nan_or_within (-1) 1 (Snapshot.sweepFadeScore m) = true /\
  nan_or_within (-1) 1 (Snapshot.breakoutScore m) = true.
Proof.
  cbv zeta. rewrite snapshot_sweepFadeScore, snapshot_breakoutScore.
  split; [apply sweepFade_within|apply breakout_within].
Qed.

Lemma regimeWeight_within (c : LegacyCalculator) :
  nan_or_within 0 1 (snd (calculateRegimeWeight c)) = true.
Proof.
  unfold calculateRegimeWeight.
  destruct (length (trades c) <? 5)%nat; [reflexivity|].
  destruct (length (map price (slice_last 30 (trades c))) <? 2)%nat; [reflexivity|].
  match goal with |- context [(length ?r =? 0)%nat] => destruct (length r =? 0)%nat end;
    [reflexivity|].
  match goal with |- context [lt ?mv EPSILON] => destruct (lt mv EPSILON) eqn:Hmax end;
    [reflexivity|].
  cbn [snd]. apply SignFacts.min_one_within.
  rewrite div_spec. apply SignFacts.div_not_negative.
  - apply SignFacts.calculateStdDev_not_negative.
  - destruct SignFacts.EPSILON_positive as (m & e & He).
    eapply SignFacts.not_below_positive; eassumption.
Qed.

(** X2. In every snapshot, [regimeWeight] is NaN or lies within [0, 1]:
    NaN is the only value outside the documented range that a pass can
    return. *)
Theorem X2_regimeWeight_range (c : LegacyCalculator) (ob : OrderbookState) (dateNow : Z) :
  nan_or_within 0 1 (Snapshot.regimeWeight (snd (computeMetrics c ob dateNow))) = true.
Proof.
  rewrite snapshot_regimeWeight. apply regimeWeight_within.
Qed.

(** X3. In every snapshot, [absorptionScore] is NaN or at most 1. *)
Theorem X3_absorptionScore_at_most_one (c : LegacyCalculator) (ob : OrderbookState)
    (dateNow : Z) :
  nan_or_at_most 1 (Snapshot.absorptionScore (snd (computeMetrics c ob dateNow))) = true.
Proof.
  rewrite snapshot_absorptionScore.
  generalize (fst (computeMetrics c ob dateNow)) as c2.
  generalize (Snapshot.delta1s (snd (computeMetrics c ob dateNow))) as d.
  intros d c2. unfold calculateAbsorptionScore.
  destruct (length (trades c2) <? 5)%nat; [reflexivity|].
  destruct (length (slice_last ABSORPTION_WINDOW (trades c2)) <? 5)%nat; [reflexivity|].
  cbv zeta. unfold nan_or_at_most.
  match goal with |- isNaN (Math_min 1 ?s) || _ = true =>
    destruct (isNaN (Math_min 1 s)) eqn:Hnan; [reflexivity|];
    destruct (OrderFacts.Math_min_bounds _ _ Hnan) as (_ & Hone & _); exact Hone
  end.
Qed.

End ScoreFacts.

(** * Extensions: sessions of the calculator *)

Module SessionFacts.

Lemma snapshot_deltaZ_cold (c : LegacyCalculator) (ob : OrderbookState) (dateNow : Z) :
  (length (deltaHistory c) < 5)%nat ->
  Snapshot.deltaZ (snd (computeMetrics c ob dateNow)) = 0%float.
Proof.
  intros H. unfold computeMetrics. destruct (calculateRegimeWeight _) as [c2 w].
  cbn [snd Snapshot.deltaZ].
  destruct (Nat.leb_spec 5 (length (deltaHistory c))); [lia|reflexivity].
Qed.

Lemma sweepFade_cold (c : LegacyCalculator) (spread midPrice : num) :
  (length (trades c) < 10)%nat \/ lt spread EPSILON = true ->
  calculateSweepFadeScore c spread midPrice = 0%float.
Proof.
  unfold calculateSweepFadeScore. intros [H|H].
  - destruct (Nat.ltb_spec (length (trades c)) 10); [reflexivity|lia].
  - rewrite H. destruct (length (trades c) <? 10)%nat; reflexivity.
Qed.

Lemma breakout_cold (c : LegacyCalculator) (delta1s : num) :
  (length (trades c) < 5)%nat -> calculateBreakoutScore c delta1s = 0%float.
Proof.
  unfold calculateBreakoutScore. intros H.
  destruct (Nat.ltb_spec (length (trades c)) 5); [reflexivity|lia].
Qed.

Lemma regime_cold (c : LegacyCalculator) :
  (length (trades c) < 5)%nat -> calculateRegimeWeight c = (c, 0%float).
Proof.
  unfold calculateRegimeWeight. intros H.
  destruct (Nat.ltb_spec (length (trades c)) 5); [reflexivity|lia].
Qed.

Lemma absorption_cold (c : LegacyCalculator) (delta1s : num) :
  (length (trades c) < 5)%nat -> calculateAbsorptionScore c delta1s = 0%float.
Proof.
  unfold calculateAbsorptionScore. intros H.
  destruct (Nat.ltb_spec (length (trades c)) 5); [reflexivity|lia].
Qed.

(** X4. The cold start of the scores.  With fewer than 10 trades in the
    window, or a spread below 1e-12 (an empty or crossed book),
    [sweepFadeScore] is 0; with fewer than 5 trades in the window,
    [breakoutScore], [regimeWeight] and [absorptionScore] are 0; with fewer
    than 5 entries in [deltaHistory], [deltaZ] is 0. *)
Theorem X4_cold_start (c : LegacyCalculator) (ob : OrderbookState) (dateNow : Z) :
  let m := snd (computeMetrics c ob dateNow) in
  let spread := (or_zero (bestAsk ob) - or_zero (bestBid ob))%float in
  ((length (trades c) < 10)%nat \/ lt spread EPSILON = true ->
   Snapshot.sweepFadeScore m = 0%float) /\
  ((length (trades c) < 5)%nat ->
   Snapshot.breakoutScore m = 0%float /\
   Snapshot.regimeWeight m = 0%float /\
   Snapshot.absorptionScore m = 0%float) /\
  ((length (deltaHistory c) < 5)%nat -> Snapshot.deltaZ m = 0%float).
Proof.
  cbv zeta. split; [|split].
  - intros H. rewrite ScoreFacts.snapshot_sweepFadeScore. apply sweepFade_cold. exact H.
  - intros H.
    rewrite ScoreFacts.snapshot_breakoutScore, ScoreFacts.snapshot_regimeWeight,
      ScoreFacts.snapshot_absorptionScore.
    rewrite breakout_cold by exact H.
    rewrite regime_cold by exact H.
    rewrite absorption_cold; [repeat split; reflexivity|].
    rewrite computeMetrics_effect. exact H.
  - apply snapshot_deltaZ_cold.
Qed.

Lemma push_capped_length_exact {A} (cap : nat) (xs : list A) (x : A) :
  (length xs <= cap)%nat ->
  length (push_capped cap xs x) = Nat.min cap (S (length xs)).
Proof.
  intros H. unfold push_capped. rewrite length_app. simpl.
  destruct (Nat.ltb_spec cap (length xs + 1)) as [Hover|Hroom].
  - destruct xs as [|y ys]; simpl in *; [lia|]. rewrite length_app. simpl. lia.
  - rewrite length_app. simpl. lia.
Qed.

Lemma ingested_count (ops : list Op) (op : Op) :
  length (ingested (ops ++ [op])) =
  (length (ingested ops) + match op with Ingest _ => 1 | Pass _ _ => 0 end)%nat.
Proof. rewrite ingested_snoc, length_app. destruct op; reflexivity. Qed.

Lemma deltaHistory_length (ops : list Op) :
  length (deltaHistory (run ops)) = Nat.min 60 (length (ingested ops)).
Proof.
  induction ops as [|op ops IH] using rev_ind; [reflexivity|].
  rewrite run_snoc, ingested_count. destruct op as [trade|ob dateNow].
  - cbn [step addTrade deltaHistory].
    rewrite push_capped_length_exact by (rewrite IH; lia). rewrite IH. lia.
  - cbn [step]. rewrite computeMetrics_effect. cbn [deltaHistory]. rewrite IH. lia.
Qed.

Lemma window_length (ops : list Op) :
  (length (trades (run ops)) <= length (ingested ops))%nat.
Proof.
  destruct (window_is_suffix ops) as [gone H]. rewrite H, length_app. lia.
Qed.

Lemma at_most_two (a b : bool) : (3 <=? count_true [a; false; b; false; false])%nat = false.
Proof. destruct a, b; reflexivity. Qed.

(** X5. Warm-up.  Until five trades have been ingested, every snapshot has
    [tradeSignal = 0] (and [deltaZ = 0]), whatever the book and whatever
    passes came in between: only two of the five buy tests, and two of the
    five sell tests, can hold. *)
Theorem X5_no_signal_before_five_trades (ops : list Op) (ob : OrderbookState) (dateNow : Z)
    (Hfew : (length (ingested ops) < 5)%nat) :
  Snapshot.tradeSignal (snd (computeMetrics (run ops) ob dateNow)) = 0 /\
  Snapshot.deltaZ (snd (computeMetrics (run ops) ob dateNow)) = 0%float.
Proof.
  pose proof (window_length ops) as Hw.
  pose proof (deltaHistory_length ops) as Hd.
  assert (Hz : Snapshot.deltaZ (snd (computeMetrics (run ops) ob dateNow)) = 0%float)
    by (apply snapshot_deltaZ_cold; lia).
  split; [|exact Hz].
  rewrite computeMetrics_signal. unfold buys_of, sells_of.
  rewrite Hz, ScoreFacts.snapshot_sweepFadeScore, ScoreFacts.snapshot_breakoutScore.
  rewrite sweepFade_cold by (left; cbn [set_lastMidPrice trades]; lia).
  rewrite breakout_cold by (cbn [set_lastMidPrice trades]; lia).
  change (gt 0 0.8) with false. change (gt 0 0.3) with false. change (gt 0 0.2) with false.
  change (lt 0 (-0.8)) with false. change (lt 0 (-0.3)) with false.
  change (lt 0 (-0.2)) with false.
  rewrite !at_most_two. reflexivity.
Qed.

(** X5 at one trade followed by a pass. *)
Lemma X5_no_signal_before_five_trades_witness :
  (length (ingested one_buy) < 5)%nat /\
  Snapshot.tradeSignal (snd (computeMetrics (run one_buy) book_around_99 2)) = 0 /\
  Snapshot.deltaZ (snd (computeMetrics (run one_buy) book_around_99 2)) = 0%float.
Proof.
  assert (Hfew : (length (ingested one_buy) < 5)%nat) by (simpl; lia).
  split; [exact Hfew|].
  exact (X5_no_signal_before_five_trades one_buy book_around_99 2 Hfew).
Defined.

End SessionFacts.

Module BookFacts.

Lemma insert_level_perm (isAsk : bool) (x : num * num) (sorted : list (num * num)) :
  Permutation (insert_level isAsk x sorted) (x :: sorted).
Proof.
  induction sorted as [|y rest IH]; simpl; [apply Permutation_refl|].
  destruct (lt (compare_levels isAsk x y) 0); [apply Permutation_refl|].
  apply perm_trans with (y :: x :: rest); [apply perm_skip, IH|apply perm_swap].
Qed.

Lemma sort_from_perm (isAsk : bool) (entries sorted : list (num * num)) :
  Permutation (fold_left (fun s x => insert_level isAsk x s) entries sorted)
              (sorted ++ entries).
Proof.
  revert sorted. induction entries as [|x rest IH]; intros sorted; simpl.
  - rewrite app_nil_r. apply Permutation_refl.
  - apply perm_trans with (insert_level isAsk x sorted ++ rest); [apply IH|].
    apply perm_trans with ((x :: sorted) ++ rest).
    + apply Permutation_app_tail, insert_level_perm.
    + simpl. apply Permutation_middle.
Qed.

(** X6. The sort of the price levels loses and invents nothing: its result
    is a permutation of the entries of the book side. *)
Theorem X6_sort_levels_permutes (isAsk : bool) (entries : list (num * num)) :
  Permutation (sort_levels isAsk entries) entries.
Proof. unfold sort_levels. apply (sort_from_perm isAsk entries []). Qed.

Lemma sort_levels_length (isAsk : bool) (entries : list (num * num)) :
  length (sort_levels isAsk entries) = length entries.
Proof.
  unfold sort_levels. apply Permutation_length, (sort_from_perm isAsk entries []).
Qed.

Lemma calcVolume_shallow (levels : list (num * num)) (isAsk : bool) :
  (length levels <= 10)%nat -> calcVolume levels 50 isAsk = calcVolume levels 10 isAsk.
Proof.
  intros H. unfold calcVolume. rewrite sort_levels_length.
  rewrite !Nat.min_r by lia. reflexivity.
Qed.

Lemma snapshot_obi (c : LegacyCalculator) (ob : OrderbookState) (dateNow : Z) :
  let m := snd (computeMetrics c ob dateNow) in
  Snapshot.obiWeighted m = imbalance (calcVolume (bids ob) 10 false) (calcVolume (asks ob) 10 true) /\
  Snapshot.obiDeep m = imbalance (calcVolume (bids ob) 50 false) (calcVolume (asks ob) 50 true) /\
  Snapshot.obiDivergence m = (Snapshot.obiWeighted m - Snapshot.obiDeep m)%float /\
  Snapshot.price m = mid_price ob.
Proof.
  cbv zeta. unfold computeMetrics, mid_price.
  destruct (calculateRegimeWeight _) as [c2 w]. repeat split; reflexivity.
Qed.

(** X7. Order-book imbalance at the edges.  When each side of the book has
    at most 10 levels, the deep imbalance (50 levels) equals the weighted
    one (10 levels); when both sides are empty, the three imbalances and the
    price of the snapshot are 0. *)
Theorem X7_imbalance_of_small_books (c : LegacyCalculator) (ob : OrderbookState)
    (dateNow : Z) :
  let m := snd (computeMetrics c ob dateNow) in
  ((length (bids ob) <= 10)%nat -> (length (asks ob) <= 10)%nat ->
   Snapshot.obiDeep m = Snapshot.obiWeighted m) /\
  (bids ob = [] -> asks ob = [] ->
   Snapshot.obiWeighted m = 0%float /\ Snapshot.obiDeep m = 0%float /\
   Snapshot.obiDivergence m = 0%float /\ Snapshot.price m = 0%float).
Proof.
  cbv zeta. destruct (snapshot_obi c ob dateNow) as (Hw & Hd & Hv & Hp). split.
  - intros Hb Ha. rewrite Hw, Hd, !calcVolume_shallow by assumption. reflexivity.
  - intros Hb Ha. rewrite Hv, Hw, Hd, Hp, (mid_price_empty ob Hb Ha), Hb, Ha.
    repeat split; reflexivity.
Qed.

End BookFacts.

Module HistoryFacts.

Lemma push_capped_slice {A} (cap : nat) (xs : list A) (x : A) :
  (0 < cap)%nat ->
  push_capped cap (slice_last cap xs) x = slice_last cap (xs ++ [x]).
Proof.
  intros Hcap. unfold push_capped, slice_last.
  rewrite length_app, length_skipn, (length_app xs [x]). simpl.
  destruct (Nat.ltb_spec cap (length xs - (length xs - cap) + 1)) as [Hfull|Hroom].
  - assert (Hlen : (cap <= length xs)%nat) by lia.
    replace (length xs + 1 - cap)%nat with (S (length xs - cap)) by lia.
    rewrite skipn_app.
    replace (S (length xs - cap) - length xs)%nat with 0%nat by lia.
    simpl (skipn 0 [x]).
    assert (Hne : (length xs - cap < length xs)%nat) by lia.
    revert Hne. generalize (length xs - cap)%nat as k. clear.
    induction xs as [|y ys IH]; intros k Hk; simpl in *; [lia|].
    destruct k as [|k]; [reflexivity|].
    simpl. destruct ys as [|z zs]; [simpl in Hk; lia|].
    apply (IH k). simpl in *. lia.
  - replace (length xs - cap)%nat with 0%nat by lia.
    replace (length xs + 1 - cap)%nat with 0%nat by lia. reflexivity.
Qed.

Lemma running_cvd_snoc (start : num) (ts : list LegacyTrade) (t : LegacyTrade) :
  running_cvd start (ts ++ [t]) =
  running_cvd start ts
  ++ [(fold_left (fun acc u => acc + signed_quantity u) ts start + signed_quantity t)%float].
Proof.
  revert start. induction ts as [|u rest IH]; intros start; simpl; [reflexivity|].
  rewrite IH. reflexivity.
Qed.

Lemma cvdSession_fold (ops : list Op) :
  cvdSession (run ops) =
  fold_left (fun acc u => (acc + signed_quantity u)%float) (ingested ops) 0%float.
Proof.
  rewrite cvdSession_run. unfold sum. apply sum_from_map.
Qed.

(** X8. What the bounded histories hold after any session: [volumeHistory]
    is exactly the quantities of the last 100 trades ingested, oldest first;
    [cvdHistory] is the session CVD as it stood after each of the last 60
    trades; [deltaHistory] has one entry per trade, 60 at most. *)
Theorem X8_histories_keep_the_latest (ops : list Op) :
  volumeHistory (run ops) = slice_last 100 (map quantity (ingested ops)) /\
  cvdHistory (run ops) = slice_last 60 (running_cvd 0 (ingested ops)) /\
  length (deltaHistory (run ops)) = Nat.min 60 (length (ingested ops)).
Proof.
  split; [|split; [|apply SessionFacts.deltaHistory_length]].
  - induction ops as [|op ops IH] using rev_ind; [reflexivity|].
    rewrite run_snoc, ingested_snoc. destruct op as [trade|ob dateNow].
    + cbn [step addTrade volumeHistory]. rewrite IH, map_app.
      apply push_capped_slice. lia.
    + rewrite app_nil_r. cbn [step]. rewrite computeMetrics_effect. exact IH.
  - induction ops as [|op ops IH] using rev_ind; [reflexivity|].
    rewrite run_snoc, ingested_snoc. destruct op as [trade|ob dateNow].
    + cbn [step addTrade cvdHistory]. rewrite IH, running_cvd_snoc, cvdSession_fold.
      apply push_capped_slice. lia.
    + rewrite app_nil_r. cbn [step]. rewrite computeMetrics_effect. exact IH.
Qed.

End HistoryFacts.

Module WindowFacts.

Lemma nondecreasing_last (l : list Z) (x : Z) :
  nondecreasing (l ++ [x]) -> forall a, In a l -> a <= x.
Proof.
  induction l as [|b l IH]; simpl; [contradiction|].
  intros [Hb Hl] a [<-|Ha].
  - apply Hb, in_or_app. right. left. reflexivity.
  - apply IH; assumption.
Qed.

Lemma nondecreasing_init (l : list Z) (x : Z) :
  nondecreasing (l ++ [x]) -> nondecreasing l.
Proof.
  induction l as [|b l IH]; simpl; [trivial|].
  intros [Hb Hl]. split; [|apply IH, Hl].
  intros c Hc. apply Hb, in_or_app. left. exact Hc.
Qed.

Lemma evict_split (cutoff : Z) (ts : list LegacyTrade) :
  exists gone, ts = gone ++ evict cutoff ts /\
               forall t, In t gone -> timestamp t < cutoff.
Proof.
  induction ts as [|u rest (gone & Hsplit & Hold)]; simpl.
  - exists []. split; [reflexivity|]. intros t [].
  - destruct (Z.ltb_spec (timestamp u) cutoff) as [Hu|Hu].
    + exists (u :: gone). split; [simpl; f_equal; exact Hsplit|].
      intros t [<-|Ht]; [exact Hu|apply Hold, Ht].
    + exists []. split; [reflexivity|]. intros t [].
Qed.

(** What left the window is older than ten seconds before the latest
    trade. *)
Lemma gone_is_stale (ops : list Op) :
  nondecreasing (map timestamp (ingested ops)) ->
  exists gone, ingested ops = gone ++ trades (run ops) /\
    forall earlier latest, ingested ops = earlier ++ [latest] ->
    forall t, In t gone -> timestamp t < timestamp latest - 10000.
Proof.
  induction ops as [|op ops IH] using rev_ind.
  - intros _. exists []. split; [reflexivity|]. intros earlier latest H.
    destruct earlier; discriminate.
  - rewrite run_snoc, ingested_snoc. destruct op as [trade|ob dateNow].
    + intros Hsorted. rewrite map_app in Hsorted. simpl in Hsorted.
      destruct (IH (nondecreasing_init _ _ Hsorted)) as (gone & Hgone & Hstale).
      cbn [step addTrade trades].
      destruct (evict_split (timestamp trade - 10000) (trades (run ops) ++ [trade]))
        as (gone' & Hsplit & Hold).
      exists (gone ++ gone'). split.
      * rewrite Hgone, <- !app_assoc. f_equal. exact Hsplit.
      * intros earlier latest Heq t Ht.
        apply app_inj_tail in Heq. destruct Heq as [_ <-].
        apply in_app_or in Ht. destruct Ht as [Ht|Ht]; [|apply Hold, Ht].
        destruct (ingested ops) as [|t0 ts0] eqn:Eing.
        { destruct gone; [contradiction|discriminate]. }
        destruct (@exists_last _ (t0 :: ts0) ltac:(discriminate)) as (earlier' & latest' & Hl).
        specialize (Hstale earlier' latest' Hl t Ht).
        assert (timestamp latest' <= timestamp trade).
        { apply (nondecreasing_last _ _ Hsorted). rewrite Hl, map_app.
          apply in_or_app. right. left. reflexivity. }
        lia.
    + rewrite app_nil_r. cbn [step]. rewrite computeMetrics_effect. exact IH.
Qed.

Lemma filter_none {A} (f : A -> bool) (l : list A) :
  (forall x, In x l -> f x = false) -> filter f l = [].
Proof.
  induction l as [|x l IH]; simpl; intros H; [reflexivity|].
  rewrite (H x) by (left; reflexivity). apply IH. intros y Hy. apply H. right. exact Hy.
Qed.

Lemma filter_all {A} (f : A -> bool) (l : list A) :
  (forall x, In x l -> f x = true) -> filter f l = l.
Proof.
  induction l as [|x l IH]; simpl; intros H; [reflexivity|].
  rewrite (H x) by (left; reflexivity). f_equal. apply IH. intros y Hy. apply H. right. exact Hy.
Qed.

(** X9. With timestamps that are time values and never go back, the window
    that the ingests leave, run on numbers as in the source, is exactly the
    trades ingested within the last 10,000 ms before the latest one, in the
    order of arrival: none of them is missing, and [tradeCount] is their
    number. *)
Theorem X9_window_is_the_last_ten_seconds (ops : list Op) (earlier : list LegacyTrade)
    (latest : LegacyTrade) (ob : OrderbookState) (dateNow : Z)
    (Htimes : time_values (map timestamp (ingested ops)))
    (Hsorted : nondecreasing (map timestamp (ingested ops)))
    (Hlatest : ingested ops = earlier ++ [latest]) :
  trades (run_numbers ops) = filter (recent latest) (ingested ops) /\
  Snapshot.tradeCount (snd (computeMetrics (run_numbers ops) ob dateNow)) =
  length (filter (recent latest) (ingested ops)).
Proof.
  rewrite (StampFacts.run_on_time_values ops Htimes).
  assert (Hwin : trades (run ops) = filter (recent latest) (ingested ops)).
  { destruct (gone_is_stale ops Hsorted) as (gone & Hgone & Hstale).
    rewrite Hgone, filter_app.
    rewrite filter_none, filter_all; [reflexivity| |].
    - intros t Ht. unfold recent. apply Z.leb_le.
      apply (window_fresh ops Hsorted earlier latest Hlatest t Ht).
    - intros t Ht. unfold recent. apply Z.leb_gt.
      apply (Hstale earlier latest Hlatest t Ht). }
  split; [exact Hwin|]. rewrite <- Hwin.
  unfold computeMetrics. destruct (calculateRegimeWeight _) as [c2 w] eqn:E.
  cbn [snd Snapshot.tradeCount].
  pose proof (calculateRegimeWeight_state
                (set_lastMidPrice (run ops) (mid_price ob))) as Hst.
  unfold mid_price in Hst. rewrite E in Hst. cbn [fst] in Hst. rewrite Hst.
  destruct (length (trades _) <? 5)%nat; reflexivity.
Qed.

(** X9 at six buys, the last one at fifteen seconds: the window holds the
    three trades from five seconds on. *)
Lemma X9_window_is_the_last_ten_seconds_witness :
  trades (run_numbers six_buys) =
  [mkTrade 100 1 buy 6000; mkTrade 100 1 buy 8000; mkTrade 100 1 buy 15000] /\
  Snapshot.tradeCount
    (snd (computeMetrics (run_numbers six_buys) book_around_100 16000)) = 3%nat.
Proof.
  assert (Htimes : time_values (map timestamp (ingested six_buys))).
  { simpl. repeat constructor; unfold MAX_TIME; lia. }
  assert (Hsorted : nondecreasing (map timestamp (ingested six_buys))).
  { simpl. repeat split; intros b Hb; simpl in Hb;
      repeat (destruct Hb as [<-|Hb]; [lia|]); destruct Hb. }
  exact (X9_window_is_the_last_ten_seconds six_buys
           [mkTrade 100 1 buy 0; mkTrade 100 1 buy 2000; mkTrade 100 1 buy 4000;
            mkTrade 100 1 buy 6000; mkTrade 100 1 buy 8000]
           (mkTrade 100 1 buy 15000) book_around_100 16000 Htimes Hsorted eq_refl).
Defined.

Lemma last_of_window (c : LegacyCalculator) (trade : LegacyTrade) :
  exists kept, trades (addTrade c trade) = kept ++ [trade].
Proof. cbn [addTrade trades]. apply evict_keeps_newest. lia. Qed.

(** X10. Right after a trade is ingested, the [delta1s] of a snapshot is the
    value that the ingest has just pushed to [deltaHistory]: the pass adds
    up the same trades of the window as the ingest did, whatever the book
    and the time of the pass. *)
Theorem X10_delta1s_is_newest_history_entry (c : LegacyCalculator) (trade : LegacyTrade)
    (ob : OrderbookState) (dateNow : Z) :
  let c' := addTrade c trade in
  Snapshot.delta1s (snd (computeMetrics c' ob dateNow)) = last (deltaHistory c') 0%float.
Proof.
  cbv zeta. rewrite ScoreFacts.snapshot_delta1s.
  destruct (last_of_window c trade) as [kept Hkept].
  assert (Hd : window_delta
    (match trades (addTrade c trade) with
     | [] => dateNow
     | _ => timestamp (last (trades (addTrade c trade)) (mkTrade 0 0 buy 0))
     end - 1000) (trades (addTrade c trade)) =
    window_delta (timestamp trade - 1000) (trades (addTrade c trade))).
  { rewrite Hkept, last_last. destruct kept; reflexivity. }
  rewrite Hd.
  cbn [addTrade deltaHistory trades]. rewrite push_capped_last by lia. reflexivity.
Qed.

Lemma snapshot_accumulators (c : LegacyCalculator) (ob : OrderbookState) (dateNow : Z) :
  let m := snd (computeMetrics c ob dateNow) in
  Snapshot.cvdSession m = cvdSession c /\
  Snapshot.totalVolume m = totalVolume c /\
  Snapshot.totalNotional m = totalNotional c.
Proof.
  cbv zeta.
  pose proof (calculateRegimeWeight_state (set_lastMidPrice c (mid_price ob))) as Hst.
  unfold computeMetrics. unfold mid_price in Hst.
  destruct (calculateRegimeWeight _) as [c2 w].
  cbn [fst snd Snapshot.cvdSession Snapshot.totalVolume Snapshot.totalNotional] in *.
  rewrite Hst. destruct (length (trades _) <? 5)%nat; repeat split; reflexivity.
Qed.

(** X11. The session figures of a snapshot cover every trade ever ingested:
    [cvdSession] is the sum of the quantities, buys counted positive and
    sells negative, [totalVolume] the sum of the quantities and
    [totalNotional] the sum of price times quantity, each added up in the
    order of arrival; eviction from the window and passes in between do not
    touch them. *)
Theorem X11_session_figures (ops : list Op) (ob : OrderbookState) (dateNow : Z) :
  let m := snd (computeMetrics (run ops) ob dateNow) in
  Snapshot.cvdSession m = sum (map signed_quantity (ingested ops)) /\
  Snapshot.totalVolume m = sum (map quantity (ingested ops)) /\
  Snapshot.totalNotional m = sum (map (fun t => price t * quantity t)%float (ingested ops)).
Proof.
  cbv zeta. destruct (snapshot_accumulators (run ops) ob dateNow) as (Hc & Hv & Hn).
  rewrite Hc, Hv, Hn, cvdSession_run, totalVolume_run, totalNotional_run.
  repeat split; reflexivity.
Qed.

End WindowFacts.

Module PassFacts.

(** Two calculators that differ at most in [volatilityHistory] and
    [lastMidPrice]. *)
Lemma same_reading (c c' : LegacyCalculator) (ob : OrderbookState) (dateNow : Z) :
  trades c' = trades c -> deltaHistory c' = deltaHistory c ->
  cvdHistory c' = cvdHistory c -> volumeHistory c' = volumeHistory c ->
  cvdSession c' = cvdSession c -> totalVolume c' = totalVolume c ->
  totalNotional c' = totalNotional c ->
  let m := snd (computeMetrics c ob dateNow) in
  let m' := snd (computeMetrics c' ob dateNow) in
  Snapshot.price m' = Snapshot.price m /\
  Snapshot.obiWeighted m' = Snapshot.obiWeighted m /\
  Snapshot.obiDeep m' = Snapshot.obiDeep m /\
  Snapshot.obiDivergence m' = Snapshot.obiDivergence m /\
  Snapshot.delta1s m' = Snapshot.delta1s m /\
  Snapshot.delta5s m' = Snapshot.delta5s m /\
  Snapshot.deltaZ m' = Snapshot.deltaZ m /\
  Snapshot.cvdSession m' = Snapshot.cvdSession m /\
  Snapshot.cvdSlope m' = Snapshot.cvdSlope m /\
  Snapshot.vwap m' = Snapshot.vwap m /\
  Snapshot.totalVolume m' = Snapshot.totalVolume m /\
  Snapshot.totalNotional m' = Snapshot.totalNotional m /\
  Snapshot.absorptionScore m' = Snapshot.absorptionScore m /\
  Snapshot.sweepFadeScore m' = Snapshot.sweepFadeScore m /\
  Snapshot.breakoutScore m' = Snapshot.breakoutScore m /\
  Snapshot.tradeCount m' = Snapshot.tradeCount m.
Proof.
  destruct c as [tr dh ch cs tv tn vh vol lmp], c' as [tr' dh' ch' cs' tv' tn' vh' vol' lmp'].
  cbn [trades deltaHistory cvdHistory volumeHistory cvdSession totalVolume totalNotional].
  intros -> -> -> -> -> -> ->. cbv zeta.
  pose proof (calculateRegimeWeight_state
    (set_lastMidPrice (mkCalc tr dh ch cs tv tn vh vol lmp) (mid_price ob))) as H1.
  pose proof (calculateRegimeWeight_state
    (set_lastMidPrice (mkCalc tr dh ch cs tv tn vh' vol lmp') (mid_price ob))) as H2.
  unfold computeMetrics. unfold mid_price in H1, H2.
  destruct (calculateRegimeWeight (set_lastMidPrice (mkCalc tr dh ch cs tv tn vh vol lmp) _))
    as [c2 w].
  destruct (calculateRegimeWeight (set_lastMidPrice (mkCalc tr dh ch cs tv tn vh' vol lmp') _))
    as [c2' w'].
  cbn [fst] in H1, H2. subst c2 c2'.
  cbn [set_lastMidPrice trades].
  destruct (length tr <? 5)%nat; cbn [snd]; repeat split; reflexivity.
Qed.

(** X12. A pass does not disturb the next one, three fields apart.  The
    snapshot of a pass taken right after another pass (on any book, at any
    time) has the same price, imbalances, deltas, [deltaZ], CVD figures,
    [vwap], totals, [tradeCount], [sweepFadeScore], [breakoutScore] and
    [absorptionScore] as if the earlier pass had not been taken; only
    [regimeWeight], [exhaustion] and [tradeSignal] can differ. *)
Theorem X12_passes_do_not_interfere (c : LegacyCalculator) (earlier ob : OrderbookState)
    (before dateNow : Z) :
  let m := snd (computeMetrics c ob dateNow) in
  let m' := snd (computeMetrics (fst (computeMetrics c earlier before)) ob dateNow) in
  Snapshot.price m' = Snapshot.price m /\
  Snapshot.obiWeighted m' = Snapshot.obiWeighted m /\
  Snapshot.obiDeep m' = Snapshot.obiDeep m /\
  Snapshot.obiDivergence m' = Snapshot.obiDivergence m /\
  Snapshot.delta1s m' = Snapshot.delta1s m /\
  Snapshot.delta5s m' = Snapshot.delta5s m /\
  Snapshot.deltaZ m' = Snapshot.deltaZ m /\
  Snapshot.cvdSession m' = Snapshot.cvdSession m /\
  Snapshot.cvdSlope m' = Snapshot.cvdSlope m /\
  Snapshot.vwap m' = Snapshot.vwap m /\
  Snapshot.totalVolume m' = Snapshot.totalVolume m /\
  Snapshot.totalNotional m' = Snapshot.totalNotional m /\
  Snapshot.absorptionScore m' = Snapshot.absorptionScore m /\
  Snapshot.sweepFadeScore m' = Snapshot.sweepFadeScore m /\
  Snapshot.breakoutScore m' = Snapshot.breakoutScore m /\
  Snapshot.tradeCount m' = Snapshot.tradeCount m.
Proof.
  apply same_reading; rewrite computeMetrics_effect; reflexivity.
Qed.

End PassFacts.

(** * Extensions: the monitor, the instance and the presentation layer *)

Module MonitorFacts.
Import OI.

Lemma push_capped_snoc {A} (cap : nat) (xs : list A) (x : A) :
  (0 < cap)%nat -> exists front, push_capped cap xs x = front ++ [x].
Proof.
  intros Hcap. unfold push_capped.
  destruct (Nat.ltb_spec cap (length (xs ++ [x]))) as [Hover|_].
  - destruct xs as [|y ys]; [rewrite length_app in Hover; simpl in Hover; lia|].
    exists ys. reflexivity.
  - exists xs. reflexivity.
Qed.

Lemma push_capped_Forall {A} (P : A -> Prop) (cap : nat) (xs : list A) (x : A) :
  Forall P xs -> P x -> Forall P (push_capped cap xs x).
Proof.
  intros Hxs Hx. unfold push_capped.
  assert (Hall : Forall P (xs ++ [x])) by (apply Forall_app; split; [assumption|auto]).
  destruct (cap <? length (xs ++ [x]))%nat; [|exact Hall].
  destruct (xs ++ [x]); [exact Hall|]. inversion Hall; assumption.
Qed.

Lemma coherent_after_fetch (m : OpenInterestMonitor) (now : Z) (r : FetchResult) :
  coherent m -> coherent (fst (after_fetch now r m)).
Proof.
  intros Hm. destruct r as [|status| |newVal]; cbn [after_fetch fst]; try exact Hm.
  destruct (isNaN newVal) eqn:Enan; cbn [negb]; [exact Hm|].
  destruct Hm as (Hcur & Hprev & Hall & Hlen & Hempty & Hlast).
  unfold coherent. cbn [set_lastFetchTime store currentOI previousOI oiHistory].
  split; [exact Enan|]. split; [destruct (gt (currentOI m) 0); assumption|].
  split; [apply push_capped_Forall; [exact Hall|exact Enan]|].
  split; [apply push_capped_length, Hlen|]. split.
  - intros Hnil. destruct (push_capped_snoc 60 (oiHistory m) (newVal, now)) as [front Hf];
      [lia|]. rewrite Hf in Hnil. destruct front; discriminate.
  - intros older value time Heq.
    destruct (push_capped_snoc 60 (oiHistory m) (newVal, now)) as [front Hf]; [lia|].
    rewrite Hf in Heq. apply app_inj_tail in Heq. destruct Heq as [_ Heq].
    congruence.
Qed.

Lemma coherent_reachable (ok : num -> bool) (m : OpenInterestMonitor) :
  reachable ok m -> coherent m.
Proof.
  induction 1 as [symbol|m now r Hreach IH Hr].
  - unfold coherent. cbn. repeat split; try reflexivity; try constructor.
    + lia.
    + intros older value time H. destruct older; discriminate.
  - unfold refresh, updateOpenInterest.
    destruct ((now - lastFetchTime m <? FETCH_INTERVAL_MS) && gt (currentOI m) 0);
      cbn [fst]; [exact IH|]. apply coherent_after_fetch, IH.
Qed.

(** X13. The monitor keeps NaN out, whatever the fetches return.  After any
    sequence of [refresh] calls, [currentOI], [previousOI] and every value
    in the history are not NaN; the history has at most 60 entries; while
    it is empty both values are still 0; and otherwise [currentOI] is the
    value of its newest entry. *)
Theorem X13_monitor_is_coherent (m : OpenInterestMonitor)
    (Hreach : reachable any_value m) :
  isNaN (currentOI m) = false /\
  isNaN (previousOI m) = false /\
  Forall (fun entry => isNaN (fst entry) = false) (oiHistory m) /\
  (length (oiHistory m) <= 60)%nat /\
  (oiHistory m = [] -> currentOI m = 0%float /\ previousOI m = 0%float) /\
  (forall older value time,
     oiHistory m = older ++ [(value, time)] -> currentOI m = value).
Proof. exact (coherent_reachable any_value m Hreach). Qed.

(** X13 at the monitor that fetched 1, +Infinity and 1. *)
Lemma X13_monitor_is_coherent_witness :
  isNaN (currentOI through_infinity) = false /\
  isNaN (previousOI through_infinity) = false /\
  Forall (fun entry => isNaN (fst entry) = false) (oiHistory through_infinity) /\
  (length (oiHistory through_infinity) <= 60)%nat /\
  (oiHistory through_infinity = [] ->
   currentOI through_infinity = 0%float /\ previousOI through_infinity = 0%float) /\
  (forall older value time,
     oiHistory through_infinity = older ++ [(value, time)] ->
     currentOI through_infinity = value).
Proof.
  apply (X13_monitor_is_coherent through_infinity).
  unfold through_infinity. repeat (apply reach_refresh; [|reflexivity]).
  apply reach_create.
Defined.

Lemma max_with_one_positive (a : num) : positive_or_nan (Prim2SF (Math_max a 1)).
Proof.
  destruct (isNaN (Math_max a 1)) eqn:Hnan.
  - apply FloatFacts.is_nan_spec in Hnan. rewrite Hnan. exact I.
  - destruct (OrderFacts.Math_max_bounds _ _ Hnan) as (_ & _ & Hone).
    eapply SignFacts.at_least_positive; [|exact Hone]. vm_compute. reflexivity.
Qed.

Lemma volatility_within (m : OpenInterestMonitor) :
  nan_or_within 0 1 (calculateOIVolatility m) = true.
Proof.
  unfold calculateOIVolatility.
  destruct (length (oiHistory m) <? 2)%nat; [reflexivity|]. cbv zeta.
  apply SignFacts.min_one_within.
  rewrite mul_spec. apply SignFacts.mul_not_negative; [|vm_compute; exact I].
  rewrite div_spec. apply SignFacts.div_not_negative; [apply SignFacts.sqrt_not_negative|].
  unfold Math_max_all. rewrite fold_left_app. cbn [fold_left].
  apply max_with_one_positive.
Qed.

(** X14. In every open-interest snapshot, of any monitor, [strength] is NaN
    or within [-1, 1] and [volatility] is NaN or within [0, 1]. *)
Theorem X14_snapshot_ranges (m : OpenInterestMonitor) (dateNow : Z) :
  nan_or_within (-1) 1 (strength (getMetrics m dateNow)) = true /\
  nan_or_within 0 1 (volatility (getMetrics m dateNow)) = true.
Proof.
  unfold getMetrics. cbn [strength volatility]. split.
  - apply OrderFacts.clamp_within. reflexivity.
  - apply volatility_within.
Qed.

Lemma non_negative_reachable (m : OpenInterestMonitor) :
  reachable non_negative m -> le 0 (currentOI m) = true.
Proof.
  induction 1 as [symbol|m now r Hreach IH Hr]; [reflexivity|].
  unfold refresh, updateOpenInterest.
  destruct ((now - lastFetchTime m <? FETCH_INTERVAL_MS) && gt (currentOI m) 0);
    cbn [fst]; [exact IH|].
  destruct r as [|status| |newVal]; cbn [after_fetch fst]; try exact IH.
  cbn [delivers] in Hr. destruct (isNaN newVal); cbn [negb orb] in *; [exact IH|exact Hr].
Qed.

(** Beyond the threshold of a holding that is not negative, the change has
    a direction. *)
Lemma moved_has_direction (current change : num) :
  le 0 current = true ->
  gt (Math_abs change) (current * 0.0005) = true ->
  gt change 0 = false -> lt change 0 = true.
Proof.
  unfold le, gt, lt, Math_abs.
  rewrite FloatFacts.le0_class, FloatFacts.gt0_class, FloatFacts.lt0_class.
  rewrite ltb_spec, abs_spec, mul_spec.
  change (Prim2SF 0.0005) with Binary64.half_per_mille.
  intros Hcur.
  assert (Hthr : not_negative (SF64mul (Prim2SF current) Binary64.half_per_mille)).
  { apply SignFacts.mul_not_negative; [|exact I].
    destruct (Prim2SF current) as [[|]|[|]| |[|] m e]; try discriminate; exact I. }
  destruct (SF64mul (Prim2SF current) Binary64.half_per_mille) as [[|]|[|]| |[|] mt et];
    try contradiction;
    destruct (Prim2SF change) as [[|]|[|]| |[|] mc ec]; simpl;
    intros H1 H2; try discriminate; reflexivity.
Qed.

(** X15. Trend and change agree, and so does the wording of the
    interpretation box.  For every monitor reached through [refresh] calls
    whose fetched values are not negative (+Infinity included), the
    snapshot has [delta > 0] when the trend is [up] and [delta < 0] when it
    is [down]; so [OpenInterestSection] says "Increasing" exactly for [up],
    "Decreasing" exactly for [down] and "Stable" exactly for [flat]. *)
Theorem X15_trend_and_wording (m : OpenInterestMonitor) (dateNow : Z)
    (Hreach : reachable non_negative m) :
  let s := getMetrics m dateNow in
  (trend s = up -> gt (delta s) 0 = true) /\
  (trend s = down -> lt (delta s) 0 = true) /\
  (UI.interpretation s = UI.Increasing <-> trend s = up) /\
  (UI.interpretation s = UI.Decreasing <-> trend s = down) /\
  (UI.interpretation s = UI.Stable <-> trend s = flat).
Proof.
  cbv zeta. pose proof (non_negative_reachable m Hreach) as Hcur.
  unfold UI.interpretation, getMetrics. cbn [trend delta].
  destruct (gt (Math_abs (currentOI m - previousOI m)) (currentOI m * 0.0005)) eqn:Emoved.
  - destruct (gt (currentOI m - previousOI m) 0) eqn:Edir.
    + cbn. repeat split; intros; try discriminate; reflexivity.
    + rewrite (moved_has_direction _ _ Hcur Emoved Edir).
      cbn. repeat split; intros; try discriminate; reflexivity.
  - cbn. repeat split; intros; try discriminate; reflexivity.
Qed.

(** X15 at the monitor that fetched 1, +Infinity and 1: the trend is
    [down], the change is below 0 and the wording is "Decreasing". *)
Lemma X15_trend_and_wording_witness :
  trend (getMetrics through_infinity 400000) = down /\
  lt (delta (getMetrics through_infinity 400000)) 0 = true /\
  UI.interpretation (getMetrics through_infinity 400000) = UI.Decreasing.
Proof.
  assert (Hreach : reachable non_negative through_infinity).
  { unfold through_infinity. repeat (apply reach_refresh; [|reflexivity]).
    apply reach_create. }
  destruct (X15_trend_and_wording through_infinity 400000 Hreach)
    as (_ & Hdown & _ & Hword & _).
  split; [reflexivity|]. split; [apply Hdown; reflexivity|apply Hword; reflexivity].
Defined.

End MonitorFacts.

Module FirstFetchFacts.
Import OI.

Lemma sub_diag (v : num) : finite_non_negative v = true -> (v - v)%float = 0%float.
Proof.
  intros Hv. apply OIFacts.finite_non_negative_class in Hv.
  apply Prim2SF_inj. rewrite sub_spec. change (Prim2SF 0) with (S754_zero false).
  destruct (Prim2SF v) as [[|]|[|]| |[|] m e]; try contradiction; try reflexivity.
  unfold SF64sub, SFsub. cbn [cond_Zopp]. rewrite Z.sub_diag. reflexivity.
Qed.

Lemma zero_percent (v : num) : gt v 0 = true -> (0 / v * 100)%float = 0%float.
Proof.
  unfold gt. rewrite FloatFacts.gt0_class. intros Hv.
  apply Prim2SF_inj. rewrite mul_spec, div_spec.
  change (Prim2SF 0) with (S754_zero false). change (Prim2SF 100) with Binary64.hundred.
  destruct (Prim2SF v) as [[|]|[|]| |[|] m e]; try discriminate; reflexivity.
Qed.

(** X16. The first value gives a flat snapshot.  When [refresh] stores a
    finite value that is not negative on a monitor whose [currentOI] is not
    above 0 (a new one, or one that last fetched 0), the call fetches,
    [previousOI] and [currentOI] both become that value, and the snapshot
    has [delta = 0], [deltaPercent = 0], trend [flat], signal [neutral] and
    [strength = 0]. *)
Theorem X16_first_value_is_flat (m : OpenInterestMonitor) (now dateNow : Z) (newVal : num)
    (Hnone : gt (currentOI m) 0 = false)
    (Hval : finite_non_negative newVal = true) :
  let called := refresh m now (Body newVal) in
  let s := getMetrics (fst (fst called)) dateNow in
  snd called = true /\
  currentOI (fst (fst called)) = newVal /\
  previousOI (fst (fst called)) = newVal /\
  lastFetchTime (fst (fst called)) = now /\
  delta s = 0%float /\ deltaPercent s = 0%float /\
  trend s = flat /\ signal s = neutral /\ strength s = 0%float.
Proof.
  cbv zeta. unfold refresh, updateOpenInterest. rewrite Hnone, andb_false_r.
  cbn [fst snd after_fetch].
  assert (Hnan : isNaN newVal = false).
  { unfold finite_non_negative, is_finite in Hval. apply andb_prop in Hval.
    destruct Hval as [Hfin _]. unfold isNaN. destruct (is_nan newVal); [discriminate|reflexivity]. }
  rewrite Hnan. cbn [negb]. unfold store. rewrite Hnone.
  unfold getMetrics.
  cbn [set_lastFetchTime currentOI previousOI lastFetchTime delta deltaPercent trend
       signal strength].
  rewrite (sub_diag newVal Hval), <- (sub_diag newVal Hval) at 1.
  rewrite (OIFacts.no_change_is_flat newVal Hval), (sub_diag newVal Hval).
  destruct (gt newVal 0) eqn:Hpos; rewrite ?(zero_percent newVal Hpos);
    repeat split; reflexivity.
Qed.

(** X16 at a new monitor that fetches 5 at time 1000. *)
Lemma X16_first_value_is_flat_witness :
  let called := refresh (create "BTCUSDT"%string) 1000 (Body 5) in
  let s := getMetrics (fst (fst called)) 2000 in
  snd called = true /\
  currentOI (fst (fst called)) = 5%float /\
  previousOI (fst (fst called)) = 5%float /\
  lastFetchTime (fst (fst called)) = 1000 /\
  delta s = 0%float /\ deltaPercent s = 0%float /\
  trend s = flat /\ signal s = neutral /\ strength s = 0%float.
Proof.
  apply (X16_first_value_is_flat (create "BTCUSDT"%string) 1000 2000 5); reflexivity.
Defined.

End FirstFetchFacts.

Module InstanceFacts.
Import Instance.

Lemma call_keeps_monitor_presence (k : t) (c : Call) :
  (oiMonitor (call k c) = None <-> oiMonitor k = None).
Proof.
  destruct c as [trade|ob dateNow|now r]; cbn [call oiMonitor]; try tauto.
  unfold updateOpenInterest. destruct (oiMonitor k) as [m|] eqn:E.
  - destruct (OI.refresh m now r) as [[m' log] fetched]. cbn. split; discriminate.
  - cbn. rewrite E. tauto.
Qed.

Lemma life_snoc (symbol : option String.string) (calls : list Call) (c : Call) :
  life symbol (calls ++ [c]) = call (life symbol calls) c.
Proof. unfold life. rewrite fold_left_app. reflexivity. Qed.

Lemma session_of_snoc (calls : list Call) (c : Call) :
  session_of (calls ++ [c]) =
  session_of calls ++ match c with
                      | AddTrade trade => [Ingest trade]
                      | ComputeMetrics ob dateNow => [Pass ob dateNow]
                      | UpdateOpenInterest _ _ => []
                      end.
Proof.
  induction calls as [|[trade|ob dateNow|now r] calls IH]; simpl.
  - destruct c; reflexivity.
  - rewrite IH. reflexivity.
  - rewrite IH. reflexivity.
  - exact IH.
Qed.

(** X17. The instance and its monitor.  Whatever is called on a
    calculator, [getOpenInterestMetrics] returns [null] exactly when it was
    built without a symbol or with the empty string; on such a calculator
    [updateOpenInterest] never fetches; and the metrics side is the one of
    the session made of its [addTrade] and [computeMetrics] calls alone:
    open-interest updates do not touch it. *)
Theorem X17_instance_and_monitor (symbol : option String.string) (calls : list Call)
    (now dateNow : Z) (r : OI.FetchResult) :
  (getOpenInterestMetrics (life symbol calls) dateNow = None <-> truthy symbol = false) /\
  (truthy symbol = false ->
   updateOpenInterest (life symbol calls) now r = (life symbol calls, false)) /\
  metrics (life symbol calls) = run (session_of calls).
Proof.
  assert (Hmon : oiMonitor (life symbol calls) = None <-> truthy symbol = false).
  { induction calls as [|c calls IH] using rev_ind.
    - unfold life. cbn [fold_left constructor oiMonitor].
      destruct symbol as [[|a s]|]; cbn; split; intros; try discriminate; reflexivity.
    - rewrite life_snoc, call_keeps_monitor_presence. exact IH. }
  split; [|split].
  - unfold getOpenInterestMetrics. rewrite <- Hmon.
    destruct (oiMonitor (life symbol calls)); split; intros; try discriminate; reflexivity.
  - intros Hfalsy. apply Hmon in Hfalsy. unfold updateOpenInterest. rewrite Hfalsy.
    reflexivity.
  - clear Hmon. induction calls as [|c calls IH] using rev_ind; [reflexivity|].
    rewrite life_snoc, session_of_snoc.
    destruct c as [trade|ob dateNow'|now' r']; cbn [call metrics].
    + rewrite run_snoc, IH. reflexivity.
    + rewrite run_snoc, IH. reflexivity.
    + rewrite app_nil_r. unfold updateOpenInterest.
      destruct (oiMonitor (life symbol calls)) as [m|]; [|exact IH].
      destruct (OI.refresh m now' r') as [[m' log] fetched]. cbn. exact IH.
Qed.

End InstanceFacts.

Module UIFacts.
Import UI.

Lemma clamp_within_outer_min (low high x : num) :
  le low high = true ->
  nan_or_within low high (Math_min high (Math_max low x)) = true.
Proof.
  intros Hbounds. unfold nan_or_within, in_range.
  destruct (isNaN (Math_min high (Math_max low x))) eqn:Hnan; [reflexivity|].
  destruct (OrderFacts.Math_min_bounds _ _ Hnan) as ([Heq|Heq] & Hhigh & Hinner).
  - rewrite Heq in *. apply andb_true_intro. split; [exact Hbounds|].
    apply OrderFacts.leb_refl. exact Hnan.
  - apply andb_true_intro. split; [|exact Hhigh]. rewrite Heq in *.
    destruct (OrderFacts.Math_max_bounds _ _ Hnan) as (_ & Hlow & _). exact Hlow.
Qed.

(** X18. The width of the bar of a [MetricCard] is NaN or within [0, 100],
    for any value and any range, an empty or reversed one included. *)
Theorem X18_bar_width (value min max : num) :
  nan_or_within 0 100 (percentage value min max) = true.
Proof. unfold percentage. apply clamp_within_outer_min. reflexivity. Qed.

Lemma includes_In (selectedPairs : list String.string) (pair : String.string) :
  includes selectedPairs pair = true <-> In pair selectedPairs.
Proof.
  unfold includes. rewrite existsb_exists. split.
  - intros (p & Hp & Heq). apply String.eqb_eq in Heq. subst. exact Hp.
  - intros H. exists pair. split; [exact H|apply String.eqb_refl].
Qed.

Lemma In_without (selectedPairs : list String.string) (pair q : String.string) :
  In q (filter (fun p => negb (String.eqb p pair)) selectedPairs) <->
  In q selectedPairs /\ q <> pair.
Proof.
  rewrite filter_In. split; intros [Hin H]; (split; [exact Hin|]).
  - intros ->. rewrite String.eqb_refl in H. discriminate.
  - destruct (String.eqb_spec q pair); [contradiction|reflexivity].
Qed.

(** X19. Toggling a pair in the dashboard.  [togglePair] flips the
    membership of that pair and of no other; it keeps a list free of
    duplicates free of duplicates; and toggling twice a pair that was not
    selected gives back the list as it was. *)
Theorem X19_togglePair (selectedPairs : list String.string) (pair : String.string) :
  (In pair (togglePair selectedPairs pair) <-> ~ In pair selectedPairs) /\
  (forall other, other <> pair ->
     (In other (togglePair selectedPairs pair) <-> In other selectedPairs)) /\
  (NoDup selectedPairs -> NoDup (togglePair selectedPairs pair)) /\
  (~ In pair selectedPairs ->
   togglePair (togglePair selectedPairs pair) pair = selectedPairs).
Proof.
  unfold togglePair at 1 2 3.
  destruct (includes selectedPairs pair) eqn:Einc.
  - assert (Hin : In pair selectedPairs) by (apply includes_In, Einc).
    split; [|split; [|split]].
    + rewrite In_without. tauto.
    + intros other Hne. rewrite In_without. tauto.
    + intros Hnd. apply NoDup_filter, Hnd.
    + intros Hnot. contradiction.
  - assert (Hnot : ~ In pair selectedPairs).
    { intros H. apply includes_In in H. congruence. }
    split; [|split; [|split]].
    + rewrite in_app_iff. simpl. tauto.
    + intros other Hne. rewrite in_app_iff. simpl. split; [|tauto].
      intros [H|[H|[]]]; [exact H|congruence].
    + intros Hnd. apply NoDup_app; [exact Hnd|repeat constructor; intros []|].
      intros x Hx [<-|[]]. contradiction.
    + intros _. unfold togglePair. rewrite Einc.
      assert (Hnow : includes (selectedPairs ++ [pair]) pair = true).
      { apply includes_In, in_or_app. right. left. reflexivity. }
      rewrite Hnow, filter_app. simpl. rewrite String.eqb_refl. simpl.
      rewrite app_nil_r. apply WindowFacts.filter_all.
      intros x Hx. destruct (String.eqb_spec x pair); [subst; contradiction|reflexivity].
Qed.

End UIFacts.

Module DispersionFacts.

Lemma nan_or_at_least_zero (x : num) :
  not_negative (Prim2SF x) -> nan_or_at_least 0 x = true.
Proof.
  unfold nan_or_at_least, isNaN, le. rewrite FloatFacts.is_nan_class, FloatFacts.le0_class.
  destruct (Prim2SF x) as [[|]|[|]| |[|] m e]; simpl; intros H;
    try reflexivity; contradiction.
Qed.

Lemma sign_clear_not_negative (s : spec_float) : sign_clear s -> not_negative s.
Proof. destruct s as [[|]|[|]| |[|] m e]; simpl; intros H; try exact I; contradiction. Qed.

Lemma round_sign_clear (mx ex : Z) (lx : location) :
  sign_clear (binary_round_aux prec emax false mx ex lx).
Proof.
  pose proof (OIFacts.binary_round_aux_sign false mx ex lx) as H.
  destruct (binary_round_aux _ _ _ _ _ _) as [s|s| |s m e]; simpl; try exact I;
    subst s; exact I.
Qed.

Lemma binary_round_sign_clear (p : positive) (e : Z) :
  sign_clear (binary_round prec emax false p e).
Proof.
  unfold binary_round. destruct (shl_align _ _ _) as [mz ez]. apply round_sign_clear.
Qed.

Lemma normalize_sign_clear (m e : Z) :
  0 <= m -> sign_clear (binary_normalize prec emax m e false).
Proof.
  intros Hm. unfold binary_normalize. destruct m as [|p|p]; [exact I| |lia].
  apply binary_round_sign_clear.
Qed.

Lemma abs_sign_clear (x : num) : sign_clear (Prim2SF (Math_abs x)).
Proof.
  unfold Math_abs. rewrite abs_spec.
  destruct (Prim2SF x) as [[|]|[|]| |[|] m e]; exact I.
Qed.

Lemma add_sign_clear (x y : num) :
  sign_clear (Prim2SF x) -> sign_clear (Prim2SF y) -> sign_clear (Prim2SF (x + y)).
Proof.
  rewrite add_spec. unfold SF64add, SFadd.
  destruct (Prim2SF x) as [[|]|[|]| |[|] mx ex], (Prim2SF y) as [[|]|[|]| |[|] my ey];
    simpl; intros Hx Hy; try exact I; try contradiction.
  apply binary_round_sign_clear.
Qed.

Lemma div_sign_clear (x y : num) :
  sign_clear (Prim2SF x) -> sign_clear (Prim2SF y) -> sign_clear (Prim2SF (x / y)).
Proof.
  rewrite div_spec. unfold SF64div, SFdiv.
  destruct (Prim2SF x) as [[|]|[|]| |[|] mx ex], (Prim2SF y) as [[|]|[|]| |[|] my ey];
    simpl; intros Hx Hy; try exact I; try contradiction.
  destruct (SFdiv_core_binary prec emax (Zpos mx) ex (Zpos my) ey) as [[mz ez] lz].
  apply round_sign_clear.
Qed.

Lemma of_nat_sign_clear (n : nat) : sign_clear (Prim2SF (of_nat n)).
Proof.
  unfold of_nat. rewrite of_uint63_spec. apply normalize_sign_clear.
  apply Uint63.to_Z_bounded.
Qed.

Lemma sum_from_sign_clear (xs : list num) (start : num) :
  sign_clear (Prim2SF start) ->
  Forall (fun x => sign_clear (Prim2SF x)) xs ->
  sign_clear (Prim2SF (fold_left (fun a b => (a + b)%float) xs start)).
Proof.
  revert start. induction xs as [|x xs IH]; simpl; intros start Hs Hxs; [exact Hs|].
  inversion Hxs as [|? ? Hx Hrest]; subst. apply IH; [|exact Hrest].
  apply add_sign_clear; assumption.
Qed.

Lemma pairwise_Forall {A B} (P : B -> Prop) (f : A -> A -> B) (xs : list A) :
  (forall a b, P (f a b)) -> Forall P (pairwise f xs).
Proof.
  intros Hf. induction xs as [|previous [|current rest] IH]; simpl;
    try constructor; [apply Hf|exact IH].
Qed.

Lemma skipn_Forall {A} (P : A -> Prop) (k : nat) (xs : list A) :
  Forall P xs -> Forall P (skipn k xs).
Proof.
  revert xs. induction k as [|k IH]; intros [|x xs] H; simpl; try exact H.
  inversion H; subst. apply IH. assumption.
Qed.

(** X20. The two dispersion measures are never negative: the average true
    range of the window and the standard deviation of any list of numbers
    are NaN or at least 0, whatever the prices (NaN, infinite and negative
    ones included). *)
Theorem X20_dispersion_is_not_negative (c : LegacyCalculator) (values : list num) :
  nan_or_at_least 0 (calculateATR c) = true /\
  nan_or_at_least 0 (calculateStdDev values) = true.
Proof.
  split; apply nan_or_at_least_zero.
  - apply sign_clear_not_negative. unfold calculateATR. destruct (length (trades c) <? 2)%nat; [exact I|].
    destruct (length _ =? 0)%nat; [exact I|].
    apply div_sign_clear; [|apply of_nat_sign_clear].
    unfold sum. apply sum_from_sign_clear; [exact I|].
    unfold slice_last. apply skipn_Forall, pairwise_Forall.
    intros current previous. apply abs_sign_clear.
  - apply SignFacts.calculateStdDev_not_negative.
Qed.

End DispersionFacts.
